(** * anima.ui.version_creator: the version creator dialog

    A shallow embedding of the decision logic of
    [anima/ui/version_creator.py]: the table of previous versions, the
    publish / un-publish context menu, the takes list, the lookup of tree
    items, and the save-as / export-as / reference buttons.

    Widgets are modelled by the values the code reads from them and the
    values it stores into them; the database session is a table of
    [Version] rows with an open transaction; message boxes and calls into
    the host-application adapter ("environment") are recorded in a log. *)

From Stdlib Require Import List String Ascii ZArith Arith Bool Lia.
From Stdlib Require Import Sorting.Sorted Sorting.Permutation.
From Stdlib Require Import Structures.OrdersEx RelationClasses.
From Stdlib Require Import Classes.Morphisms.
Import ListNotations.

Set Implicit Arguments.
Set Default Proof Using "Type".

Local Open Scope string_scope.
Local Open Scope list_scope.

(** ** Python and SQL primitives the dialog relies on *)

Module Py.

(** [l[i]] for a Python list: indices [-len l .. len l - 1] are valid, a
    negative index counts from the end, anything else raises
    [IndexError] (here [None]). *)
Definition getitem {A : Type} (l : list A) (i : Z) : option A :=
  let n := Z.of_nat (List.length l) in
  if (0 <=? i)%Z then nth_error l (Z.to_nat i)
  else if (- n <=? i)%Z then nth_error l (Z.to_nat (n + i))
  else None.

(** [c.lower()] on one character: [A-Z] is moved to [a-z]. *)
Definition lower_ascii (c : ascii) : ascii :=
  let n := nat_of_ascii c in
  if (65 <=? n)%nat && (n <=? 90)%nat then ascii_of_nat (n + 32) else c.

(** [s.lower()]. *)
Fixpoint lower (s : string) : string :=
  match s with
  | EmptyString => EmptyString
  | String c s' => String (lower_ascii c) (lower s')
  end.

(** [sub in s] for strings: [sub] occurs somewhere in [s]. *)
Fixpoint contains (sub s : string) : bool :=
  String.prefix sub s ||
  match s with
  | EmptyString => false
  | String _ s' => contains sub s'
  end.

(** [s.endswith(suffix)] *)
Fixpoint endswith (s suffix : string) : bool :=
  (s =? suffix)%string
  || match s with
     | EmptyString => false
     | String _ s' => endswith s' suffix
     end.

(** [os.path.join(a, b)] for POSIX paths and a [b] that does not start
    with [/]: a [/] is put between the two unless [a] is empty or ends
    with one. *)
Definition path_join (a b : string) : string :=
  if (a =? "")%string || endswith a "/" then (a ++ b)%string
  else (a ++ "/" ++ b)%string.

(** [sorted(l, key=key)] is a stable sort. [insert_by] puts [x] in front
    of the first element that is not below it, and [sort_by] inserts the
    elements from the right, so equal keys keep their original order. *)
Section Sorted.
Variables (A : Type) (le : A -> A -> bool).

Fixpoint insert_by (x : A) (l : list A) : list A :=
  match l with
  | [] => [x]
  | y :: l' => if le x y then x :: l else y :: insert_by x l'
  end.

Fixpoint sort_by (l : list A) : list A :=
  match l with
  | [] => []
  | x :: l' => insert_by x (sort_by l')
  end.
End Sorted.

Definition sorted {A : Type} (l : list A) (key : A -> string) : list A :=
  sort_by (fun a b => String.leb (key a) (key b)) l.

End Py.


Module Sql.

(** [s LIKE p]: [%] stands for any run of characters, [_] for any one
    character, every other character for itself. *)
Fixpoint like (p s : string) : bool :=
  match p with
  | EmptyString => match s with EmptyString => true | _ => false end
  | String c p' =>
      if Ascii.eqb c "%" then
        (fix any (s : string) : bool :=
           like p' s ||
           match s with
           | EmptyString => false
           | String _ s' => any s'
           end) s
      else if Ascii.eqb c "_" then
        match s with
        | EmptyString => false
        | String _ s' => like p' s'
        end
      else
        match s with
        | EmptyString => false
        | String d s' => Ascii.eqb c d && like p' s'
        end
  end.

(** [column.ilike(p)]: SQLAlchemy renders it as
    [lower(column) LIKE lower(p)]. *)
Definition ilike (s p : string) : bool := like (Py.lower p) (Py.lower s).

(** [query(distinct(column))]: every value once. *)
Definition distinct (l : list string) : list string := nodup string_dec l.

(** [.order_by(column.desc())] for a natural-number column. *)
Definition order_by_desc {A : Type} (column : A -> nat) (l : list A) : list A :=
  Py.sort_by (fun a b => (column b <=? column a)%nat) l.

(** [.limit(n)]. *)
Definition limit {A : Type} (n : nat) (l : list A) : list A := firstn n l.

(** [.first()]. *)
Definition first {A : Type} (l : list A) : option A := hd_error l.

End Sql.

(** ** The Stalker entities the dialog reads and writes *)

Module Stalker.

Record Group := { group_id : nat; group_name : string }.

Record User := { user_id : nat; user_name : string; groups : list Group }.

Record Project := { project_id : nat; project_name : string }.

(** [children] holds the ids of the sub-tasks. *)
Record Task := {
  task_id : nat;
  task_name : string;
  responsible : list User;
  resources : list User;
  children : list nat }.

(** [Task.is_container]: the task has child tasks. *)
Definition is_container (t : Task) : bool :=
  match children t with [] => false | _ :: _ => true end.

(** [Task.is_leaf]: the task has no child tasks. *)
Definition is_leaf (t : Task) : bool := negb (is_container t).

(** [inputs] holds the ids of the versions this version uses. *)
Record Version := {
  version_id : nat;
  task : Task;
  take_name : string;
  version_number : nat;
  is_published : bool;
  created_by : option User;
  updated_by : option User;
  description : string;
  inputs : list nat;
  absolute_path : string;
  absolute_full_path : string;
  filename : string;
  nice_name : string }.

(** What a tree item carries in its [task] attribute. *)
Inductive Entity :=
| AProject (p : Project)
| ATask (t : Task).

Definition name (e : Entity) : string :=
  match e with
  | AProject p => project_name p
  | ATask t => task_name t
  end.

(** Equality of the records: two records that agree on every column, the
    id among them, are the same row. This is what the SQL comparisons of
    the dialog decide. Python's [==] between two tasks or projects is
    Stalker's [__eq__], which does not look at the id; it is a parameter
    ([entity_eq]) of the definitions that use it. *)
Definition Group_eq_dec (a b : Group) : {a = b} + {a <> b}.
Proof. decide equality; auto using Nat.eq_dec, string_dec. Defined.

Definition User_eq_dec (a b : User) : {a = b} + {a <> b}.
Proof.
  decide equality; auto using Nat.eq_dec, string_dec, list_eq_dec, Group_eq_dec.
Defined.

Definition Task_eq_dec (a b : Task) : {a = b} + {a <> b}.
Proof.
  decide equality;
    auto using Nat.eq_dec, string_dec, list_eq_dec, User_eq_dec.
Defined.

(** Attribute assignments on a version. *)
Definition set_is_published (b : bool) (v : Version) : Version :=
  {| version_id := version_id v; task := task v; take_name := take_name v;
     version_number := version_number v; is_published := b;
     created_by := created_by v; updated_by := updated_by v;
     description := description v; inputs := inputs v;
     absolute_path := absolute_path v;
     absolute_full_path := absolute_full_path v;
     filename := filename v; nice_name := nice_name v |}.

Definition set_updated_by (u : option User) (v : Version) : Version :=
  {| version_id := version_id v; task := task v; take_name := take_name v;
     version_number := version_number v; is_published := is_published v;
     created_by := created_by v; updated_by := u;
     description := description v; inputs := inputs v;
     absolute_path := absolute_path v;
     absolute_full_path := absolute_full_path v;
     filename := filename v; nice_name := nice_name v |}.

Definition set_description (d : string) (v : Version) : Version :=
  {| version_id := version_id v; task := task v; take_name := take_name v;
     version_number := version_number v; is_published := is_published v;
     created_by := created_by v; updated_by := updated_by v;
     description := d; inputs := inputs v;
     absolute_path := absolute_path v;
     absolute_full_path := absolute_full_path v;
     filename := filename v; nice_name := nice_name v |}.

(** *** The database session

    [rows] is the Version table as the open transaction sees it,
    [committed] the table as of the last commit, [group_rows] the Group
    table, which the dialog only reads. *)
Record Session := {
  rows : list Version;
  committed : list Version;
  group_rows : list Group }.

(** A row with the id of [v] is replaced by [v]; a version that has no row
    yet gets one at the end. *)
Fixpoint put_row (v : Version) (l : list Version) : list Version :=
  match l with
  | [] => [v]
  | r :: l' =>
      if (version_id r =? version_id v)%nat then v :: l'
      else r :: put_row v l'
  end.

(** [DBSession.add(v)] *)
Definition add (v : Version) (s : Session) : Session :=
  {| rows := put_row v (rows s); committed := committed s;
     group_rows := group_rows s |}.

(** [DBSession.commit()] *)
Definition commit (s : Session) : Session :=
  {| rows := rows s; committed := rows s; group_rows := group_rows s |}.

(** [DBSession.rollback()] *)
Definition rollback (s : Session) : Session :=
  {| rows := committed s; committed := committed s;
     group_rows := group_rows s |}.

End Stalker.
Import Stalker.

(** ** Exceptions, the environment adapter and the trace of the dialog *)

Inductive exception :=
| RuntimeError (msg : string)
| PublishError (msg : string)
| TypeError (msg : string)
| ValueError (msg : string)
| IndexError
| AttributeError
| OtherError (msg : string).

(** How a handler ends. *)
Inductive outcome :=
| Return
| Raise (e : exception).

(** The host-application adapter. [save_as] receives the version and the
    paths that exist on disk, and either raises or returns the version as
    it left it together with the paths that exist afterwards; [export_as]
    and [reference] return the exception they raise, if any. *)
Record Environment := {
  env_name : string;
  representations : list string;
  get_current_version : option Version;
  save_as : Version -> list string -> exception + (Version * list string);
  export_as : Version -> option exception;
  reference : Version -> bool -> option exception }.

(** What the dialog shows and calls, in the order it happens. *)
Inductive event :=
| critical (title text : string)
| warning (title text : string)
| information (title text : string)
| question (title text : string)
| env_save_as (v : Version)
| env_export_as (v : Version)
| env_reference (v : Version) (use_namespace : bool)
| open_browser_in_location (path : string)
| upload_version_output (v : Version) (file_path : string)
| clipboard_setText (text : string)
| print (text : string)
| close.

(** ** The tasks tree *)

(** An item of the tree model: its display text, its [task] attribute and
    its child rows. *)
Unset Elimination Schemes.
Inductive TaskItem :=
| Item (text : string) (item_task : Entity) (rows_below : list TaskItem).
Set Elimination Schemes.

Definition item_text (it : TaskItem) : string :=
  match it with Item t _ _ => t end.

Definition task_of (it : TaskItem) : Entity :=
  match it with Item _ e _ => e end.

(** A model index: the row numbers from the top level down to the item.
    The empty list is the invalid index. *)
Definition QModelIndex := list nat.

(** [model.itemFromIndex(index)] *)
Fixpoint itemFromIndex (model : list TaskItem) (index : QModelIndex)
  : option TaskItem :=
  match index with
  | [] => None
  | r :: below =>
      match nth_error model r with
      | None => None
      | Some (Item _ _ cs as it) =>
          match below with
          | [] => Some it
          | _ :: _ => itemFromIndex cs below
          end
      end
  end.

(** [model.match(start, Qt.DisplayRole, value, -1, Qt.MatchRecursive)]: all
    hits, exact comparison, every row from [start] on followed at once by
    the hits among its descendants. [match_item] gives the hits at and
    below one item, relative to that item. *)
Fixpoint match_item (value : string) (it : TaskItem) : list QModelIndex :=
  match it with
  | Item t _ cs =>
      (if (t =? value)%string then [[]] else []) ++
      (fix below (l : list TaskItem) (r : nat) {struct l} : list QModelIndex :=
         match l with
         | [] => []
         | c :: l' => map (cons r) (match_item value c) ++ below l' (S r)
         end) cs 0%nat
  end.

Fixpoint match_rows (value : string) (l : list TaskItem) (r : nat)
  : list QModelIndex :=
  match l with
  | [] => []
  | c :: l' => map (cons r) (match_item value c) ++ match_rows value l' (S r)
  end.

(** The start index is [model.index(0, 0)]. *)
Definition model_match (model : list TaskItem) (value : string)
  : list QModelIndex :=
  match_rows value model 0.

(** ** The dialog *)

(** What the handlers read from the widgets and from the user. *)
Record Ui := {
  get_logged_in_user : option User;
  mode : nat;
  environment : option Environment;
  (* tasks_treeView *)
  tasks_treeView_model : list TaskItem;
  selectedIndexes : list QModelIndex;
  is_updating : bool;
  (* takes_listWidget *)
  current_take_name : string;
  (* check boxes, spin box, text fields *)
  repr_as_separate_takes_checkBox : bool;
  show_published_only_checkBox : bool;
  publish_checkBox : bool;
  useNameSpace_checkBox : bool;
  version_count_spinBox : nat;
  description_textEdit : string;
  environment_comboBox : string;
  environment_name_format : string;
  (* previous_versions_tableWidget *)
  currentRow : Z;
  (* answers of the user to the dialogs a handler opens *)
  question_answer_is_No : bool;
  getText : string * bool;
  getOpenFileName : string;
  (* helpers outside this module *)
  browser_raises_IOError : string -> bool;
  logger_level_is_DEBUG : bool }.

(** What the handlers change. *)
Record State := {
  DBSession : Session;
  files : list string;
  take_names : list string;
  versions : list Version;
  log : list event }.

Definition with_session (s : Session) (st : State) : State :=
  {| DBSession := s; files := files st; take_names := take_names st;
     versions := versions st; log := log st |}.

Definition with_files (fs : list string) (st : State) : State :=
  {| DBSession := DBSession st; files := fs; take_names := take_names st;
     versions := versions st; log := log st |}.

Definition with_take_names (l : list string) (st : State) : State :=
  {| DBSession := DBSession st; files := files st; take_names := l;
     versions := versions st; log := log st |}.

Definition with_versions (l : list Version) (st : State) : State :=
  {| DBSession := DBSession st; files := files st;
     take_names := take_names st; versions := l; log := log st |}.

Definition emit (e : event) (st : State) : State :=
  {| DBSession := DBSession st; files := files st;
     take_names := take_names st; versions := versions st;
     log := log st ++ [e] |}.

(** [os.path.exists] *)
Definition os_path_exists (fs : list string) (p : string) : bool :=
  if in_dec string_dec p fs then true else false.

(** The line feed of the Python literals. *)
Definition LF : string := String (ascii_of_nat 10) EmptyString.

(** The characters a rich-text message box displays: the text outside the
    tags. *)
Fixpoint visible_text (in_tag : bool) (s : string) : string :=
  match s with
  | EmptyString => EmptyString
  | String c s' =>
      if in_tag then visible_text (negb (Ascii.eqb c ">")) s'
      else if Ascii.eqb c "<" then visible_text true s'
      else String c (visible_text false s')
  end.

(** [VersionsTableWidget.current_version] *)
Definition current_version (versions : list Version) (currentRow : Z)
  : option Version :=
  let index := currentRow in
  match Py.getitem versions index with
  | Some version => Some version
  | None => None
  end.

(** [VersionsTableWidget.update_content], as far as the list of versions
    goes: [clear()] empties it and the new list is stored. *)
Definition update_content (vs : list Version) (st : State) : State :=
  with_versions vs (with_versions [] st).

(** [get_item_indices_containing_text] *)
Definition get_item_indices_containing_text (text : string)
    (treeView : list TaskItem) : list QModelIndex :=
  let model := treeView in
  model_match model text.

(** [find_entity_item_in_tree_view]; the loop over [indexes] is
    [first_item_of]. [entity_eq a b] is [a == b], Stalker's [__eq__]. *)
Fixpoint first_item_of (entity_eq : Entity -> Entity -> bool)
    (model : list TaskItem) (entity : Entity)
    (indexes : list QModelIndex) : option TaskItem :=
  match indexes with
  | [] => None
  | index :: rest =>
      match itemFromIndex model index with
      | Some item =>
          if entity_eq (task_of item) entity then Some item
          else first_item_of entity_eq model entity rest
      | None => first_item_of entity_eq model entity rest
      end
  end.

Definition find_entity_item_in_tree_view
    (entity_eq : Entity -> Entity -> bool) (entity : option Entity)
    (treeView : list TaskItem) : option TaskItem :=
  match entity with
  | None => None
  | Some entity =>
      let indexes := get_item_indices_containing_text (name entity) treeView in
      let model := treeView in
      first_item_of entity_eq model entity indexes
  end.

(** [get_task] *)
Definition get_task (ui : Ui) : option Entity :=
  match selectedIndexes ui with
  | [] => None
  | current_index :: _ =>
      match itemFromIndex (tasks_treeView_model ui) current_index with
      | Some current_item => Some (task_of current_item)
      | None => None
      end
  end.

(** [user in users], where [user] may be [None]. *)
Definition user_in (user : option User) (users : list User) : bool :=
  match user with
  | Some u => if in_dec User_eq_dec u users then true else false
  | None => false
  end.

(** [update_previous_versions_tableWidget] *)
Definition update_previous_versions_tableWidget (ui : Ui) (st : State)
  : State :=
  let st := with_versions [] st in
  match get_task ui with
  | Some (ATask task) =>
      (* do not display any version for a container task *)
      if is_container task then st
      else
        let take_name := current_take_name ui in
        if (take_name =? "")%string then st
        else
          (* query the Versions of this type and take *)
          let query :=
            filter (fun v =>
                      (if Task_eq_dec (Stalker.task v) task then true else false)
                      && (Stalker.take_name v =? take_name)%string)
                   (rows (DBSession st)) in
          (* get the published only *)
          let query :=
            if show_published_only_checkBox ui
            then filter is_published query else query in
          (* show how many *)
          let count := version_count_spinBox ui in
          let versions :=
            Sql.limit count (Sql.order_by_desc version_number query) in
          let versions := rev versions in
          update_content versions st
  | _ => st
  end.

(** ** More of the dialog: selecting a version, finding a task in the tree,
    recent files, open and import *)

(** [==] on versions is equality of the records. *)
Definition Version_eq_dec (a b : Version) : {a = b} + {a <> b}.
Proof.
  decide equality;
    auto using Nat.eq_dec, string_dec, Bool.bool_dec, list_eq_dec, Task_eq_dec;
    decide equality; apply User_eq_dec.
Defined.

(** The loop of [VersionsTableWidget.select_version]: the first row, counted
    from [i], whose version equals [version], or [-1]. *)
Fixpoint row_of (versions : list Version) (version : Version) (i : Z) : Z :=
  match versions with
  | [] => (-1)%Z
  | prev_version :: rest =>
      if Version_eq_dec prev_version version then i
      else row_of rest version (i + 1)
  end.

(** [VersionsTableWidget.select_version]: the current row afterwards. The
    table has an item in the first column of every row of [versions], as
    [update_content] leaves it. *)
Definition select_version (versions : list Version) (version : Version)
    (currentRow : Z) : Z :=
  let index := row_of versions version 0 in
  if (index =? -1)%Z then currentRow else index.

(** *** The tree view *)

(** What the dialog reads of a task beyond the record above, and what the
    tree model does when the view expands an index: the model loads the
    rows below an item when the item is expanded, so expanding may change
    the model. *)
Record Hierarchy := {
  project : Task -> Project;
  parents : Task -> list Task;
  setExpanded : list TaskItem -> QModelIndex -> list TaskItem }.

(** The tree view: its model, its selection, the indices the dialog has
    expanded, and the [is_updating] flag. *)
Record TreeView := {
  tv_model : list TaskItem;
  tv_selectedIndexes : list QModelIndex;
  tv_expanded : list QModelIndex;
  tv_is_updating : bool }.

Definition set_is_updating (b : bool) (tv : TreeView) : TreeView :=
  {| tv_model := tv_model tv; tv_selectedIndexes := tv_selectedIndexes tv;
     tv_expanded := tv_expanded tv; tv_is_updating := b |}.

Definition set_selection (l : list QModelIndex) (tv : TreeView) : TreeView :=
  {| tv_model := tv_model tv; tv_selectedIndexes := l;
     tv_expanded := tv_expanded tv; tv_is_updating := tv_is_updating tv |}.

(** [find_entity_item_in_tree_view], keeping the index of the item it
    returns (its [item.index()]). *)
Fixpoint first_indexed_item_of (entity_eq : Entity -> Entity -> bool)
    (model : list TaskItem) (entity : Entity)
    (indexes : list QModelIndex) : option (QModelIndex * TaskItem) :=
  match indexes with
  | [] => None
  | index :: rest =>
      match itemFromIndex model index with
      | Some item =>
          if entity_eq (task_of item) entity then Some (index, item)
          else first_indexed_item_of entity_eq model entity rest
      | None => first_indexed_item_of entity_eq model entity rest
      end
  end.

Definition find_entity_item_with_index
    (entity_eq : Entity -> Entity -> bool) (entity : option Entity)
    (treeView : list TaskItem) : option (QModelIndex * TaskItem) :=
  match entity with
  | None => None
  | Some entity =>
      let indexes := get_item_indices_containing_text (name entity) treeView in
      let model := treeView in
      first_indexed_item_of entity_eq model entity indexes
  end.

(** [if item: treeView.setExpanded(item.index(), True)] *)
Definition expand_item (h : Hierarchy)
    (item : option (QModelIndex * TaskItem)) (tv : TreeView) : TreeView :=
  match item with
  | Some (index, _) =>
      {| tv_model := setExpanded h (tv_model tv) index;
         tv_selectedIndexes := tv_selectedIndexes tv;
         tv_expanded := tv_expanded tv ++ [index];
         tv_is_updating := tv_is_updating tv |}
  | None => tv
  end.

(** [load_task_item_hierarchy] *)
Definition load_task_item_hierarchy (entity_eq : Entity -> Entity -> bool)
    (h : Hierarchy) (task : option Task) (tv : TreeView)
  : option (QModelIndex * TaskItem) * TreeView :=
  match task with
  | None => (None, tv)
  | Some task =>
      let tv := set_is_updating true tv in
      let item :=
        find_entity_item_with_index entity_eq (Some (ATask task))
          (tv_model tv) in
      let '(item, tv) :=
        match item with
        | Some _ => (item, tv)
        | None =>
            (* the item is not loaded to the UI yet: start loading its
               parents, from the project *)
            let item :=
              find_entity_item_with_index entity_eq
                (Some (AProject (project h task))) (tv_model tv) in
            let tv := expand_item h item tv in
            (* now starting from the most outer parent expand the tasks *)
            let tv :=
              fold_left
                (fun tv parent =>
                   expand_item h
                     (find_entity_item_with_index entity_eq
                        (Some (ATask parent)) (tv_model tv))
                     tv)
                (parents h task) tv in
            (* finally select the task *)
            (find_entity_item_with_index entity_eq (Some (ATask task))
               (tv_model tv),
             tv)
        end in
      (item, set_is_updating false tv)
  end.

(** [find_and_select_entity_item_in_treeView] *)
Definition find_and_select_entity_item_in_treeView
    (entity_eq : Entity -> Entity -> bool) (h : Hierarchy)
    (task : option Task) (tv : TreeView)
  : option (QModelIndex * TaskItem) * TreeView :=
  match task with
  | None => (None, tv)
  | Some _ =>
      match load_task_item_hierarchy entity_eq h task tv with
      | (None, tv) => (None, set_selection [] tv)
      | (Some (index, item), tv) =>
          (Some (index, item), set_selection [index] tv)
      end
  end.

(** *** Recent files *)

(** The recent file manager, as the dictionary it keeps on disk: the
    recent paths of each environment name. Every [RecentFileManager()] of
    the dialog reads this dictionary, and only [save()] writes it. *)
Definition RecentFileManager := list (string * list string).

(** [rfm[key]]; [None] is [KeyError]. *)
Fixpoint rfm_getitem (rfm : RecentFileManager) (key : string)
  : option (list string) :=
  match rfm with
  | [] => None
  | (k, l) :: rest => if (k =? key)%string then Some l else rfm_getitem rest key
  end.

(** [rfm[key] = value] *)
Fixpoint rfm_setitem (rfm : RecentFileManager) (key : string)
    (value : list string) : RecentFileManager :=
  match rfm with
  | [] => [(key, value)]
  | (k, l) :: rest =>
      if (k =? key)%string then (k, value) :: rest
      else (k, l) :: rfm_setitem rest key value
  end.

(** [os.path.split(p)[-1]] for POSIX paths: what follows the last [/]. *)
Fixpoint split_tail (p : string) : string :=
  match p with
  | EmptyString => EmptyString
  | String c p' =>
      if Py.contains "/" p' then split_tail p'
      else if Ascii.eqb c "/" then p' else p
  end.

(** An entry of the recent files combo box. *)
Record ComboItem := {
  item_label : string;
  userData : string;
  toolTip : string }.

(** [comboBox.addItem(text, userData)] *)
Definition addItem (text data : string) (box : list ComboItem)
  : list ComboItem :=
  box ++ [{| item_label := text; userData := data; toolTip := "" |}].

(** [comboBox.setItemData(i, value, Qt.ToolTipRole)]; a row that does not
    exist is left alone. *)
Fixpoint setItemData (i : nat) (value : string) (box : list ComboItem)
  : list ComboItem :=
  match box, i with
  | [], _ => []
  | it :: rest, O =>
      {| item_label := item_label it; userData := userData it;
         toolTip := value |} :: rest
  | it :: rest, S i' => it :: setItemData i' value rest
  end.

(** The entry that stands for a path: its label is what follows the last
    [/], its data and its tool tip are the path. *)
Definition recent_entry (full_path : string) : ComboItem :=
  {| item_label := split_tail full_path; userData := full_path;
     toolTip := full_path |}.

(** The recent files on disk and the entries of the combo box. The signals
    the combo box emits while it is refilled are not followed. *)
Record Recent := {
  recent_files_on_disk : RecentFileManager;
  recent_files_comboBox : list ComboItem }.

(** [clear_recent_files] *)
Definition clear_recent_files (ui : Ui) (r : Recent) : Recent :=
  match environment ui with
  | Some environment =>
      let rfm := recent_files_on_disk r in
      let rfm := rfm_setitem rfm (env_name environment) [] in
      {| recent_files_on_disk := rfm;
         recent_files_comboBox := recent_files_comboBox r |}
  | None => r
  end.

(** The loop of [update_recent_files_combo_box] over
    [enumerate(recent_files[:50])], from row [i] on. *)
Fixpoint add_recent_files (i : nat) (recent_files : list string)
    (box : list ComboItem) : list ComboItem :=
  match recent_files with
  | [] => box
  | full_path :: rest =>
      let filename := split_tail full_path in
      let box := addItem filename full_path box in
      let box := setItemData i full_path box in
      add_recent_files (S i) rest box
  end.

(** [update_recent_files_combo_box]. The empty path is inserted into the
    list that was read, which is not saved. *)
Definition update_recent_files_combo_box (ui : Ui) (r : Recent) : Recent :=
  let box := [] in
  let box :=
    match environment ui with
    | Some environment =>
        let rfm := recent_files_on_disk r in
        match rfm_getitem rfm (env_name environment) with
        | Some recent_files =>
            let recent_files := "" :: recent_files in
            add_recent_files 0 (firstn 50 recent_files) box
        | None => box
        end
    | None => box
    end in
  {| recent_files_on_disk := recent_files_on_disk r;
     recent_files_comboBox := box |}.

(** [clear_recent_file_push_button_clicked] *)
Definition clear_recent_file_push_button_clicked (ui : Ui) (r : Recent)
  : Recent :=
  update_recent_files_combo_box ui (clear_recent_files ui r).

(** *** Open and import *)

(** The depths of the reference depth combo box. *)
Definition ref_depth_res : list string :=
  ["As Saved"; "All"; "Top Level Only"; "None"].

(** [l.index(x)]; [None] is [ValueError]. *)
Fixpoint list_index (l : list string) (x : string) : option nat :=
  match l with
  | [] => None
  | y :: rest =>
      if (y =? x)%string then Some 0%nat
      else option_map S (list_index rest x)
  end.

(** What the environment's [open] returns, as far as the dialog reads it. *)
Record reference_resolution := {
  create : list Version;
  update : list Version }.

(** The [open] and [import_] methods of the environment. [env_open] takes
    the version, the force flag, the representation, the reference depth
    and the skip-update-check flag. The version is whatever the table gives
    as its current version, [None] included. *)
Record Opening := {
  env_open : option Version -> bool -> string -> nat -> bool
             -> exception + reference_resolution;
  import_ : option Version -> bool -> option exception }.

(** What the open button reads beside the table. *)
Record OpenWidgets := {
  checkUpdates_checkBox : bool;
  representations_comboBox : string;
  ref_depth_comboBox : string;
  answer_is_Yes : bool }.

(** What the open and import handlers show and call, in order. *)
Inductive action :=
| ui_event (e : event)
| call_open (v : option Version) (force : bool) (representation : string)
    (reference_depth : nat) (skip_update_check : bool)
| call_import (v : option Version) (use_namespace : bool)
| version_updater_dialog (resolution : reference_resolution).

Definition unsaved_changes_question : event :=
  question "RuntimeError"
    ("There are <b>unsaved changes</b> in the current "
     ++ "scene<br><br>Do you really want to open the file?").

(** The end of [open_pushButton_clicked], once [open] has returned. *)
Definition after_open (resolution : reference_resolution)
    (done : list action) : outcome * list action :=
  let done :=
    match create resolution, update resolution with
    | [], [] => done
    | _, _ => done ++ [version_updater_dialog resolution]
    end in
  (* close the dialog *)
  (Return, done ++ [ui_event close]).

(** [open_pushButton_clicked] *)
Definition open_pushButton_clicked (ui : Ui) (w : OpenWidgets)
    (methods : Opening) (versions : list Version) : outcome * list action :=
  let old_version := current_version versions (currentRow ui) in
  let skip_update_check := negb (checkUpdates_checkBox w) in
  (* call the environments open method *)
  match environment ui with
  | Some _ =>
      let repr_name := representations_comboBox w in
      match list_index ref_depth_res (ref_depth_comboBox w) with
      | None =>
          (* [ref_depth_res.index] raises [ValueError] for a text that is
             not a depth; the message is Python's and is not modelled *)
          (Raise (ValueError "is not in list"), [])
      | Some ref_depth =>
          let done :=
            [call_open old_version false repr_name ref_depth
               skip_update_check] in
          match env_open methods old_version false repr_name ref_depth
                  skip_update_check with
          | inr resolution => after_open resolution done
          | inl (RuntimeError _) =>
              (* pop a dialog and ask if the user really wants to open the
                 file *)
              let done := done ++ [ui_event unsaved_changes_question] in
              if answer_is_Yes w then
                let done :=
                  done ++ [call_open old_version true repr_name ref_depth
                             skip_update_check] in
                match env_open methods old_version true repr_name ref_depth
                        skip_update_check with
                | inr resolution => after_open resolution done
                | inl e => (Raise e, done)
                end
              else
                (* no, just return *)
                (Return, done)
          | inl e => (Raise e, done)
          end
      end
  | None => (Return, [ui_event close])
  end.

(** [import_pushButton_clicked] *)
Definition import_pushButton_clicked (ui : Ui) (methods : Opening)
    (versions : list Version) : outcome * list action :=
  (* get the previous version *)
  let previous_version := current_version versions (currentRow ui) in
  (* call the environments import_ method *)
  match environment ui with
  | Some _ =>
      let use_namespace := useNameSpace_checkBox ui in
      let done := [call_import previous_version use_namespace] in
      match import_ methods previous_version use_namespace with
      | Some e => (Raise e, done)
      | None =>
          (* inform the user about what happened *)
          if logger_level_is_DEBUG ui then (Return, done)
          else
            match previous_version with
            | None => (Raise AttributeError, done)
            | Some previous_version =>
                (Return,
                 done ++ [ui_event (information "Import"
                                   (filename previous_version ++ LF ++ LF
                                    ++ " has been imported correctly!"))])
            end
      end
  | None => (Return, [])
  end.

(** ** A small production, used in the examples at the end *)

Definition power_users : Group := {| group_id := 1; group_name := "Power Users" |}.
Definition artists : Group := {| group_id := 2; group_name := "Artists" |}.

Definition lead : User :=
  {| user_id := 1; user_name := "lead"; groups := [artists] |}.
Definition admin : User :=
  {| user_id := 2; user_name := "admin"; groups := [power_users] |}.
Definition artist : User :=
  {| user_id := 3; user_name := "artist"; groups := [artists] |}.
Definition guest : User :=
  {| user_id := 4; user_name := "guest"; groups := [] |}.

Definition film : Project := {| project_id := 1; project_name := "Film" |}.

(** [chair] is a container with the two leaf tasks [chair_model] and
    [chair_look]. *)
Definition chair : Task :=
  {| task_id := 10; task_name := "Chair"; responsible := [lead];
     resources := []; children := [11; 12] |}.
Definition chair_model : Task :=
  {| task_id := 11; task_name := "Model"; responsible := [lead];
     resources := [artist]; children := [] |}.
Definition chair_look : Task :=
  {| task_id := 12; task_name := "Look"; responsible := [lead];
     resources := [artist]; children := [] |}.
Definition table_model : Task :=
  {| task_id := 13; task_name := "Model"; responsible := [lead];
     resources := []; children := [] |}.

(** A twin of [chair_model]: another row of the Task table with the same
    attributes. *)
Definition chair_model_twin : Task :=
  {| task_id := 21; task_name := "Model"; responsible := [lead];
     resources := [artist]; children := [] |}.

(** [==] between the entities of the small production, the way Stalker
    compares them: by their kind and their attributes, never by the id. *)
Definition same_entity (a b : Entity) : bool :=
  match a, b with
  | AProject p, AProject q => (project_name p =? project_name q)%string
  | ATask t, ATask u =>
      (task_name t =? task_name u)%string
      && (if list_eq_dec User_eq_dec (responsible t) (responsible u)
          then true else false)
      && (if list_eq_dec User_eq_dec (resources t) (resources u)
          then true else false)
      && (if list_eq_dec Nat.eq_dec (children t) (children u)
          then true else false)
  | _, _ => false
  end.

Definition a_version (id : nat) (t : Task) (take : string) (number : nat)
    (published : bool) (uses : list nat) : Version :=
  {| version_id := id; task := t; take_name := take;
     version_number := number; is_published := published;
     created_by := Some artist; updated_by := Some artist;
     description := ""; inputs := uses;
     absolute_path := "/film/chair"; absolute_full_path := "/film/chair/v";
     filename := "v"; nice_name := "Chair" |}.

Definition main1 : Version := a_version 1 chair_model "Main" 1 true [].
Definition main2 : Version := a_version 2 chair_model "Main" 2 false [].
Definition main3 : Version := a_version 3 chair_model "Main" 3 true [].
Definition gpu1 : Version := a_version 4 chair_model "Main@GPU" 1 false [].
Definition other_gpu2 : Version :=
  a_version 5 chair_model "NotMain@GPU" 2 true [].
Definition alt1 : Version := a_version 6 chair_model "alt" 1 false [].
Definition look1 : Version := a_version 7 chair_look "Main" 1 false [3].
Definition ass1 : Version := a_version 8 chair_model "Main@ASS" 1 false [].

Definition table : list Version :=
  [main1; main2; main3; gpu1; other_gpu2; alt1; look1; ass1].

Definition session : Session :=
  {| rows := table; committed := table; group_rows := [power_users; artists] |}.

Definition tree : list TaskItem :=
  [Item "Film" (AProject film)
     [Item "Chair" (ATask chair)
        [Item "Model" (ATask chair_model) [];
         Item "Look" (ATask chair_look) []];
      Item "Model" (ATask table_model) []]].

(** An environment whose [save_as] writes the file of the version. *)
Definition writing_env : Environment :=
  {| env_name := "Maya"; representations := ["GPU"; "ASS"];
     get_current_version := None;
     save_as := fun v fs => inr (v, absolute_full_path v :: fs);
     export_as := fun _ => None;
     reference := fun _ _ => None |}.

(** An environment whose [save_as] returns without writing the file. *)
Definition idle_env : Environment :=
  {| env_name := "Maya"; representations := ["GPU"; "ASS"];
     get_current_version := None;
     save_as := fun v fs => inr (v, fs);
     export_as := fun _ => None;
     reference := fun _ _ => None |}.

(** An environment whose [save_as] raises. *)
Definition failing_env : Environment :=
  {| env_name := "Maya"; representations := ["GPU"; "ASS"];
     get_current_version := None;
     save_as := fun _ _ => inl (RuntimeError "unsaved changes");
     export_as := fun _ => None;
     reference := fun _ _ => None |}.

(** The dialog with the task at [selected] chosen in the tree, the take
    [take] chosen in the takes list and [row] the current row of the
    table. *)
Definition a_ui (user : option User) (env : option Environment)
    (selected : list QModelIndex) (take : string) (row : Z) : Ui :=
  {| get_logged_in_user := user; mode := 0; environment := env;
     tasks_treeView_model := tree; selectedIndexes := selected;
     is_updating := false; current_take_name := take;
     repr_as_separate_takes_checkBox := false;
     show_published_only_checkBox := false;
     publish_checkBox := false; useNameSpace_checkBox := true;
     version_count_spinBox := 2; description_textEdit := "";
     environment_comboBox := "Maya"; environment_name_format := "%n (%e)";
     currentRow := row; question_answer_is_No := false;
     getText := ("", false); getOpenFileName := "";
     browser_raises_IOError := fun _ => false;
     logger_level_is_DEBUG := true |}.

Definition a_state (vs : list Version) : State :=
  {| DBSession := session; files := []; take_names := [];
     versions := vs; log := [] |}.

(** The constructor of [Version] as far as the examples need it: the next
    version of the take. *)
Definition next_version (s : Session) (t : Task) (user : option User)
    (take description : string) : exception + Version :=
  if (take =? "")%string then inl (ValueError "take_name can not be empty")
  else inr {| version_id := 100; task := t; take_name := take;
              version_number := 4; is_published := false;
              created_by := user; updated_by := None;
              description := description; inputs := [];
              absolute_path := "/film/chair";
              absolute_full_path := "/film/chair/v004";
              filename := "v004"; nice_name := "Chair" |}.

Definition no_external_env (env_name format : string) : option Environment :=
  None.

(** *** More of the small production *)

(** A tree model that has only the project loaded; expanding the project
    loads the chair and the table model, expanding the chair loads its two
    tasks. *)
Definition unloaded_tree : list TaskItem :=
  [Item "Film" (AProject film) []].

Definition half_loaded_tree : list TaskItem :=
  [Item "Film" (AProject film)
     [Item "Chair" (ATask chair) [];
      Item "Model" (ATask table_model) []]].

Definition studio : Hierarchy :=
  {| project := fun _ => film;
     parents := fun t => if (task_id t =? 13)%nat then [] else [chair];
     setExpanded := fun model index =>
       match index with
       | [0%nat] => match model with
                    | [Item _ _ []] => half_loaded_tree
                    | _ => model
                    end
       | [0%nat; 0%nat] => tree
       | _ => model
       end |}.

Definition a_tree_view (model : list TaskItem) : TreeView :=
  {| tv_model := model; tv_selectedIndexes := []; tv_expanded := [];
     tv_is_updating := false |}.

Definition some_recent : Recent :=
  {| recent_files_on_disk :=
       [("Maya", ["/film/chair/v003.ma"; "/film/chair/v002.ma"]);
        ("Nuke", ["/film/comp.nk"])];
     recent_files_comboBox := [] |}.



(** An environment whose scene has unsaved changes: [open] raises unless
    it is forced. *)
Definition unsaved_scene : Opening :=
  {| env_open := fun v force _ _ _ =>
       if force then inr {| create := []; update := [main1] |}
       else inl (RuntimeError "unsaved changes");
     import_ := fun _ _ => None |}.

Definition open_widgets (yes : bool) : OpenWidgets :=
  {| checkUpdates_checkBox := true; representations_comboBox := "Base";
     ref_depth_comboBox := "Top Level Only"; answer_is_Yes := yes |}.

(** A constructor of [Version] that refuses every take name. *)
Definition refusing_version (s : Session) (t : Task) (user : option User)
    (take description : string) : exception + Version :=
  inl (ValueError "take_name can not be empty").

(** An environment that has a version of another task open. *)
Definition busy_env : Environment :=
  {| env_name := "Maya"; representations := ["GPU"; "ASS"];
     get_current_version := Some look1;
     save_as := fun v fs => inr (v, absolute_full_path v :: fs);
     export_as := fun _ => None;
     reference := fun _ _ => None |}.

(** The dialog of [a_ui] with the user answering No. *)
Definition a_ui_saying_no (user : option User) (env : option Environment)
    (selected : list QModelIndex) (take : string) (row : Z) : Ui :=
  {| get_logged_in_user := user; mode := 0; environment := env;
     tasks_treeView_model := tree; selectedIndexes := selected;
     is_updating := false; current_take_name := take;
     repr_as_separate_takes_checkBox := false;
     show_published_only_checkBox := false;
     publish_checkBox := false; useNameSpace_checkBox := true;
     version_count_spinBox := 2; description_textEdit := "";
     environment_comboBox := "Maya"; environment_name_format := "%n (%e)";
     currentRow := row; question_answer_is_No := true;
     getText := ("a better chair", true); getOpenFileName := "";
     browser_raises_IOError := fun _ => false;
     logger_level_is_DEBUG := true |}.

(** ** The handlers of the dialog *)

Section MainDialog.

(** Constants and constructors defined outside this module:
    [anima.power_users_group_names], [Representation.repr_separator],
    [Representation.base_repr_name], the constructor of [Version] (which
    reads the session and may raise), [ExternalEnvFactory.get_env], and
    Stalker's [__eq__] between tasks and projects ([entity_eq a b] is
    [a == b]; [a != b] is its negation). *)
Variable entity_eq : Entity -> Entity -> bool.
Variable power_users_group_names : list string.
Variable repr_separator : string.
Variable base_repr_name : string.
Variable new_Version :
  Session -> Task -> option User -> string -> string -> exception + Version.
Variable get_env : string -> string -> option Environment.

(** [is_power_user]; [user.groups] raises for [None]. *)
Definition is_power_user (s : Session) (user : option User)
  : exception + bool :=
  let power_users_groups :=
    filter (fun g =>
              if in_dec string_dec (group_name g) power_users_group_names
              then true else false)
           (group_rows s) in
  match power_users_groups with
  | [] => inr false
  | _ :: _ =>
      match user with
      | None => inl AttributeError
      | Some u =>
          inr (existsb (fun group =>
                          if in_dec Group_eq_dec group (groups u)
                          then true else false)
                       power_users_groups)
      end
  end.

(** [a or b] where only [b] may raise and is not evaluated when [a]
    holds. *)
Definition or_else (a : bool) (b : exception + bool) : exception + bool :=
  if a then inr true else b.

(** The actions the context menu of a version offers. *)
Definition menu_actions (ui : Ui) (version : Version) : list string :=
  [if is_published version then "Un-Publish" else "Publish";
   "Browse Path..."; "Browse Outputs..."; "Upload Output..."; "Copy Path"]
  ++ (if (mode ui =? 0)%nat then ["Change Description..."] else []).

(** [task in related_tasks]: some element of the list is the task itself
    or [==] to it. *)
Definition task_in (task : Task) (related_tasks : list Task) : bool :=
  existsb (fun t =>
             (if Task_eq_dec task t then true else false)
             || entity_eq (ATask task) (ATask t))
          related_tasks.

(** The loop that collects [related_tasks]. *)
Definition related_tasks_of (vs : list Version) : list Task :=
  fold_left (fun related_tasks v =>
               if negb (task_in (task v) related_tasks)
               then related_tasks ++ [task v] else related_tasks)
            vs [].

Definition publish_error : event :=
  critical "Error"
    ("You are not a <b>Responsible</b> of this task<br>"
     ++ "nor a <b>Power User</b><br>"
     ++ "<br>"
     ++ "So, you can not <b>Publish</b> this!!!").

Definition referenced_error (related_tasks : list Task) : event :=
  critical "Error"
    ("This version is referenced by the following "
     ++ "tasks:<br><br>"
     ++ String.concat "<br>" (map task_name related_tasks)
     ++ "<br><br>"
     ++ "So, you can not un-publish this version!").

Definition unpublish_error : event :=
  critical "Error"
    ("You are not a <b>Resource/Responsible</b> of "
     ++ "this task<br> nor a <b>Power User</b><br>"
     ++ "<br>"
     ++ "So, you can not <b>Un-Publish</b> this!!!").

(** [_show_previous_versions_tableWidget_context_menu]: [itemAt] is the
    row of the item under the cursor, [selected_item] the text of the
    action the user picks in the menu. Paths are taken as they are
    ([os.path.expandvars] and [os.path.normpath] are left out). Of
    "Upload Output..." only the call of the media manager is recorded, not
    what the media manager stores. *)
Definition _show_previous_versions_tableWidget_context_menu
    (ui : Ui) (itemAt : option nat) (selected_item : option string)
    (st : State) : outcome * State :=
  match itemAt with
  | None => (Return, st)
  | Some index =>
    match Py.getitem (versions st) (Z.of_nat index) with
    | None => (Raise IndexError, st)
    | Some version =>
      let logged_in_user := get_logged_in_user ui in
      match selected_item with
      | None => (Return, st)
      | Some choice =>
        if (choice =? "Publish")%string then
          (* check if the user is able to publish this *)
          match or_else (user_in logged_in_user (responsible (task version)))
                        (is_power_user (DBSession st) logged_in_user) with
          | inl e => (Raise e, st)
          | inr false => (Return, emit publish_error st)
          | inr true =>
              (* publish it *)
              let version := set_is_published true version in
              let version := set_updated_by logged_in_user version in
              let st := with_session (add version (DBSession st)) st in
              let st := with_session (commit (DBSession st)) st in
              (* refresh the tableWidget *)
              (Return, update_previous_versions_tableWidget ui st)
          end
        else if (choice =? "Un-Publish")%string then
          (* allow the user un-publish this version if it is not used by
             any other versions *)
          let versions_using_this_versions :=
            filter (fun v => existsb (Nat.eqb (version_id version)) (inputs v))
                   (rows (DBSession st)) in
          match versions_using_this_versions with
          | _ :: _ =>
              (Return,
               emit (referenced_error
                       (related_tasks_of versions_using_this_versions)) st)
          | [] =>
            (* check if this user is one of the responsible or a power
               user *)
            match or_else (user_in logged_in_user (responsible (task version)))
                   (or_else (user_in logged_in_user (resources (task version)))
                            (is_power_user (DBSession st) logged_in_user)) with
            | inl e => (Raise e, st)
            | inr false => (Return, emit unpublish_error st)
            | inr true =>
                let version := set_is_published false version in
                let version := set_updated_by logged_in_user version in
                let st := with_session (add version (DBSession st)) st in
                let st := with_session (commit (DBSession st)) st in
                (* refresh the tableWidget *)
                (Return, update_previous_versions_tableWidget ui st)
            end
          end
        else
          let browse (path : string) (st : State) : State :=
            if browser_raises_IOError ui path
            then emit (critical "Error"
                         ("Path doesn't exists:" ++ LF ++ path)) st
            else emit (open_browser_in_location path) st in
          let st :=
            if (choice =? "Browse Path...")%string
            then browse (absolute_full_path version) st else st in
          if (choice =? "Browse Outputs...")%string then
            (Return, browse (Py.path_join (absolute_path version) "Outputs") st)
          else if (choice =? "Upload Output...")%string then
            let file_path := getOpenFileName ui in
            if (file_path =? "")%string then (Return, st)
            else (Return, emit (upload_version_output version file_path) st)
          else if (choice =? "Change Description...")%string then
            let '(new_description, ok) := getText ui in
            if ok then
              (* change the description of the version *)
              let version := set_description new_description version in
              let st := with_session (add version (DBSession st)) st in
              let st := with_session (commit (DBSession st)) st in
              (Return, update_previous_versions_tableWidget ui st)
            else (Return, st)
          else if (choice =? "Copy Path")%string then
            (Return, emit (clipboard_setText (absolute_full_path version)) st)
          else (Return, st)
      end
    end
  end.

(** [tasks_treeView_changed]; the thumbnail is left out. *)
Definition tasks_treeView_changed (ui : Ui) (st : State) : State :=
  if is_updating ui then st
  else
    let task := get_task ui in
    match task with
    | None => st
    | Some task =>
        (* clear the takes_listWidget and fill with new data *)
        let st := with_take_names [] st in
        match task with
        | AProject _ => st
        | ATask task =>
            let takes :=
              if is_leaf task then
                let takes :=
                  Sql.distinct
                    (map take_name
                       (filter (fun v =>
                                  if Task_eq_dec (Stalker.task v) task
                                  then true else false)
                               (rows (DBSession st)))) in
                let takes :=
                  if negb (repr_as_separate_takes_checkBox ui) then
                    (* filter representations *)
                    filter (fun take => negb (Py.contains repr_separator take))
                           takes
                  else takes in
                Py.sorted takes Py.lower
              else [] in
            with_take_names takes st
        end
    end.

(** [get_new_version]. A version that is constructed for a task is
    attached to the task and is from then on pending in the session of the
    task: it is a row of the open transaction, as the assignment that
    follows leaves it, without a call of [DBSession.add]. *)
Definition get_new_version (ui : Ui) (st : State)
  : (exception + option Version) * State :=
  match get_task ui with
  | Some (ATask task) =>
      let take_name := current_take_name ui in
      let user := get_logged_in_user ui in
      let st := match user with None => emit close st | Some _ => st end in
      let description := description_textEdit ui in
      let published := publish_checkBox ui in
      match new_Version (DBSession st) task user take_name description with
      | inl e => (inl e, st)
      | inr version =>
          let version := set_is_published published version in
          (inr (Some version), with_session (add version (DBSession st)) st)
      end
  | _ => (inr None, st)
  end.

Definition leaf_error : event :=
  critical "Error" "Please select a <strong>leaf</strong> task!".

(** [export_as_pushButton_clicked] *)
Definition export_as_pushButton_clicked (ui : Ui) (st : State)
  : outcome * State :=
  (* get the new version *)
  match get_new_version ui st with
  | (inl e, st) => (Raise e, st)
  | (inr None, st) => (Return, st)
  | (inr (Some new_version), st) =>
      (* check if the task is a leaf task *)
      if negb (is_leaf (task new_version)) then (Return, emit leaf_error st)
      else
        (* call the environments export_as method *)
        match environment ui with
        | None => (Return, st)
        | Some environment =>
            let st := emit (env_export_as new_version) st in
            match export_as environment new_version with
            | Some e => (Raise e, st)
            | None =>
                (* inform the user about what happened *)
                if logger_level_is_DEBUG ui then (Return, st)
                else
                  (Return,
                   emit (information "Export"
                           (filename new_version ++ LF ++ LF
                            ++ " has been exported correctly!")) st)
            end
        end
  end.

Definition different_task_question (current_version new_version : Version)
  : event :=
  question "Possible Mistake?"
    ("Saving under different Task<br>"
     ++ "<br>"
     ++ "current version: <b>" ++ nice_name current_version ++ "</b><br>"
     ++ "new version    : <b>" ++ nice_name new_version ++ "</b><br>"
     ++ "<br>"
     ++ "Are you sure?").

Definition not_created_error (environment : Environment) : event :=
  critical "Error"
    ("Something went wrong with " ++ env_name environment ++ LF
     ++ "and the file is not created!" ++ LF ++ LF
     ++ "Please save again!").

(** [save_as_pushButton_clicked] from the call of the environment's
    [save_as] on; paths are taken as they are ([os.path.normpath] is left
    out). *)
Definition save_with (ui : Ui) (environment : Environment)
    (is_external_env : bool) (new_version : Version) (st : State)
  : outcome * State :=
  let st := emit (env_save_as new_version) st in
  match save_as environment new_version (files st) with
  | inl (RuntimeError error_message)
  | inl (PublishError error_message) =>
      let st := emit (print error_message) st in
      let st := emit (critical "Error" error_message) st in
      (Return, with_session (rollback (DBSession st)) st)
  | inl e => (Raise e, st)
  | inr (new_version, fs) =>
      let st := with_files fs st in
      let st :=
        if is_external_env then
          (* set the clipboard to the new_version.absolute_full_path *)
          let v_path := absolute_full_path new_version in
          let st := emit (clipboard_setText v_path) st in
          emit (warning "Path Generated"
                  ("A new Version is created at:" ++ LF ++ LF ++ v_path
                   ++ LF ++ LF
                   ++ "And the path is copied to your clipboard!!!")) st
        else st in
      (* check if the new version is pointing to a valid file *)
      let st :=
        if os_path_exists (files st) (absolute_full_path new_version) then
          (* save the new version to the database *)
          with_session (add new_version (DBSession st)) st
        else
          let st := emit (not_created_error environment) st in
          with_session (rollback (DBSession st)) st in
      let st := with_session (commit (DBSession st)) st in
      if is_external_env then
        (* refresh the UI *)
        (Return, tasks_treeView_changed ui st)
      else
        (* close the UI *)
        (Return, emit close st)
  end.

(** [save_as_pushButton_clicked] *)
Definition save_as_pushButton_clicked (ui : Ui) (st : State)
  : outcome * State :=
  (* get the new version *)
  match get_new_version ui st with
  | (inl (TypeError error_message), st)
  | (inl (ValueError error_message), st) =>
      let st := emit (critical "Error" error_message) st in
      (Return, with_session (rollback (DBSession st)) st)
  | (inl e, st) => (Raise e, st)
  | (inr None, st) => (Return, st)
  | (inr (Some new_version), st) =>
      (* check if the task is a leaf task *)
      if negb (is_leaf (task new_version)) then
        let st := emit leaf_error st in
        (Return, with_session (rollback (DBSession st)) st)
      else
        (* call the environments save_as method *)
        match environment ui with
        | None =>
            (* get the environment *)
            let env_name := environment_comboBox ui in
            match get_env env_name (environment_name_format ui) with
            | None => (Return, with_session (rollback (DBSession st)) st)
            | Some environment => save_with ui environment true new_version st
            end
        | Some environment =>
            (* check if the version the user is trying to create and the
               version that is currently open in the current environment
               belongs to the same task *)
            match get_current_version environment with
            | Some current_version =>
                if negb (entity_eq (ATask (task current_version))
                           (ATask (task new_version)))
                then
                  (* ask to the user if he/she is sure about that *)
                  let st :=
                    emit (different_task_question current_version
                            new_version) st in
                  if question_answer_is_No ui then (Return, st)
                  else save_with ui environment false new_version st
                else save_with ui environment false new_version st
            | None => save_with ui environment false new_version st
            end
        end
  end.

Definition unpublished_reference_error : event :=
  critical "Critical Error"
    ("Referencing <b>un-published versions</b> are only "
     ++ "allowed for Power Users!" ++ LF
     ++ "Please reference a published version of the same Asset/Shot").

(** The query behind [all_reprs]: the versions of the task of
    [previous_version] whose take name is like its take name followed by
    [@%]. *)
Definition all_reprs (s : Session) (previous_version : Version)
  : list Version :=
  filter (fun v =>
            (if Task_eq_dec (task v) (task previous_version)
             then true else false)
            && Sql.ilike (take_name v) (take_name previous_version ++ "@%"))
         (rows s).

(** The pattern built for one representation name. *)
Definition repr_str (take repr_name : string) : string :=
  "%" ++ take ++ repr_separator ++ repr_name ++ "%".

(** The query behind [repr_version]. *)
Definition repr_version (s : Session) (previous_version : Version)
    (repr_name : string) : option Version :=
  Sql.first
    (Sql.order_by_desc version_number
       (filter (fun v =>
                  (if Task_eq_dec (task v) (task previous_version)
                   then true else false)
                  && Sql.ilike (take_name v)
                       (repr_str (take_name previous_version) repr_name))
               (rows s))).

(** The buttons of the "Which Repr.?" box after the base button and
    before the cancel button, with their [repr_version] attribute. *)
Fixpoint repr_buttons (s : Session) (previous_version : Version)
    (repr_names : list string) : list (string * option Version) :=
  match repr_names with
  | [] => []
  | repr_name :: rest =>
      match repr_version s previous_version repr_name with
      | Some v =>
          (repr_name, Some v) :: repr_buttons s previous_version rest
      | None => repr_buttons s previous_version rest
      end
  end.

(** The buttons of the box; the cancel button has no [repr_version]. *)
Definition buttons (s : Session) (environment : Environment)
    (previous_version : Version) : list (string * option Version) :=
  (base_repr_name, Some previous_version)
  :: repr_buttons s previous_version (representations environment)
  ++ [("Cancel", None)].

(** The call of the environment's [reference] and what follows it. *)
Definition reference_with (ui : Ui) (environment : Environment)
    (previous_version : Version) (st : State) : outcome * State :=
  let use_namespace := useNameSpace_checkBox ui in
  let st := emit (env_reference previous_version use_namespace) st in
  match reference environment previous_version use_namespace with
  | Some e => (Raise e, st)
  | None =>
      (* inform the user about what happened *)
      if logger_level_is_DEBUG ui then (Return, st)
      else
        (Return,
         emit (information "Reference"
                 (filename previous_version ++ LF ++ LF
                  ++ " has been referenced correctly!")) st)
  end.

(** [reference_pushButton_clicked]; [clickedButton] is the position of the
    button the user clicks in the "Which Repr.?" box. *)
Definition reference_pushButton_clicked (ui : Ui) (clickedButton : nat)
    (st : State) : outcome * State :=
  (* get the new version *)
  match current_version (versions st) (currentRow ui) with
  | None => (Raise AttributeError, st)
  | Some previous_version =>
      (* allow only published versions to be referenced *)
      if negb (is_published previous_version) then
        (Return, emit unpublished_reference_error st)
      else
        (* call the environments reference method *)
        match environment ui with
        | None => (Return, st)
        | Some environment =>
            (* check if it has any representations *)
            match all_reprs (DBSession st) previous_version with
            | [] => reference_with ui environment previous_version st
            | _ :: _ =>
                (* ask which one to reference *)
                match nth_error
                        (buttons (DBSession st) environment previous_version)
                        clickedButton with
                | None => (Raise AttributeError, st)
                | Some (text, repr_version) =>
                    if negb (text =? "Cancel")%string then
                      match repr_version with
                      | Some v => reference_with ui environment v st
                      | None =>
                          reference_with ui environment previous_version st
                      end
                    else (Return, st)
                end
            end
        end
  end.


(** ** The vocabulary of the properties *)

(** The rows [update_previous_versions_tableWidget] asks the database
    for. *)
Definition in_take (ui : Ui) (task : Task) (v : Version) : Prop :=
  Stalker.task v = task
  /\ take_name v = current_take_name ui
  /\ (show_published_only_checkBox ui = true -> is_published v = true).

(** The same as a test on a row. *)
Definition in_takeb (ui : Ui) (task : Task) (v : Version) : bool :=
  (if Task_eq_dec (Stalker.task v) task then true else false)
  && (take_name v =? current_take_name ui)%string
  && (if show_published_only_checkBox ui then is_published v else true).

(** What the table holds after the update, for a leaf task and a take. *)
Definition shown (ui : Ui) (task : Task) (s : Session) : list Version :=
  let query :=
    filter (fun v =>
              (if Task_eq_dec (Stalker.task v) task then true else false)
              && (Stalker.take_name v =? current_take_name ui)%string)
           (rows s) in
  let query :=
    if show_published_only_checkBox ui then filter is_published query
    else query in
  rev (Sql.limit (version_count_spinBox ui)
         (Sql.order_by_desc version_number query)).

(** The user belongs to a group of the Group table whose name is one of
    [power_users_group_names]. *)
Definition power_user (s : Session) (u : User) : Prop :=
  exists g, In g (group_rows s)
            /\ In (group_name g) power_users_group_names
            /\ In g (groups u).

(** [a] is [b] or [a == b]: what [in] tests for on a list of tasks. *)
Definition same_task (a b : Task) : Prop :=
  a = b \/ entity_eq (ATask a) (ATask b) = true.

(** No task of the list is the same as one before it. *)
Definition distinct_tasks (l : list Task) : Prop :=
  forall before t after,
    l = before ++ t :: after -> forall e, In e before -> ~ same_task t e.

(** Some version of the table has [version] among its inputs. *)
Definition used (s : Session) (version : Version) : Prop :=
  exists w, In w (rows s) /\ In (version_id version) (inputs w).

(** A version other than [version] has it among its inputs. *)
Definition used_by_other (s : Session) (version : Version) : Prop :=
  exists w, In w (rows s) /\ version_id w <> version_id version
            /\ In (version_id version) (inputs w).

(** No call of the environment's [save_as] or [export_as] among the
    events. *)
Definition no_env_call (l : list event) : Prop :=
  forall v, ~ In (env_save_as v) l /\ ~ In (env_export_as v) l.

(** The versions [repr_version] chooses from. *)
Definition repr_match (s : Session) (previous_version : Version)
    (repr_name : string) (v : Version) : Prop :=
  In v (rows s)
  /\ task v = task previous_version
  /\ Sql.ilike (take_name v)
       ("%" ++ take_name previous_version ++ repr_separator ++ repr_name ++ "%")
     = true.

(** ** Properties of the primitives *)

(** Propositional steps, kept from dragging the parameters of the dialog
    into proofs that do not speak of them. *)
Ltac forget_parameters :=
  try clear get_env; try clear new_Version; try clear base_repr_name;
  try clear repr_separator; try clear power_users_group_names;
  try clear entity_eq.

Ltac prop := forget_parameters; tauto.

Tactic Notation "prop_with" tactic(t) := forget_parameters; intuition t.

Lemma getitem_in (A : Type) (l : list A) (i : Z) (x : A) :
  Py.getitem l i = Some x -> In x l.
Proof.
  unfold Py.getitem.
  destruct (0 <=? i)%Z; [ | destruct (- Z.of_nat (List.length l) <=? i)%Z ];
    try discriminate; apply nth_error_In.
Qed.



Section SortBy.
Variables (A : Type) (le : A -> A -> bool).

Lemma insert_by_perm (x : A) (l : list A) :
  Permutation (Py.insert_by le x l) (x :: l).
Proof.
  induction l as [ | y l IH ]; cbn; [ reflexivity | ].
  destruct (le x y); [ reflexivity | ].
  rewrite IH. apply perm_swap.
Qed.

Lemma sort_by_perm (l : list A) : Permutation (Py.sort_by le l) l.
Proof.
  induction l as [ | x l IH ]; cbn; [ constructor | ].
  rewrite insert_by_perm. now constructor.
Qed.

Hypothesis le_total : forall a b, le a b = true \/ le b a = true.

Let R (a b : A) : Prop := le a b = true.

Lemma insert_by_sorted (x : A) (l : list A) :
  Sorted R l -> Sorted R (Py.insert_by le x l).
Proof using le_total.
  induction l as [ | y l IH ]; cbn; intros Hs.
  - repeat constructor.
  - destruct (le x y) eqn:Hxy.
    + constructor; [ assumption | constructor; exact Hxy ].
    + apply Sorted_inv in Hs. destruct Hs as [Hs Hhd].
      constructor; [ auto | ].
      assert (Hyx : R y x) by (destruct (le_total x y); congruence).
      destruct l as [ | z l ]; cbn.
      * constructor; exact Hyx.
      * destruct (le x z); constructor;
          [ exact Hyx | now inversion Hhd ].
Qed.

Lemma sort_by_sorted (l : list A) : Sorted R (Py.sort_by le l).
Proof using le_total.
  induction l as [ | x l IH ]; cbn; [ constructor | ].
  now apply insert_by_sorted.
Qed.

Hypothesis le_trans :
  forall a b c, le a b = true -> le b c = true -> le a c = true.

Lemma sort_by_strongly_sorted (l : list A) :
  StronglySorted R (Py.sort_by le l).
Proof using le_total le_trans.
  apply Sorted_StronglySorted; [ | apply sort_by_sorted ].
  intros a b c. apply le_trans.
Qed.
End SortBy.


Section StronglySorted.
Variables (A : Type) (R : A -> A -> Prop).

Lemma strongly_sorted_app (l1 l2 : list A) :
  StronglySorted R (l1 ++ l2) <->
  StronglySorted R l1 /\ StronglySorted R l2
  /\ (forall a b, In a l1 -> In b l2 -> R a b).
Proof.
  induction l1 as [ | x l1 IH ]; cbn.
  - split.
    + intros H. repeat split; try assumption; try constructor. prop.
    + prop.
  - split.
    + intros H. apply StronglySorted_inv in H. destruct H as [Hs Hall].
      apply IH in Hs. destruct Hs as (H1 & H2 & H12).
      rewrite Forall_app in Hall. destruct Hall as [Ha1 Ha2].
      repeat split; try assumption.
      * now constructor.
      * intros a b [ <- | Ha ] Hb; [ | now apply H12 ].
        rewrite Forall_forall in Ha2. now apply Ha2.
    + intros (H1 & H2 & H12).
      apply StronglySorted_inv in H1. destruct H1 as [H1 Hall].
      constructor.
      * apply IH. repeat split; try assumption.
        intros a b Ha Hb. apply H12; [ now right | assumption ].
      * rewrite Forall_app. split; [ assumption | ].
        rewrite Forall_forall. intros b Hb. apply H12; [ now left | assumption ].
Qed.
End StronglySorted.

Lemma strongly_sorted_rev (A : Type) (R : A -> A -> Prop) (l : list A) :
  StronglySorted R l -> StronglySorted (fun a b => R b a) (rev l).
Proof.
  induction 1 as [ | x l Hs IH Hall ]; cbn; [ constructor | ].
  apply strongly_sorted_app. repeat split.
  - exact IH.
  - repeat constructor.
  - intros a b Ha [ <- | [] ]. apply in_rev in Ha.
    rewrite Forall_forall in Hall. now apply Hall.
Qed.

(** The order of [order_by_desc]. *)
Lemma order_by_desc_perm (A : Type) (column : A -> nat) (l : list A) :
  Permutation (Sql.order_by_desc column l) l.
Proof. apply sort_by_perm. Qed.

Lemma order_by_desc_sorted (A : Type) (column : A -> nat) (l : list A) :
  StronglySorted (fun a b => column b <= column a)
                 (Sql.order_by_desc column l).
Proof.
  unfold Sql.order_by_desc.
  pose proof (@sort_by_strongly_sorted A
                (fun a b => (column b <=? column a)%nat)) as H.
  cbv beta in H.
  assert (Hs : StronglySorted
                 (fun a b => (column b <=? column a)%nat = true)
                 (Py.sort_by (fun a b => (column b <=? column a)%nat) l)).
  { apply H.
    - intros a b. rewrite !Nat.leb_le. lia.
    - intros a b c. rewrite !Nat.leb_le. lia. }
  clear H. induction Hs as [ | x l' Hs IH Hall ]; constructor.
  - exact IH.
  - rewrite Forall_forall in *. intros y Hy. apply Nat.leb_le. now apply Hall.
Qed.

(** The order of strings used by [sorted]. *)
Lemma string_leb_lt (a b : string) :
  String.leb a b = true <-> a = b \/ OrdersEx.String_as_OT.lt a b.
Proof.
  unfold String.leb.
  change (String.compare a b) with (OrdersEx.String_as_OT.compare a b).
  destruct (OrdersEx.String_as_OT.compare_spec a b) as [ H | H | H ].
  - prop.
  - prop.
  - split; [ discriminate | ].
    intros [ -> | Hab ]; exfalso.
    + now apply (StrictOrder_Irreflexive b).
    + apply (StrictOrder_Irreflexive a). now transitivity b.
Qed.

Lemma string_leb_trans (a b c : string) :
  String.leb a b = true -> String.leb b c = true -> String.leb a c = true.
Proof.
  rewrite !string_leb_lt.
  intros [ -> | Hab ] [ <- | Hbc ]; auto.
  right. now transitivity b.
Qed.

Lemma sorted_perm (A : Type) (l : list A) (key : A -> string) :
  Permutation (Py.sorted l key) l.
Proof. apply sort_by_perm. Qed.

Lemma sorted_strongly_sorted (A : Type) (l : list A) (key : A -> string) :
  StronglySorted (fun a b => String.leb (key a) (key b) = true)
                 (Py.sorted l key).
Proof.
  unfold Py.sorted.
  apply (@sort_by_strongly_sorted A
           (fun a b => String.leb (key a) (key b))).
  - intros a b. apply String.leb_total.
  - intros a b c. apply string_leb_trans.
Qed.


(** ** The table of previous versions *)


Lemma filter_filter (A : Type) (f g : A -> bool) (l : list A) :
  filter g (filter f l) = filter (fun x => f x && g x) l.
Proof.
  induction l as [ | x l IH ]; cbn; [ reflexivity | ].
  destruct (f x); cbn; [ destruct (g x) | ]; now rewrite IH.
Qed.

Lemma firstn_skipn_sorted (A : Type) (R : A -> A -> Prop) (n : nat)
    (l : list A) :
  StronglySorted R l ->
  StronglySorted R (firstn n l)
  /\ (forall a b, In a (firstn n l) -> In b (skipn n l) -> R a b).
Proof.
  intros Hs. rewrite <- (firstn_skipn n l) in Hs.
  apply strongly_sorted_app in Hs. prop.
Qed.

Lemma in_takeb_spec (ui : Ui) (task : Task) (v : Version) :
  in_takeb ui task v = true <-> in_take ui task v.
Proof.
  unfold in_takeb, in_take. rewrite !andb_true_iff, String.eqb_eq.
  destruct (Task_eq_dec (Stalker.task v) task);
    destruct (show_published_only_checkBox ui);
    prop_with congruence.
Qed.

Lemma shown_spec (ui : Ui) (task : Task) (s : Session) :
  exists hidden : list Version,
    Permutation (shown ui task s ++ hidden) (filter (in_takeb ui task) (rows s))
    /\ (forall v, In v (shown ui task s ++ hidden) <->
                  In v (rows s) /\ in_take ui task v)
    /\ List.length (shown ui task s)
       = Nat.min (version_count_spinBox ui)
                 (List.length (shown ui task s ++ hidden))
    /\ StronglySorted (fun a b => version_number a <= version_number b)
                      (shown ui task s)
    /\ (forall v w, In v hidden -> In w (shown ui task s) ->
                    version_number v <= version_number w).
Proof.
  unfold shown.
  set (q0 := filter _ (rows s)).
  set (query := if show_published_only_checkBox ui then _ else _).
  set (sorted := Sql.order_by_desc version_number query).
  set (n := version_count_spinBox ui).
  exists (skipn n sorted).
  assert (Hquery : query = filter (in_takeb ui task) (rows s)).
  { unfold query, q0, in_takeb.
    destruct (show_published_only_checkBox ui).
    - rewrite filter_filter. reflexivity.
    - apply filter_ext. intros v. now rewrite andb_true_r. }
  assert (Hperm : Permutation (rev (Sql.limit n sorted) ++ skipn n sorted) query).
  { unfold Sql.limit. rewrite <- (Permutation_rev (firstn n sorted)).
    rewrite firstn_skipn. apply order_by_desc_perm. }
  destruct (firstn_skipn_sorted n (order_by_desc_sorted version_number query))
    as [Hs Hcross].
  fold sorted in Hs, Hcross.
  split; [ | split; [ | split; [ | split ] ] ].
  - now rewrite <- Hquery.
  - intros v. rewrite <- in_takeb_spec, <- filter_In, <- Hquery.
    split; apply Permutation_in;
      [ exact Hperm | exact (Permutation_sym Hperm) ].
  - rewrite length_app, length_rev. unfold Sql.limit.
    rewrite length_firstn, length_skipn. lia.
  - apply (strongly_sorted_rev Hs).
  - intros v w Hv Hw. apply in_rev in Hw. now apply Hcross.
Qed.


Lemma update_previous_versions_tableWidget_leaf (ui : Ui) (st : State)
    (task : Task) :
  get_task ui = Some (ATask task) ->
  is_container task = false ->
  current_take_name ui <> "" ->
  versions (update_previous_versions_tableWidget ui st)
  = shown ui task (DBSession st).
Proof.
  intros Ht Hc Hn. unfold update_previous_versions_tableWidget.
  rewrite Ht, Hc. apply String.eqb_neq in Hn. rewrite Hn. reflexivity.
Qed.

(** C6: the table of previous versions is emptied and stays empty when no
    Task is selected, when the selected task is a container and when the
    current take name is empty. Otherwise the rows of the selected task and
    take (the published ones only when the check box asks for it) are
    split, each row going to one side once, into the versions the table
    holds and the versions left out: the table holds as many as the spin
    box allows, in ascending order of version number, and none of the
    versions left out has a higher number than a version that is shown. *)
Theorem update_previous_versions_tableWidget_shows (ui : Ui) (st : State) :
  let st' := update_previous_versions_tableWidget ui st in
  ((forall task, get_task ui <> Some (ATask task)) -> versions st' = [])
  /\ (forall task, get_task ui = Some (ATask task) ->
                   is_container task = true -> versions st' = [])
  /\ (current_take_name ui = "" -> versions st' = [])
  /\ (forall task,
        get_task ui = Some (ATask task) ->
        is_container task = false ->
        current_take_name ui <> "" ->
        exists hidden : list Version,
          Permutation (versions st' ++ hidden)
            (filter (in_takeb ui task) (rows (DBSession st)))
          /\ (forall v, in_takeb ui task v = true <-> in_take ui task v)
          /\ (forall v, In v (versions st' ++ hidden) <->
                        In v (rows (DBSession st)) /\ in_take ui task v)
          /\ List.length (versions st')
             = Nat.min (version_count_spinBox ui)
                       (List.length (versions st' ++ hidden))
          /\ StronglySorted (fun a b => version_number a <= version_number b)
                            (versions st')
          /\ (forall v w, In v hidden -> In w (versions st') ->
                          version_number v <= version_number w)).
Proof.
  cbv zeta. split; [ | split; [ | split ] ].
  - intros Hno. unfold update_previous_versions_tableWidget.
    destruct (get_task ui) as [ [ p | t ] | ]; try reflexivity.
    now destruct (Hno t).
  - intros task Ht Hc. unfold update_previous_versions_tableWidget.
    now rewrite Ht, Hc.
  - intros Hn. unfold update_previous_versions_tableWidget.
    destruct (get_task ui) as [ [ p | t ] | ]; try reflexivity.
    destruct (is_container t); [ reflexivity | ].
    now rewrite Hn.
  - intros task Ht Hc Hn.
    rewrite (@update_previous_versions_tableWidget_leaf ui st task Ht Hc Hn).
    destruct (shown_spec ui task (DBSession st))
      as (hidden & H1 & H2 & H3 & H4 & H5).
    exists hidden. split; [ exact H1 | ].
    split; [ intros v; apply in_takeb_spec | ]. auto.
Qed.


(** ** The takes list *)

Lemma prefix_append (sub s : string) :
  String.prefix sub s = true <-> exists b, s = (sub ++ b)%string.
Proof.
  revert s. induction sub as [ | c sub IH ]; intros s.
  - destruct s; cbn; split; eauto.
  - destruct s as [ | d s ]; cbn.
    + split; [ discriminate | intros [b Hb]; discriminate ].
    + destruct (ascii_dec c d) as [ <- | Hcd ].
      * rewrite IH. split; intros [b Hb]; exists b; congruence.
      * split; [ discriminate | intros [b Hb]; congruence ].
Qed.

(** [Py.contains sub s] holds exactly when [sub] occurs in [s]. *)
Lemma contains_occurs (sub s : string) :
  Py.contains sub s = true <-> exists a b, s = (a ++ sub ++ b)%string.
Proof.
  induction s as [ | c s IH ]; cbn [Py.contains]; rewrite orb_true_iff.
  - split.
    + intros [H | H]; [ | discriminate ].
      apply prefix_append in H. destruct H as [b Hb]. now exists EmptyString, b.
    + intros (a & b & H). left. apply prefix_append.
      destruct a; [ now exists b | discriminate ].
  - rewrite IH, prefix_append. split.
    + intros [ [b Hb] | (a & b & Hab) ].
      * now exists EmptyString, b.
      * exists (String c a), b. cbn. now rewrite Hab.
    + intros (a & b & H). destruct a as [ | c' a ].
      * left. now exists b.
      * right. exists a, b. cbn in H. congruence.
Qed.

Lemma tasks_treeView_changed_leaf (ui : Ui) (st : State) (task : Task) :
  is_updating ui = false ->
  get_task ui = Some (ATask task) ->
  is_leaf task = true ->
  take_names (tasks_treeView_changed ui st)
  = Py.sorted
      (let takes :=
         Sql.distinct
           (map take_name
              (filter (fun v =>
                         if Task_eq_dec (Stalker.task v) task then true else false)
                      (rows (DBSession st)))) in
       if negb (repr_as_separate_takes_checkBox ui)
       then filter (fun take => negb (Py.contains repr_separator take)) takes
       else takes)
      Py.lower.
Proof.
  intros Hu Ht Hl. unfold tasks_treeView_changed. now rewrite Hu, Ht, Hl.
Qed.

(** C4: when the tree view is not being updated and a leaf task is
    selected, the takes list becomes the take names of the versions of
    that task, each once, without the names that contain the representation
    separator unless the check box asks for them, in ascending order of
    the lowercased names. For a project and for a container task the takes
    list is left empty. *)
Theorem tasks_treeView_changed_takes (ui : Ui) (st : State) :
  is_updating ui = false ->
  let st' := tasks_treeView_changed ui st in
  (forall task,
     get_task ui = Some (ATask task) ->
     is_leaf task = true ->
     (forall take,
        In take (take_names st') <->
        (exists v, In v (rows (DBSession st))
                   /\ Stalker.task v = task /\ take_name v = take)
        /\ (repr_as_separate_takes_checkBox ui = false ->
            Py.contains repr_separator take = false))
     /\ NoDup (take_names st')
     /\ StronglySorted
          (fun a b => String.leb (Py.lower a) (Py.lower b) = true)
          (take_names st'))
  /\ (forall p, get_task ui = Some (AProject p) -> take_names st' = [])
  /\ (forall task, get_task ui = Some (ATask task) ->
                   is_container task = true -> take_names st' = []).
Proof.
  intros Hu. cbv zeta. split; [ | split ].
  - intros task Ht Hl.
    rewrite (@tasks_treeView_changed_leaf ui st task Hu Ht Hl). cbv zeta.
    set (names := Sql.distinct _).
    set (takes := if negb _ then _ else _).
    assert (Hnames : forall take,
               In take names <->
               exists v, In v (rows (DBSession st))
                         /\ Stalker.task v = task /\ take_name v = take).
    { intros take. unfold names, Sql.distinct.
      rewrite nodup_In, in_map_iff. split.
      - intros (v & Hv & Hin). apply filter_In in Hin. destruct Hin as [Hin Hf].
        exists v. destruct (Task_eq_dec (Stalker.task v) task); [ | discriminate ].
        auto.
      - intros (v & Hin & Htask & Htake). exists v. split; [ assumption | ].
        apply filter_In. split; [ assumption | ].
        now destruct (Task_eq_dec (Stalker.task v) task). }
    assert (Hnd : NoDup takes).
    { unfold takes. destruct (negb _).
      - apply NoDup_filter. apply NoDup_nodup.
      - apply NoDup_nodup. }
    split; [ | split ].
    + intros take. rewrite <- Hnames.
      transitivity (In take takes).
      * split; apply Permutation_in;
          [ apply sorted_perm | apply Permutation_sym, sorted_perm ].
      * unfold takes. destruct (repr_as_separate_takes_checkBox ui); cbn.
        -- prop_with discriminate.
        -- rewrite filter_In, negb_true_iff. prop.
    + apply (Permutation_NoDup (Permutation_sym (sorted_perm takes Py.lower))).
      exact Hnd.
    + apply sorted_strongly_sorted.
  - intros p Ht. unfold tasks_treeView_changed. now rewrite Hu, Ht.
  - intros task Ht Hc. unfold tasks_treeView_changed.
    rewrite Hu, Ht. unfold is_leaf. now rewrite Hc.
Qed.


(** ** Looking an entity up in the tasks tree *)

Lemma match_item_rows (value : string) (t : string) (e : Entity)
    (cs : list TaskItem) :
  match_item value (Item t e cs)
  = (if (t =? value)%string then [[]] else []) ++ match_rows value cs 0.
Proof.
  cbn [match_item]. f_equal.
  generalize 0%nat. induction cs as [ | c cs IH ]; intros r; cbn.
  - reflexivity.
  - now rewrite IH.
Qed.

Lemma in_match_rows (value : string) (l : list TaskItem) (r : nat)
    (i : QModelIndex) :
  In i (match_rows value l r) <->
  exists k below c,
    i = (r + k) :: below /\ nth_error l k = Some c
    /\ In below (match_item value c).
Proof.
  revert r. induction l as [ | c l IH ]; intros r; cbn [match_rows].
  - split; [ intros [] | ]. intros (k & below & c & _ & H & _).
    now destruct k.
  - rewrite in_app_iff, in_map_iff, IH. split.
    + intros [ (below & <- & Hin) | (k & below & c' & -> & Hn & Hin) ].
      * exists 0, below, c. rewrite Nat.add_0_r. auto.
      * exists (S k), below, c'. rewrite Nat.add_succ_r. auto.
    + intros (k & below & c' & -> & Hn & Hin). destruct k as [ | k ].
      * left. cbn in Hn. injection Hn as <-. exists below.
        rewrite Nat.add_0_r. auto.
      * right. exists k, below, c'. rewrite Nat.add_succ_r. auto.
Qed.

(** The indices [model.match] returns are the indices of the items whose
    text is the value that is looked for, anywhere in the tree. *)
Lemma in_model_match (value : string) (i : QModelIndex)
    (model : list TaskItem) :
  In i (model_match model value) <->
  exists it, itemFromIndex model i = Some it /\ item_text it = value.
Proof.
  unfold model_match. revert model.
  induction i as [ | k below IH ]; intros model.
  - rewrite in_match_rows. cbn. split.
    + intros (k & below & c & H & _). discriminate.
    + intros (it & H & _). discriminate.
  - rewrite in_match_rows. cbn [itemFromIndex]. split.
    + intros (k' & below' & c & Heq & Hn & Hin).
      injection Heq as -> ->. cbn in *. rewrite Hn.
      destruct c as [t e cs]. rewrite match_item_rows in Hin.
      apply in_app_or in Hin. destruct Hin as [Hin | Hin].
      * destruct (String.eqb_spec t value) as [ -> | ]; [ | now destruct Hin ].
        destruct Hin as [ <- | [] ]. now exists (Item value e cs).
      * destruct below' as [ | k'' below'' ].
        -- apply in_match_rows in Hin.
           destruct Hin as (? & ? & ? & ? & _). discriminate.
        -- now apply IH.
    + intros (it & Hit & Htext).
      destruct (nth_error model k) as [ c | ] eqn:Hn; [ | discriminate ].
      exists k, below, c. split; [ reflexivity | ]. split; [ assumption | ].
      destruct c as [t e cs]. rewrite match_item_rows. apply in_or_app.
      destruct below as [ | k' below' ].
      * left. injection Hit as <-. cbn in Htext. subst t.
        rewrite String.eqb_refl. now left.
      * right. apply IH. now exists it.
Qed.

Lemma first_item_of_spec (model : list TaskItem) (entity : Entity)
    (indexes : list QModelIndex) :
  match first_item_of entity_eq model entity indexes with
  | Some item =>
      exists before index after,
        indexes = before ++ index :: after
        /\ itemFromIndex model index = Some item
        /\ entity_eq (task_of item) entity = true
        /\ (forall j it, In j before -> itemFromIndex model j = Some it ->
                         entity_eq (task_of it) entity = false)
  | None =>
      forall j it, In j indexes -> itemFromIndex model j = Some it ->
                   entity_eq (task_of it) entity = false
  end.
Proof.
  induction indexes as [ | index rest IH ]; cbn.
  - intros j it [].
  - destruct (itemFromIndex model index) as [ item | ] eqn:Hitem.
    + destruct (entity_eq (task_of item) entity) eqn:Heq.
      * exists [], index, rest. repeat split; auto.
        intros j it [].
      * destruct (first_item_of entity_eq model entity rest) as [ found | ].
        -- destruct IH as (before & i & after & -> & Hi & Ht & Hb).
           exists (index :: before), i, after. repeat split; auto.
           intros j it [ <- | Hj ] Hit; [ congruence | eauto ].
        -- intros j it [ <- | Hj ] Hit; [ congruence | eauto ].
    + destruct (first_item_of entity_eq model entity rest) as [ found | ].
      * destruct IH as (before & i & after & -> & Hi & Ht & Hb).
        exists (index :: before), i, after. repeat split; auto.
        intros j it [ <- | Hj ] Hit; [ congruence | eauto ].
      * intros j it [ <- | Hj ] Hit; [ congruence | eauto ].
Qed.

(** C7: [find_entity_item_in_tree_view] gives [None] for no entity.
    Otherwise the indices it walks are those of all the items of the tree
    whose text is the name of the entity; it gives the item of the first of
    these indices whose task equals the entity, and [None] exactly when no
    such item has a task that equals the entity. Equals is Python's [==],
    which Stalker defines: the item that is returned may carry another
    task than the entity, one that Stalker takes for equal. *)
Theorem find_entity_item_in_tree_view_first (entity : Entity)
    (treeView : list TaskItem) :
  let indexes := get_item_indices_containing_text (name entity) treeView in
  find_entity_item_in_tree_view entity_eq None treeView = None
  /\ (forall i, In i indexes <->
                exists it, itemFromIndex treeView i = Some it
                           /\ item_text it = name entity)
  /\ (forall item,
        find_entity_item_in_tree_view entity_eq (Some entity) treeView
        = Some item ->
        exists before index after,
          indexes = before ++ index :: after
          /\ itemFromIndex treeView index = Some item
          /\ item_text item = name entity
          /\ entity_eq (task_of item) entity = true
          /\ (forall j it, In j before -> itemFromIndex treeView j = Some it ->
                           entity_eq (task_of it) entity = false))
  /\ (find_entity_item_in_tree_view entity_eq (Some entity) treeView = None <->
      forall j it, In j indexes -> itemFromIndex treeView j = Some it ->
                   entity_eq (task_of it) entity = false).
Proof.
  cbv zeta. unfold get_item_indices_containing_text.
  split; [ reflexivity | ]. split; [ intros i; apply in_model_match | ].
  unfold find_entity_item_in_tree_view, get_item_indices_containing_text.
  pose proof (first_item_of_spec treeView entity
                (model_match treeView (name entity))) as Hspec.
  destruct (first_item_of entity_eq treeView entity
              (model_match treeView (name entity)))
    as [ found | ].
  - destruct Hspec as (before & index & after & Heq & Hi & Ht & Hb). split.
    + intros item [= <-]. exists before, index, after.
      repeat split; auto.
      assert (Hin : In index (model_match treeView (name entity))).
      { rewrite Heq. apply in_or_app. right. now left. }
      apply in_model_match in Hin. destruct Hin as (it & Hit & Htext).
      congruence.
    + split; [ discriminate | ]. intros Hnone. exfalso.
      assert (Hin : In index (model_match treeView (name entity))).
      { rewrite Heq. apply in_or_app. right. now left. }
      rewrite (Hnone index found Hin Hi) in Ht. discriminate Ht.
  - split; [ discriminate | ]. split; auto.
Qed.


(** ** Publishing and un-publishing from the context menu *)

Lemma user_in_In (u : User) (l : list User) :
  user_in (Some u) l = true <-> In u l.
Proof.
  unfold user_in. destruct (in_dec User_eq_dec u l); prop_with discriminate.
Qed.

Lemma is_power_user_spec (s : Session) (u : User) :
  exists b, is_power_user s (Some u) = inr b /\ (b = true <-> power_user s u).
Proof.
  unfold is_power_user, power_user.
  set (f := fun g : Group => if in_dec string_dec (group_name g)
                                       power_users_group_names
                             then true else false).
  assert (Hf : forall g, In g (filter f (group_rows s)) <->
                         In g (group_rows s)
                         /\ In (group_name g) power_users_group_names).
  { intros g. rewrite filter_In. unfold f.
    destruct (in_dec string_dec (group_name g) power_users_group_names);
      prop_with discriminate. }
  destruct (filter f (group_rows s)) as [ | g0 gs ] eqn:Hgs.
  - exists false. split; [ reflexivity | ]. split; [ discriminate | ].
    intros (g & Hg & Hn & _). exfalso. apply (proj2 (Hf g)); auto.
  - eexists. split; [ reflexivity | ].
    rewrite existsb_exists. split.
    + intros (g & Hin & Hg). exists g. apply Hf in Hin.
      destruct (in_dec Group_eq_dec g (groups u)); [ prop | discriminate ].
    + intros (g & Hin & Hn & Hg). exists g. split; [ apply Hf; auto | ].
      now destruct (in_dec Group_eq_dec g (groups u)).
Qed.

Lemma put_row_in (v : Version) (l : list Version) : In v (put_row v l).
Proof.
  induction l as [ | r l IH ]; cbn; [ now left | ].
  destruct (version_id r =? version_id v)%nat; [ now left | now right ].
Qed.

Lemma update_previous_versions_tableWidget_keeps (ui : Ui) (st : State) :
  let st' := update_previous_versions_tableWidget ui st in
  DBSession st' = DBSession st /\ log st' = log st
  /\ files st' = files st /\ take_names st' = take_names st.
Proof.
  cbv zeta. unfold update_previous_versions_tableWidget.
  destruct (get_task ui) as [ [ p | t ] | ]; cbn; auto.
  destruct (is_container t); cbn; auto.
  destruct (current_take_name ui =? "")%string; cbn; auto.
Qed.

Lemma log_emit_neq (e : event) (st : State) : log (emit e st) <> log st.
Proof.
  cbn. intros H. apply (f_equal (@List.length event)) in H.
  rewrite length_app in H. cbn in H. lia.
Qed.

Lemma after_commit (ui : Ui) (st : State) (v : Version) :
  let st1 := with_session (add v (DBSession st)) st in
  let st2 := with_session (commit (DBSession st1)) st1 in
  let st' := update_previous_versions_tableWidget ui st2 in
  rows (DBSession st') = put_row v (rows (DBSession st))
  /\ committed (DBSession st') = put_row v (rows (DBSession st))
  /\ log st' = log st.
Proof.
  cbv zeta.
  match goal with
  | |- context [update_previous_versions_tableWidget ui ?s] =>
      destruct (update_previous_versions_tableWidget_keeps ui s)
        as (Hs & Hl & _)
  end.
  rewrite Hs, Hl. cbn. auto.
Qed.

(** C1: choosing "Publish" on a version of the table. When the logged-in
    user is among the responsible of the task of the version or is a power
    user, the version, with [is_published] set and [updated_by] set to the
    user, is written to the session and committed, and no dialog is shown;
    otherwise the error dialog is shown and nothing else changes. The
    handler returns in both cases, and no dialog is shown exactly when the
    user is responsible or a power user. *)
Theorem publish_needs_responsible_or_power_user (ui : Ui) (index : nat)
    (version : Version) (u : User) (st : State) :
  Py.getitem (versions st) (Z.of_nat index) = Some version ->
  get_logged_in_user ui = Some u ->
  let allowed :=
    In u (responsible (task version)) \/ power_user (DBSession st) u in
  let published := set_updated_by (Some u) (set_is_published true version) in
  let result :=
    _show_previous_versions_tableWidget_context_menu
      ui (Some index) (Some "Publish") st in
  fst result = Return
  /\ (allowed ->
      is_published published = true
      /\ updated_by published = Some u
      /\ rows (DBSession (snd result))
         = put_row published (rows (DBSession st))
      /\ committed (DBSession (snd result)) = rows (DBSession (snd result))
      /\ In published (committed (DBSession (snd result)))
      /\ log (snd result) = log st)
  /\ (~ allowed -> snd result = emit publish_error st)
  /\ (log (snd result) = log st <-> allowed).
Proof.
  intros Hget Huser. cbv zeta.
  unfold _show_previous_versions_tableWidget_context_menu.
  rewrite Hget, Huser.
  replace ("Publish" =? "Publish")%string with true by reflexivity.
  unfold or_else.
  destruct (is_power_user_spec (DBSession st) u) as (b & Hb & Hpower).
  pose proof (user_in_In u (responsible (task version))) as Hresp.
  destruct (user_in (Some u) (responsible (task version))) eqn:Hin.
  - assert (Hallowed : In u (responsible (task version))) by now apply Hresp.
    set (st1 := with_session _ (with_session _ st)).
    destruct (update_previous_versions_tableWidget_keeps ui st1)
      as (Hs & Hl & _).
    cbn [fst snd]. rewrite Hs, Hl. cbn.
    repeat split; auto using put_row_in. prop.
  - rewrite Hb. destruct b.
    + set (st1 := with_session _ (with_session _ st)).
      destruct (update_previous_versions_tableWidget_keeps ui st1)
        as (Hs & Hl & _).
      cbn [fst snd]. rewrite Hs, Hl. cbn.
      assert (Hallowed : power_user (DBSession st) u) by now apply Hpower.
      repeat split; auto using put_row_in. prop.
    + cbn [fst snd].
      assert (Hno : ~ (In u (responsible (task version))
                       \/ power_user (DBSession st) u)).
      { intros [H | H]; [ apply Hresp in H | apply Hpower in H ]; discriminate. }
      split; [ reflexivity | ]. split; [ prop | ]. split; [ reflexivity | ].
      split; [ | prop ]. intros H. now apply log_emit_neq in H.
Qed.


Lemma used_by_other_used (s : Session) (version : Version) :
  used_by_other s version -> used s version.
Proof. intros (w & Hw & _ & Hin). now exists w. Qed.

Lemma versions_using_spec (s : Session) (version : Version) :
  match
    filter (fun v => existsb (Nat.eqb (version_id version)) (inputs v)) (rows s)
  with
  | [] => ~ used s version
  | _ :: _ => used s version
  end.
Proof.
  set (f := fun v => existsb (Nat.eqb (version_id version)) (inputs v)).
  assert (Hf : forall w, In w (filter f (rows s)) <->
                         In w (rows s) /\ In (version_id version) (inputs w)).
  { intros w. rewrite filter_In. unfold f. rewrite existsb_exists. split.
    - intros (Hw & x & Hx & Heq). apply Nat.eqb_eq in Heq. now subst x.
    - intros (Hw & Hin). split; [ assumption | ].
      exists (version_id version). split; [ assumption | apply Nat.eqb_refl ]. }
  destruct (filter f (rows s)) as [ | w l ].
  - intros (w & Hw). now apply Hf in Hw.
  - exists w. apply Hf. now left.
Qed.

(** C2: choosing "Un-Publish" on a published version of the table. The
    version, with [is_published] cleared and [updated_by] set to the
    logged-in user, is written to the session and committed when no
    version has it among its inputs and the user is among the responsible
    or the resources of its task or is a power user. When another version
    has it among its inputs, or the user is none of these, an error dialog
    is shown and nothing else changes, so the version stays published.
    The handler returns in every case, and when no dialog is shown both
    checks have passed. *)
Theorem unpublish_needs_unused_and_permitted (ui : Ui) (index : nat)
    (version : Version) (u : User) (st : State) :
  Py.getitem (versions st) (Z.of_nat index) = Some version ->
  is_published version = true ->
  get_logged_in_user ui = Some u ->
  let permitted :=
    In u (responsible (task version)) \/ In u (resources (task version))
    \/ power_user (DBSession st) u in
  let unpublished := set_updated_by (Some u) (set_is_published false version) in
  let result :=
    _show_previous_versions_tableWidget_context_menu
      ui (Some index) (Some "Un-Publish") st in
  fst result = Return
  /\ (~ used (DBSession st) version -> permitted ->
      is_published unpublished = false
      /\ updated_by unpublished = Some u
      /\ rows (DBSession (snd result))
         = put_row unpublished (rows (DBSession st))
      /\ committed (DBSession (snd result)) = rows (DBSession (snd result))
      /\ In unpublished (committed (DBSession (snd result)))
      /\ log (snd result) = log st)
  /\ (used_by_other (DBSession st) version \/ ~ permitted ->
      (exists text, snd result = emit (critical "Error" text) st)
      /\ DBSession (snd result) = DBSession st
      /\ Py.getitem (versions (snd result)) (Z.of_nat index) = Some version)
  /\ (used (DBSession st) version ->
      exists text, snd result = emit (critical "Error" text) st)
  /\ (log (snd result) = log st ->
      ~ used_by_other (DBSession st) version /\ permitted).
Proof.
  intros Hget Hpub Huser. cbv zeta.
  unfold _show_previous_versions_tableWidget_context_menu.
  rewrite Hget, Huser.
  replace ("Un-Publish" =? "Publish")%string with false by reflexivity.
  replace ("Un-Publish" =? "Un-Publish")%string with true by reflexivity.
  pose proof (versions_using_spec (DBSession st) version) as Hused.
  destruct (filter _ (rows (DBSession st))) as [ | w ws ].
  - rename Hused into Hunused.
    assert (Hother : ~ used_by_other (DBSession st) version).
    { intros H. now apply Hunused, used_by_other_used. }
    unfold or_else.
    destruct (is_power_user_spec (DBSession st) u) as (b & Hb & Hpower).
    pose proof (user_in_In u (responsible (task version))) as Hresp.
    pose proof (user_in_In u (resources (task version))) as Hres.
    destruct (after_commit ui st
                (set_updated_by (Some u) (set_is_published false version)))
      as (Hrows & Hcomm & Hlog).
    destruct (user_in (Some u) (responsible (task version))) eqn:Hin1;
      [ | destruct (user_in (Some u) (resources (task version))) eqn:Hin2;
          [ | rewrite Hb; destruct b ] ].
    1-3: cbn [fst snd];
      assert (Hperm : In u (responsible (task version))
                      \/ In u (resources (task version))
                      \/ power_user (DBSession st) u)
        by (first [ left; now apply Hresp
                  | right; left; now apply Hres
                  | right; right; now apply Hpower ]);
      split; [ reflexivity | ];
      split; [ intros _ _; rewrite Hcomm, Hrows, Hlog;
               repeat split; apply put_row_in | ];
      split; [ intros [ H | H ];
               [ now destruct (Hother H) | now destruct (H Hperm) ] | ];
      split; [ intros H; now destruct (Hunused H) | ];
      intros _; split; assumption.
    cbn [fst snd].
    assert (Hno : ~ (In u (responsible (task version))
                     \/ In u (resources (task version))
                     \/ power_user (DBSession st) u)).
    { intros [ H | [ H | H ] ];
        [ apply Hresp in H | apply Hres in H | apply Hpower in H ];
        discriminate. }
    split; [ reflexivity | ].
    split; [ intros _ H; now destruct (Hno H) | ].
    split; [ intros _; split; [ eexists; reflexivity | split; [ reflexivity | exact Hget ] ] | ].
    split; [ intros H; now destruct (Hunused H) | ].
    intros H. now apply log_emit_neq in H.
  - rename Hused into Hu. cbn [fst snd].
    split; [ reflexivity | ].
    split; [ intros H; now destruct (H Hu) | ].
    split; [ intros _; split; [ eexists; reflexivity | split; [ reflexivity | exact Hget ] ] | ].
    split; [ intros _; eexists; reflexivity | ].
    intros H. now apply log_emit_neq in H.
Qed.


(** ** Save as, export as *)

Lemma no_env_call_nil : no_env_call [].
Proof. intros v. split; intros []. Qed.

Lemma tasks_treeView_changed_keeps (ui : Ui) (st : State) :
  let st' := tasks_treeView_changed ui st in
  DBSession st' = DBSession st /\ log st' = log st /\ files st' = files st
  /\ versions st' = versions st.
Proof.
  cbv zeta. unfold tasks_treeView_changed.
  destruct (is_updating ui); auto.
  destruct (get_task ui) as [ [ p | t ] | ]; cbn; auto.
Qed.

(** [get_new_version] closes the dialog when nobody is logged in and
    leaves the version it returns pending in the session; it changes
    nothing else. *)
Lemma get_new_version_state (ui : Ui) (st : State)
    (r : exception + option Version) (st1 : State) :
  get_new_version ui st = (r, st1) ->
  exists st0,
    (st0 = st \/ st0 = emit close st)
    /\ match r with
       | inr (Some new_version) =>
           st1 = with_session (add new_version (DBSession st)) st0
       | _ => st1 = st0
       end.
Proof.
  unfold get_new_version.
  destruct (get_task ui) as [ [ p | t ] | ];
    try (intros [= <- <-]; exists st; now split; [ left | ]).
  destruct (get_logged_in_user ui);
    match goal with
    | |- context [new_Version ?a ?b ?c ?d ?e] => destruct (new_Version a b c d e)
    end; intros [= <- <-]; eexists; (split; [ | reflexivity ]); auto.
Qed.

Lemma get_new_version_log (ui : Ui) (st : State)
    (r : exception + option Version) (st1 : State) :
  get_new_version ui st = (r, st1) ->
  committed (DBSession st1) = committed (DBSession st)
  /\ exists pre, log st1 = log st ++ pre /\ no_env_call pre.
Proof.
  intros H. apply get_new_version_state in H.
  destruct H as (st0 & Hst0 & H).
  assert (H1 : committed (DBSession st1) = committed (DBSession st)
               /\ log st1 = log st0).
  { destruct r as [ e | [ v | ] ]; subst st1; destruct Hst0 as [ -> | -> ];
      auto. }
  destruct H1 as [ -> -> ]. destruct Hst0 as [ -> | -> ].
  - split; [ reflexivity | ]. exists []. rewrite app_nil_r.
    split; [ reflexivity | apply no_env_call_nil ].
  - split; [ reflexivity | ]. exists [close]. split; [ reflexivity | ].
    intros v. split; intros [ Hv | [] ]; discriminate.
Qed.

Ltac no_event H := cbn in H; forget_parameters; intuition discriminate.

(** The events of [save_with]: the call of [save_as] on the version it is
    given, and no other call of the environment. *)
Lemma save_with_log (ui : Ui) (environment : Environment) (ext : bool)
    (new_version : Version) (st : State) :
  exists rest,
    log (snd (save_with ui environment ext new_version st))
    = log st ++ env_save_as new_version :: rest
    /\ no_env_call rest.
Proof.
  unfold save_with. cbn [files emit].
  destruct (save_as environment new_version (files st))
    as [ [ m | m | m | m | | | m ] | [ v fs ] ]; cbn [snd].
  1-7: cbn; repeat rewrite <- app_assoc; eexists; split;
    [ reflexivity | intros v; split; intros H; no_event H ].
  destruct ext; cbn [files with_files emit with_session];
    destruct (os_path_exists fs (absolute_full_path v)); cbn [snd].
  1-2: match goal with
       | |- context [tasks_treeView_changed ?u ?s] =>
           destruct (tasks_treeView_changed_keeps u s) as (_ & -> & _)
       end.
  all: cbn; repeat rewrite <- app_assoc; eexists; split;
    [ reflexivity | intros w; split; intros H; no_event H ].
Qed.


Lemma save_with_leaf (ui : Ui) (environment : Environment) (ext : bool)
    (new_version : Version) (st0 st : State) (pre : list event) :
  log st = log st0 ++ pre ->
  no_env_call pre ->
  is_leaf (task new_version) = true ->
  exists new,
    log (snd (save_with ui environment ext new_version st)) = log st0 ++ new
    /\ forall v, In (env_save_as v) new -> is_leaf (task v) = true.
Proof.
  intros Hpre Hno Hleaf.
  destruct (save_with_log ui environment ext new_version st)
    as (rest & Hlog & Hrest).
  exists (pre ++ env_save_as new_version :: rest). split.
  - rewrite Hlog, Hpre, <- app_assoc. reflexivity.
  - intros v Hv. apply in_app_or in Hv. destruct Hv as [ Hv | [ Hv | Hv ] ].
    + now destruct (proj1 (Hno v)).
    + now injection Hv as <-.
    + now destruct (proj1 (Hrest v)).
Qed.

(** A handler that stops after showing [shown] has called nothing. *)
Lemma stops_without_call (st0 st1 : State) (pre shown : list event)
    (P : Version -> Prop) :
  log st1 = log st0 ++ pre ->
  no_env_call pre ->
  no_env_call shown ->
  exists new,
    log st1 ++ shown = log st0 ++ new
    /\ (forall v, In (env_save_as v) new -> P v)
    /\ (forall v, In (env_export_as v) new -> P v).
Proof.
  intros Hpre Hno Hshown. exists (pre ++ shown).
  split; [ now rewrite Hpre, <- app_assoc | ].
  split; intros v Hv; apply in_app_or in Hv; destruct Hv as [ Hv | Hv ];
    exfalso; first [ now apply (proj1 (Hno v)) | now apply (proj2 (Hno v))
                   | now apply (proj1 (Hshown v))
                   | now apply (proj2 (Hshown v)) ].
Qed.

Lemma save_as_pushButton_clicked_leaf (ui : Ui) (st : State) :
  exists new,
    log (snd (save_as_pushButton_clicked ui st)) = log st ++ new
    /\ forall v, In (env_save_as v) new -> is_leaf (task v) = true.
Proof.
  unfold save_as_pushButton_clicked.
  destruct (get_new_version ui st) as [ r st1 ] eqn:Hnew.
  destruct (get_new_version_log _ _ Hnew) as (_ & pre & Hpre & Hno).
  assert (Hstop : forall shown, no_env_call shown ->
            exists new, log st1 ++ shown = log st ++ new
                        /\ forall v, In (env_save_as v) new ->
                                     is_leaf (task v) = true).
  { intros shown Hshown.
    destruct (@stops_without_call st st1 pre shown
                (fun v => is_leaf (task v) = true) Hpre Hno Hshown)
      as (new & H1 & H2 & _). eauto. }
  assert (Hone : forall e, (forall v, e <> env_save_as v) ->
                           (forall v, e <> env_export_as v) ->
                           no_env_call [e]).
  { intros e H1 H2 v. split; intros [ H | [] ]; [ now apply (H1 v) | now apply (H2 v) ]. }
  destruct r as [ e | [ new_version | ] ].
  - destruct e; cbn [snd log emit with_session];
      first [ apply Hstop, Hone; discriminate
            | rewrite <- (app_nil_r (log st1)); apply Hstop, no_env_call_nil ].
  - destruct (is_leaf (task new_version)) eqn:Hleaf; cbn [negb].
    + destruct (environment ui) as [ env | ].
      * destruct (get_current_version env) as [ cv | ].
        -- destruct (entity_eq (ATask (task cv)) (ATask (task new_version)));
             cbn [negb].
           ++ now apply save_with_leaf with (pre := pre).
           ++ destruct (question_answer_is_No ui).
              ** cbn [snd log emit]. apply Hstop, Hone; discriminate.
              ** apply save_with_leaf
                   with (pre := pre ++ [different_task_question cv new_version]);
                   auto.
                 --- cbn. now rewrite Hpre, <- app_assoc.
                 --- intros v. split; intros H; apply in_app_or in H;
                       destruct H as [ H | H ];
                       first [ now apply (proj1 (Hno v))
                             | now apply (proj2 (Hno v)) | no_event H ].
        -- now apply save_with_leaf with (pre := pre).
      * destruct (get_env (environment_comboBox ui) (environment_name_format ui))
          as [ env | ].
        -- now apply save_with_leaf with (pre := pre).
        -- cbn [snd log with_session].
           rewrite <- (app_nil_r (log st1)). apply Hstop, no_env_call_nil.
    + cbn [snd log emit with_session]. apply Hstop, Hone; discriminate.
  - cbn [snd]. rewrite <- (app_nil_r (log st1)). apply Hstop, no_env_call_nil.
Qed.


Lemma export_as_pushButton_clicked_leaf (ui : Ui) (st : State) :
  exists new,
    log (snd (export_as_pushButton_clicked ui st)) = log st ++ new
    /\ forall v, In (env_export_as v) new -> is_leaf (task v) = true.
Proof.
  unfold export_as_pushButton_clicked.
  destruct (get_new_version ui st) as [ r st1 ] eqn:Hnew.
  destruct (get_new_version_log _ _ Hnew) as (_ & pre & Hpre & Hno).
  assert (Hin : forall shown v,
             In (env_export_as v) (pre ++ shown) ->
             In (env_export_as v) shown).
  { intros shown v H. apply in_app_or in H. destruct H as [ H | H ];
      [ now destruct (proj2 (Hno v)) | assumption ]. }
  destruct r as [ e | [ new_version | ] ]; cbn [snd].
  - exists pre. split; [ assumption | ].
    intros v H. now destruct (proj2 (Hno v)).
  - destruct (is_leaf (task new_version)) eqn:Hleaf; cbn [negb].
    + destruct (environment ui) as [ env | ]; cbn [snd].
      * destruct (export_as env new_version); cbn [snd];
          [ | destruct (logger_level_is_DEBUG ui); cbn [snd] ].
        1-2: exists (pre ++ [env_export_as new_version]); split;
          [ cbn; now rewrite Hpre, <- app_assoc
          | intros v H; apply Hin in H; destruct H as [ H | [] ];
            now injection H as <- ].
        eexists (pre ++ [env_export_as new_version; _]); split;
          [ cbn; rewrite Hpre, <- !app_assoc; reflexivity
          | intros v H; apply Hin in H; destruct H as [ H | [ H | [] ] ];
            [ now injection H as <- | discriminate ] ].
      * exists pre. split; [ assumption | ].
        intros v H. now destruct (proj2 (Hno v)).
    + cbn [snd]. exists (pre ++ [leaf_error]). split;
        [ cbn; now rewrite Hpre, <- app_assoc
        | intros v H; apply Hin in H; destruct H as [ H | [] ]; discriminate ].
  - exists pre. split; [ assumption | ].
    intros v H. now destruct (proj2 (Hno v)).
Qed.

(** C3: every call of the environment's [save_as] made by
    [save_as_pushButton_clicked], and every call of its [export_as] made by
    [export_as_pushButton_clicked], is for a version whose task is a leaf
    task. When the task of the new version is not a leaf task, each handler
    shows the error "Please select a leaf task!" (the word leaf in strong
    type) and returns; the save handler also rolls the session back;
    neither has called the environment. *)
Theorem save_and_export_need_leaf_task (ui : Ui) (st : State) :
  let saved := save_as_pushButton_clicked ui st in
  let exported := export_as_pushButton_clicked ui st in
  (exists new,
     log (snd saved) = log st ++ new
     /\ forall v, In (env_save_as v) new -> is_leaf (task v) = true)
  /\ (exists new,
        log (snd exported) = log st ++ new
        /\ forall v, In (env_export_as v) new -> is_leaf (task v) = true)
  /\ (forall new_version st1,
        get_new_version ui st = (inr (Some new_version), st1) ->
        is_leaf (task new_version) = false ->
        saved = (Return,
                 with_session (rollback (DBSession st1)) (emit leaf_error st1))
        /\ exported = (Return, emit leaf_error st1)
        /\ (exists pre, log st1 = log st ++ pre /\ no_env_call pre)
        /\ leaf_error
           = critical "Error" "Please select a <strong>leaf</strong> task!"
        /\ visible_text false "Please select a <strong>leaf</strong> task!"
           = "Please select a leaf task!").
Proof.
  cbv zeta. split; [ apply save_as_pushButton_clicked_leaf | ].
  split; [ apply export_as_pushButton_clicked_leaf | ].
  intros new_version st1 Hnew Hleaf.
  unfold save_as_pushButton_clicked, export_as_pushButton_clicked.
  rewrite Hnew, Hleaf. cbn [negb].
  destruct (get_new_version_log _ _ Hnew) as (_ & Hpre).
  repeat split; auto.
Qed.


(** The session after [save_with], by what the environment's [save_as]
    does. *)
Lemma save_with_session (ui : Ui) (environment : Environment) (ext : bool)
    (new_version : Version) (st : State) :
  let after := save_with ui environment ext new_version st in
  match save_as environment new_version (files st) with
  | inl (RuntimeError msg) | inl (PublishError msg) =>
      after
      = (Return,
         with_session (rollback (DBSession st))
           (emit (critical "Error" msg)
              (emit (print msg) (emit (env_save_as new_version) st))))
  | inl e => after = (Raise e, emit (env_save_as new_version) st)
  | inr (saved, fs) =>
      fst after = Return
      /\ files (snd after) = fs
      /\ exists new,
           log (snd after) = log st ++ new
           /\ if os_path_exists fs (absolute_full_path saved)
              then DBSession (snd after) = commit (add saved (DBSession st))
                   /\ ~ In (not_created_error environment) new
              else DBSession (snd after) = commit (rollback (DBSession st))
                   /\ In (not_created_error environment) new
  end.
Proof.
  cbv zeta. unfold save_with. cbn [files emit].
  destruct (save_as environment new_version (files st))
    as [ [ m | m | m | m | | | m ] | [ saved fs ] ]; try reflexivity.
  destruct ext; cbn [files with_files emit with_session];
    destruct (os_path_exists fs (absolute_full_path saved)); cbn [fst snd].
  1-2: match goal with
       | |- context [tasks_treeView_changed ?u ?s] =>
           destruct (tasks_treeView_changed_keeps u s) as (-> & -> & -> & _)
       end.
  all: cbn; split; [ reflexivity | ]; split; [ reflexivity | ].
  all: repeat rewrite <- app_assoc; eexists; split; [ reflexivity | ].
  all: split; [ reflexivity | ]; cbn.
  all: try (intros H; prop_with discriminate).
  all: prop.
Qed.


(** The events of [save_with] once the environment's [save_as] has
    returned. *)
Lemma save_with_events (ui : Ui) (environment : Environment) (ext : bool)
    (new_version saved : Version) (fs : list string) (st : State) :
  save_as environment new_version (files st) = inr (saved, fs) ->
  fst (save_with ui environment ext new_version st) = Return
  /\ log (snd (save_with ui environment ext new_version st))
     = log st
       ++ env_save_as new_version
       :: (if ext
           then [clipboard_setText (absolute_full_path saved);
                 warning "Path Generated"
                   ("A new Version is created at:" ++ LF ++ LF
                    ++ absolute_full_path saved ++ LF ++ LF
                    ++ "And the path is copied to your clipboard!!!")]
           else [])
       ++ (if os_path_exists fs (absolute_full_path saved) then []
           else [not_created_error environment])
       ++ (if ext then [] else [close]).
Proof.
  intros Hsaved. unfold save_with. cbn [files emit]. rewrite Hsaved.
  destruct ext; cbn [files with_files emit with_session];
    destruct (os_path_exists fs (absolute_full_path saved)); cbn [fst snd].
  1-2: match goal with
       | |- context [tasks_treeView_changed ?u ?s] =>
           destruct (tasks_treeView_changed_keeps u s) as (_ & -> & _)
       end.
  all: cbn; split; [ reflexivity | ].
  all: repeat rewrite <- app_assoc; reflexivity.
Qed.

Lemma save_with_asks_nothing (ui : Ui) (environment : Environment)
    (ext : bool) (new_version : Version) (st : State) :
  exists rest,
    log (snd (save_with ui environment ext new_version st))
    = log st ++ env_save_as new_version :: rest
    /\ (forall v, ~ In (env_save_as v) rest)
    /\ (forall t x, ~ In (question t x) rest).
Proof.
  unfold save_with. cbn [files emit].
  destruct (save_as environment new_version (files st))
    as [ [ m | m | m | m | | | m ] | [ v fs ] ]; cbn [snd].
  1-7: cbn; repeat rewrite <- app_assoc; eexists; split;
    [ reflexivity | split; intros; intros H; no_event H ].
  destruct ext; cbn [files with_files emit with_session];
    destruct (os_path_exists fs (absolute_full_path v)); cbn [snd].
  1-2: match goal with
       | |- context [tasks_treeView_changed ?u ?s] =>
           destruct (tasks_treeView_changed_keeps u s) as (_ & -> & _)
       end.
  all: cbn; repeat rewrite <- app_assoc; eexists; split;
    [ reflexivity | split; intros; intros H; no_event H ].
Qed.

(** The path of [save_as_pushButton_clicked] up to the call of the
    environment: either it stops before the call, having shown at most a
    dialog and committed nothing, or it goes on with [save_with], after at
    most closing the dialog for a missing user and asking the question,
    with the new version pending in the session. *)
Lemma save_as_pushButton_clicked_paths (ui : Ui) (st : State) :
  let result := save_as_pushButton_clicked ui st in
  (exists new,
     log (snd result) = log st ++ new
     /\ (forall v, ~ In (env_save_as v) new)
     /\ committed (DBSession (snd result)) = committed (DBSession st)
     /\ ((exists t x, In (question t x) new) ->
         question_answer_is_No ui = true
         /\ fst result = Return
         /\ exists new_version st0,
              get_new_version ui st = (inr (Some new_version), st0)
              /\ DBSession (snd result) = add new_version (DBSession st)))
  \/ (exists used_environment ext new_version st0 st1 pre,
        result = save_with ui used_environment ext new_version st1
        /\ get_new_version ui st = (inr (Some new_version), st0)
        /\ log st1 = log st ++ pre
        /\ (forall v, ~ In (env_save_as v) pre)
        /\ (forall t x, ~ In (critical t x) pre)
        /\ DBSession st1 = add new_version (DBSession st)
        /\ files st1 = files st
        /\ ((exists t x, In (question t x) pre) ->
            question_answer_is_No ui = false)
        /\ ((environment ui = Some used_environment /\ ext = false)
            \/ (environment ui = None /\ ext = true
                /\ get_env (environment_comboBox ui)
                     (environment_name_format ui)
                   = Some used_environment))).
Proof.
  cbv zeta. unfold save_as_pushButton_clicked.
  destruct (get_new_version ui st) as [ r st1 ] eqn:Hnew.
  pose proof (get_new_version_state _ _ Hnew) as (st0 & Hst0 & Hr).
  assert (Hst1 : exists pre,
             log st1 = log st ++ pre
             /\ (forall v, ~ In (env_save_as v) pre)
             /\ (forall t x, ~ In (question t x) pre)
             /\ (forall t x, ~ In (critical t x) pre)
             /\ committed (DBSession st1) = committed (DBSession st)
             /\ files st1 = files st).
  { assert (H : log st1 = log st0 /\ files st1 = files st0
                /\ committed (DBSession st1) = committed (DBSession st)).
    { destruct r as [ e | [ v | ] ]; subst st1;
        destruct Hst0 as [ -> | -> ]; auto. }
    destruct H as (-> & -> & ->).
    destruct Hst0 as [ -> | -> ]; [ exists [] | exists [close] ]; cbn;
      rewrite ?app_nil_r; repeat split; auto; intros; intros H; no_event H. }
  destruct Hst1 as (pre & Hpre & Hnosave & Hnoq & Hnocrit & Hc & Hf).
  assert (Hstop : forall (o : outcome) (P : Prop) (e : list event),
             (forall v, ~ In (env_save_as v) e) ->
             (forall t x, ~ In (question t x) e) ->
             exists new,
               log st1 ++ e = log st ++ new
               /\ (forall v, ~ In (env_save_as v) new)
               /\ committed (DBSession st1) = committed (DBSession st)
               /\ ((exists t x, In (question t x) new) ->
                   question_answer_is_No ui = true /\ o = Return /\ P)).
  { intros o P e He1 He2. exists (pre ++ e).
    split; [ now rewrite Hpre, app_assoc | ]. split; [ | split ].
    - intros v H. apply in_app_or in H. destruct H as [ H | H ];
        [ now apply (Hnosave v) | now apply (He1 v) ].
    - exact Hc.
    - intros (t & x & H). apply in_app_or in H. destruct H as [ H | H ];
        [ now destruct (Hnoq t x) | now destruct (He2 t x) ]. }
  assert (Hnone : forall (o : outcome) (P : Prop),
             exists new,
               log st1 = log st ++ new
               /\ (forall v, ~ In (env_save_as v) new)
               /\ committed (DBSession st1) = committed (DBSession st)
               /\ ((exists t x, In (question t x) new) ->
                   question_answer_is_No ui = true /\ o = Return /\ P)).
  { intros o P. destruct (Hstop o P []) as (new & H); try (intros; intros []).
    rewrite app_nil_r in H. eauto. }
  destruct r as [ e | [ new_version | ] ].
  - left. destruct e;
      cbn [fst snd log emit with_session DBSession rollback committed];
      first [ apply Hnone
            | apply Hstop; intros; intros H; no_event H ].
  - assert (Hs : DBSession st1 = add new_version (DBSession st)).
    { subst st1. now destruct Hst0 as [ -> | -> ]. }
    destruct (is_leaf (task new_version)); cbn [negb].
    + destruct (environment ui) as [ env | ] eqn:Henv.
      * destruct (get_current_version env) as [ cv | ];
          [ destruct (entity_eq (ATask (task cv)) (ATask (task new_version)));
               cbn [negb];
            [ | destruct (question_answer_is_No ui) eqn:Hno ] | ].
        -- right. exists env, false, new_version, st1, st1, pre.
           repeat split; auto.
           intros (t & x & H). now destruct (Hnoq t x).
        -- left. cbn [fst snd log emit DBSession].
           exists (pre ++ [different_task_question cv new_version]).
           split; [ now rewrite Hpre, app_assoc | ]. split; [ | split ].
           ++ intros v H. apply in_app_or in H. destruct H as [ H | H ];
                [ now apply (Hnosave v) | no_event H ].
           ++ exact Hc.
           ++ intros _. split; [ reflexivity | ]. split; [ reflexivity | ].
              exists new_version, st1. auto.
        -- right.
           exists env, false, new_version, st1,
             (emit (different_task_question cv new_version) st1),
             (pre ++ [different_task_question cv new_version]).
           repeat split; auto.
           ++ cbn. now rewrite Hpre, app_assoc.
           ++ intros v H. apply in_app_or in H. destruct H as [ H | H ];
                [ now apply (Hnosave v) | no_event H ].
           ++ intros t x H. apply in_app_or in H. destruct H as [ H | H ];
                [ now apply (Hnocrit t x) | no_event H ].
        -- right. exists env, false, new_version, st1, st1, pre.
           repeat split; auto.
           intros (t & x & H). now destruct (Hnoq t x).
      * destruct (get_env (environment_comboBox ui) (environment_name_format ui))
          as [ env | ] eqn:Hget.
        -- right. exists env, true, new_version, st1, st1, pre.
           repeat split; auto.
           intros (t & x & H). now destruct (Hnoq t x).
        -- left. cbn [fst snd log with_session DBSession rollback committed].
           destruct (Hnone Return True) as (new & H1 & H2 & H3 & H4).
           exists new. split; [ exact H1 | ]. split; [ exact H2 | ].
           split; [ exact H3 | ].
           intros Hq. exfalso. destruct Hq as (t & x & Hq).
           rewrite Hpre in H1. apply app_inv_head in H1. subst new.
           now apply (Hnoq t x).
    + left. cbn [fst snd log emit with_session DBSession rollback committed].
      destruct (Hstop Return True [leaf_error])
        as (new & H1 & H2 & H3 & H4);
        try (intros; intros H; no_event H).
      exists new. split; [ exact H1 | ]. split; [ exact H2 | ].
      split; [ exact H3 | ].
      intros Hq. exfalso. destruct Hq as (t & x & Hq).
      rewrite Hpre, <- app_assoc in H1. apply app_inv_head in H1. subst new.
      apply in_app_or in Hq. destruct Hq as [ Hq | Hq ];
        [ now apply (Hnoq t x) | no_event Hq ].
  - left. cbn [fst snd]. subst st1.
    destruct (Hnone Return True) as (new & H1 & H2 & H3 & H4).
    exists new. split; [ exact H1 | ]. split; [ exact H2 | ].
    split; [ exact H3 | ].
    intros Hq. exfalso. destruct Hq as (t & x & Hq).
    rewrite Hpre in H1. apply app_inv_head in H1. subst new.
    now apply (Hnoq t x).
Qed.

(** C10: [save_as_pushButton_clicked] changes what is committed only when
    it has called [save_as] of the environment of the dialog (its own, or
    the external one found by name) on the version [get_new_version] gave,
    the call has returned without raising and the file of the version
    exists afterwards; the version as [save_as] left it is then added and
    committed. When the call raises [RuntimeError] or [PublishError] the
    message is printed and shown, the session is rolled back and the
    handler returns; when it returns and the file does not exist the error
    is shown and the session is rolled back and then committed; in both
    cases the session holds what was committed before and nothing else. *)
Theorem save_as_persists_only_an_existing_file (ui : Ui) (st : State) :
  let result := save_as_pushButton_clicked ui st in
  exists new,
    log (snd result) = log st ++ new
    /\ (committed (DBSession (snd result)) <> committed (DBSession st) ->
        exists env new_version st1 saved fs,
          (environment ui = Some env
           \/ (environment ui = None
               /\ get_env (environment_comboBox ui)
                    (environment_name_format ui)
                  = Some env))
          /\ get_new_version ui st = (inr (Some new_version), st1)
          /\ In (env_save_as new_version) new
          /\ save_as env new_version (files st) = inr (saved, fs)
          /\ os_path_exists fs (absolute_full_path saved) = true
          /\ DBSession (snd result)
             = commit (add saved (add new_version (DBSession st)))
          /\ In saved (committed (DBSession (snd result))))
    /\ (forall env new_version,
          environment ui = Some env
          \/ (environment ui = None
              /\ get_env (environment_comboBox ui)
                   (environment_name_format ui)
                 = Some env) ->
          In (env_save_as new_version) new ->
          (forall msg,
             save_as env new_version (files st) = inl (RuntimeError msg)
             \/ save_as env new_version (files st) = inl (PublishError msg) ->
             fst result = Return
             /\ (exists before,
                   new = before ++ [env_save_as new_version; print msg;
                                    critical "Error" msg])
             /\ DBSession (snd result) = rollback (DBSession st)
             /\ committed (DBSession (snd result)) = committed (DBSession st)
             /\ rows (DBSession (snd result)) = committed (DBSession st))
          /\ (forall saved fs,
                save_as env new_version (files st) = inr (saved, fs) ->
                os_path_exists fs (absolute_full_path saved) = false ->
                fst result = Return
                /\ In (not_created_error env) new
                /\ DBSession (snd result) = commit (rollback (DBSession st))
                /\ committed (DBSession (snd result))
                   = committed (DBSession st)
                /\ rows (DBSession (snd result)) = committed (DBSession st))
          /\ (forall saved fs,
                save_as env new_version (files st) = inr (saved, fs) ->
                os_path_exists fs (absolute_full_path saved) = true ->
                fst result = Return
                /\ ~ In (not_created_error env) new
                /\ DBSession (snd result)
                   = commit (add saved (add new_version (DBSession st)))
                /\ In saved (committed (DBSession (snd result))))).
Proof.
  cbv zeta.
  destruct (save_as_pushButton_clicked_paths ui st)
    as [ (new & Hlog & Hnosave & Hc & _)
       | (env' & ext & nv & st0 & st1 & pre & Hres & Hnew & Hpre & Hnosave
          & Hnocrit & Hs & Hf & _ & Hext) ].
  - exists new. split; [ exact Hlog | ]. split.
    + intros H. now destruct H.
    + intros env nv _ Hin. now destruct (Hnosave nv).
  - destruct (save_with_asks_nothing ui env' ext nv st1)
      as (rest & Hlog & Hrest & _).
    exists (pre ++ env_save_as nv :: rest).
    split; [ now rewrite Hres, Hlog, Hpre, <- app_assoc | ].
    assert (Henv' : environment ui = Some env'
                    \/ (environment ui = None
                        /\ get_env (environment_comboBox ui)
                             (environment_name_format ui)
                           = Some env')).
    { destruct Hext as [ [ H1 _ ] | (H1 & _ & H3) ]; auto. }
    pose proof (save_with_session ui env' ext nv st1) as H.
    cbv zeta in H. rewrite <- Hres, Hf, Hs in H.
    split.
    + intros Hchanged.
      destruct (save_as env' nv (files st))
        as [ [ m | m | m | m | | | m ] | [ saved fs ] ] eqn:Hsaved;
        try (rewrite H in Hchanged;
             cbn [snd DBSession emit with_session rollback committed]
               in Hchanged;
             rewrite ?Hs in Hchanged; now destruct Hchanged).
      destruct H as (_ & _ & new & _ & H).
      destruct (os_path_exists fs (absolute_full_path saved)) eqn:He;
        destruct H as [ H _ ].
      * exists env', nv, st0, saved, fs.
        split; [ exact Henv' | ]. split; [ exact Hnew | ].
        split; [ apply in_or_app; right; now left | ].
        split; [ exact Hsaved | ]. split; [ exact He | ].
        split; [ exact H | ]. rewrite H. cbn. apply put_row_in.
      * rewrite H in Hchanged. now destruct Hchanged.
    + intros env nv' Henv Hin.
      assert (Hnv : nv' = nv).
      { apply in_app_or in Hin. destruct Hin as [ Hin | [ Hin | Hin ] ].
        - now destruct (Hnosave nv').
        - now injection Hin.
        - now destruct (Hrest nv'). }
      subst nv'.
      assert (Hsame : env' = env).
      { destruct Henv as [ Henv | [ Henv Hget ] ];
          destruct Henv' as [ H1 | [ H1 H2 ] ]; congruence. }
      subst env'. split; [ | split ].
      * intros msg Hraise.
        assert (Hafter :
                  save_as_pushButton_clicked ui st
                  = (Return,
                     with_session (rollback (add nv (DBSession st)))
                       (emit (critical "Error" msg)
                          (emit (print msg) (emit (env_save_as nv) st1))))).
        { destruct Hraise as [ Hraise | Hraise ]; rewrite Hraise in H;
            exact H. }
        rewrite <- Hres, Hafter in Hlog.
        cbn [snd log with_session emit] in Hlog.
        rewrite <- !app_assoc in Hlog. apply app_inv_head in Hlog.
        cbn [app] in Hlog. injection Hlog as <-.
        rewrite Hafter. cbn [fst snd DBSession with_session].
        split; [ reflexivity | ].
        split; [ exists pre; reflexivity | ].
        repeat split; reflexivity.
      * intros saved fs Hsaved Hmissing. rewrite Hsaved, Hmissing in H.
        destruct H as (Hret & _ & new & Hnewlog & Hsession & Hshown).
        rewrite Hsession. split; [ exact Hret | ].
        split; [ | repeat split; reflexivity ].
        rewrite <- Hres, Hnewlog in Hlog. apply app_inv_head in Hlog.
        subst new. apply in_or_app. now right.
      * intros saved fs Hsaved Hexists. rewrite Hsaved, Hexists in H.
        destruct H as (Hret & _ & new & Hnewlog & Hsession & Hshown).
        rewrite Hsession. split; [ exact Hret | ].
        split; [ | split; [ reflexivity | cbn; apply put_row_in ] ].
        rewrite <- Hres, Hnewlog in Hlog. apply app_inv_head in Hlog.
        subst new. intros Hin'. apply in_app_or in Hin'.
        destruct Hin' as [ Hin' | Hin' ]; [ | now apply Hshown ].
        now apply (Hnocrit _ _ Hin').
Qed.


(** ** Representations and the reference button *)









Lemma repr_version_spec (s : Session) (previous_version : Version)
    (repr_name : string) :
  match repr_version s previous_version repr_name with
  | Some v =>
      repr_match s previous_version repr_name v
      /\ forall w, repr_match s previous_version repr_name w ->
                   version_number w <= version_number v
  | None => forall w, ~ repr_match s previous_version repr_name w
  end.
Proof.
  unfold repr_version, repr_match, repr_str.
  set (f := fun v : Version => _ && _).
  assert (Hf : forall v, In v (filter f (rows s)) <->
                         In v (rows s) /\ task v = task previous_version
                         /\ Sql.ilike (take_name v)
                              ("%" ++ take_name previous_version
                               ++ repr_separator ++ repr_name ++ "%") = true).
  { intros v. rewrite filter_In. unfold f. rewrite andb_true_iff.
    destruct (Task_eq_dec (task v) (task previous_version));
      prop_with discriminate. }
  pose proof (order_by_desc_perm version_number (filter f (rows s))) as Hperm.
  pose proof (order_by_desc_sorted version_number (filter f (rows s))) as Hs.
  destruct (Sql.order_by_desc version_number (filter f (rows s)))
    as [ | v l ]; cbn.
  - intros w Hw. apply Hf in Hw.
    apply (Permutation_in _ (Permutation_sym Hperm)) in Hw. exact Hw.
  - split.
    + apply Hf. apply (Permutation_in _ Hperm). now left.
    + intros w Hw. apply Hf in Hw.
      apply (Permutation_in _ (Permutation_sym Hperm)) in Hw.
      apply StronglySorted_inv in Hs. destruct Hs as [_ Hall].
      destruct Hw as [ <- | Hw ]; [ lia | ].
      rewrite Forall_forall in Hall. now apply Hall.
Qed.

Lemma in_repr_buttons (s : Session) (previous_version : Version)
    (repr_names : list string) (repr_name : string) (v : Version) :
  In (repr_name, Some v) (repr_buttons s previous_version repr_names) <->
  In repr_name repr_names
  /\ repr_version s previous_version repr_name = Some v.
Proof.
  induction repr_names as [ | r l IH ]; cbn [repr_buttons].
  - cbn. prop.
  - destruct (repr_version s previous_version r) as [ w | ] eqn:Hr.
    + cbn [In]. rewrite IH. split.
      * intros [ [= <- <-] | [Hin Hv] ]; auto.
      * intros [ [ <- | Hin ] Hv ]; [ left; congruence | right; auto ].
    + rewrite IH. cbn [In]. split.
      * intros [Hin Hv]. auto.
      * intros [ [ <- | Hin ] Hv ]; [ congruence | auto ].
Qed.




(** A selected version that is not published is refused before anything
    is asked of the environment, whoever is logged in. *)
Lemma reference_unpublished_selected_refused (ui : Ui) (clickedButton : nat)
    (st : State) (v : Version) :
  current_version (versions st) (currentRow ui) = Some v ->
  is_published v = false ->
  reference_pushButton_clicked ui clickedButton st
  = (Return, emit unpublished_reference_error st).
Proof.
  intros Hv Hp. unfold reference_pushButton_clicked. now rewrite Hv, Hp.
Qed.

(** ** Selecting a version in the table *)

Lemma row_of_spec (versions : list Version) (version : Version) (i : Z) :
  (In version versions ->
   exists before after,
     versions = before ++ version :: after
     /\ ~ In version before
     /\ row_of versions version i = (i + Z.of_nat (List.length before))%Z)
  /\ (~ In version versions -> row_of versions version i = (-1)%Z).
Proof.
  revert i. induction versions as [ | v rest IH ]; intros i.
  - split; [ intros [] | reflexivity ].
  - cbn [row_of]. destruct (Version_eq_dec v version) as [ -> | Hne ].
    + split.
      * intros _. exists [], rest. cbn. repeat split; auto. lia.
      * intros H. exfalso. apply H. now left.
    + destruct (IH (i + 1)%Z) as [IHin IHout]. split.
      * intros [ H | H ]; [ now destruct Hne | ].
        destruct (IHin H) as (before & after & -> & Hnot & Hrow).
        exists (v :: before), after. cbn [List.length app].
        repeat split; auto.
        -- intros [ H1 | H1 ]; [ now destruct Hne | now destruct Hnot ].
        -- rewrite Hrow. lia.
      * intros H. apply IHout. intros H1. apply H. now right.
Qed.

Lemma getitem_middle (A : Type) (before after : list A) (x : A) :
  Py.getitem (before ++ x :: after) (Z.of_nat (List.length before)) = Some x.
Proof.
  unfold Py.getitem.
  destruct (Z.leb_spec 0 (Z.of_nat (List.length before))) as [ _ | H ];
    [ | lia ].
  rewrite Nat2Z.id, nth_error_app2, Nat.sub_diag by lia. reflexivity.
Qed.

(** X1: after [select_version] for a version that the table holds, the
    current version of the table is that version, and the row that is
    selected is the first that holds it; for a version the table does not
    hold the current row stays as it was. *)
Theorem select_version_then_current_version (versions : list Version)
    (version : Version) (row : Z) :
  (In version versions ->
   current_version versions (select_version versions version row)
   = Some version
   /\ exists before after,
        versions = before ++ version :: after
        /\ ~ In version before
        /\ select_version versions version row
           = Z.of_nat (List.length before))
  /\ (~ In version versions -> select_version versions version row = row).
Proof.
  destruct (row_of_spec versions version 0) as [Hin Hout]. split.
  - intros H. destruct (Hin H) as (before & after & Heq & Hnot & Hrow).
    assert (Hsel : select_version versions version row
                   = Z.of_nat (List.length before)).
    { unfold select_version. rewrite Hrow. cbn [Z.add].
      destruct (Z.eqb_spec (Z.of_nat (List.length before)) (-1));
        [ lia | reflexivity ]. }
    split.
    + rewrite Hsel. unfold current_version. rewrite Heq at 1.
      now rewrite getitem_middle.
    + exists before, after. auto.
  - intros H. unfold select_version. now rewrite (Hout H).
Qed.

(** ** More of the context menu *)

Lemma task_in_spec (t : Task) (l : list Task) :
  task_in t l = true <-> exists e, In e l /\ same_task t e.
Proof.
  unfold task_in, same_task. rewrite existsb_exists.
  split; intros (e & He & H); exists e; (split; [ exact He | ]).
  - apply orb_true_iff in H. destruct H as [ H | H ]; [ left | now right ].
    now destruct (Task_eq_dec t e).
  - apply orb_true_iff. destruct H as [ H | H ]; [ left | now right ].
    now destruct (Task_eq_dec t e).
Qed.

Lemma distinct_tasks_snoc (l : list Task) (t : Task) :
  distinct_tasks l ->
  (forall e, In e l -> ~ same_task t e) ->
  distinct_tasks (l ++ [t]).
Proof.
  intros Hl Ht before t' after Heq e He.
  destruct after as [ | x after ] using rev_ind.
  - apply app_inj_tail in Heq. destruct Heq as [ -> -> ]. now apply Ht.
  - clear IHafter.
    change (before ++ t' :: after ++ [x])
      with (before ++ (t' :: after) ++ [x]) in Heq.
    rewrite app_assoc in Heq. apply app_inj_tail in Heq.
    destruct Heq as [ Heq _ ]. exact (Hl before t' after Heq e He).
Qed.

Lemma distinct_tasks_nodup (l : list Task) : distinct_tasks l -> NoDup l.
Proof.
  induction l as [ | x l IH ] using rev_ind; intros Hl; [ constructor | ].
  apply NoDup_app.
  - apply IH. intros before t after Heq.
    apply (Hl before t (after ++ [x])). rewrite Heq, <- app_assoc.
    reflexivity.
  - constructor; [ intros [] | constructor ].
  - intros e He [ Hx | [] ]. subst e.
    apply (Hl l x [] eq_refl x He). now left.
Qed.

Lemma related_tasks_fold (vs : list Version) (acc : list Task) :
  let related :=
    fold_left (fun related_tasks v =>
                 if negb (task_in (task v) related_tasks)
                 then related_tasks ++ [task v] else related_tasks)
              vs acc in
  (exists more,
     related = acc ++ more
     /\ forall t, In t more -> exists v, In v vs /\ task v = t)
  /\ (forall v, In v vs -> exists t, In t related /\ same_task (task v) t)
  /\ (distinct_tasks acc -> distinct_tasks related).
Proof.
  cbv zeta. revert acc. induction vs as [ | v vs IH ]; intros acc; cbn.
  - split; [ | split ].
    + exists []. rewrite app_nil_r. split; [ reflexivity | intros t [] ].
    + intros v [].
    + auto.
  - destruct (task_in (task v) acc) eqn:Hin; cbn [negb].
    + destruct (IH acc) as ((more & Heq & Hmore) & Hall & Hd).
      split; [ | split ].
      * exists more. split; [ exact Heq | ].
        intros t Ht. destruct (Hmore t Ht) as (w & Hw & <-). eauto.
      * intros w [ Hw | Hw ]; [ subst w | now apply Hall ].
        apply task_in_spec in Hin. destruct Hin as (e & He & Hsame).
        exists e. split; [ | exact Hsame ].
        rewrite Heq. apply in_or_app. now left.
      * exact Hd.
    + destruct (IH (acc ++ [task v])) as ((more & Heq & Hmore) & Hall & Hd).
      split; [ | split ].
      * exists (task v :: more). split.
        -- rewrite Heq, <- app_assoc. reflexivity.
        -- intros t [ <- | Ht ]; [ eauto | ].
           destruct (Hmore t Ht) as (w & Hw & <-). eauto.
      * intros w [ Hw | Hw ]; [ subst w | now apply Hall ].
        exists (task v). split; [ | now left ].
        rewrite Heq. apply in_or_app. left. apply in_or_app. right. now left.
      * intros Hacc. apply Hd. apply distinct_tasks_snoc; [ exact Hacc | ].
        intros e He Hsame.
        assert (H : task_in (task v) acc = true)
          by (apply task_in_spec; eauto).
        congruence.
Qed.

(** X2: every task named in the error of "Un-Publish" is the task of a
    version that uses the version; the task of every such version is
    named, or a task that Stalker takes for equal to it is; and no task
    that is named is the same as, or equal to, one named before it. *)
Theorem related_tasks_once (vs : list Version) :
  (forall t, In t (related_tasks_of vs) -> exists v, In v vs /\ task v = t)
  /\ (forall v, In v vs ->
                exists t, In t (related_tasks_of vs)
                          /\ (task v = t
                              \/ entity_eq (ATask (task v)) (ATask t) = true))
  /\ (forall before t after,
        related_tasks_of vs = before ++ t :: after ->
        forall e, In e before ->
                  t <> e /\ entity_eq (ATask t) (ATask e) = false)
  /\ NoDup (related_tasks_of vs).
Proof.
  destruct (related_tasks_fold vs []) as ((more & Heq & Hmore) & Hall & Hd).
  fold (related_tasks_of vs) in Heq, Hall, Hd.
  assert (Hdistinct : distinct_tasks (related_tasks_of vs)).
  { apply Hd. intros before t after H. now destruct before. }
  split; [ | split; [ | split ] ].
  - intros t Ht. apply Hmore. now rewrite Heq in Ht.
  - exact Hall.
  - intros before t after H e He.
    pose proof (Hdistinct before t after H e He) as Hno.
    unfold same_task in Hno. split.
    + intros Hte. apply Hno. now left.
    + destruct (entity_eq (ATask t) (ATask e)); [ | reflexivity ].
      destruct Hno. now right.
  - now apply distinct_tasks_nodup.
Qed.

Lemma is_power_user_nobody (s : Session) :
  is_power_user s None = inr false \/ is_power_user s None = inl AttributeError.
Proof.
  unfold is_power_user. destruct (filter _ (group_rows s)); auto.
Qed.

(** X3: with nobody logged in, neither "Publish" nor "Un-Publish" changes
    the session or the table: the handler shows an error dialog, or raises
    [AttributeError] on the groups of the missing user. *)
Theorem nobody_publishes (ui : Ui) (itemAt : option nat) (choice : string)
    (st : State) :
  get_logged_in_user ui = None ->
  choice = "Publish" \/ choice = "Un-Publish" ->
  let result :=
    _show_previous_versions_tableWidget_context_menu
      ui itemAt (Some choice) st in
  DBSession (snd result) = DBSession st
  /\ versions (snd result) = versions st
  /\ (fst result = Return ->
      snd result = st \/ exists text, snd result = emit (critical "Error" text) st).
Proof.
  intros Huser Hchoice. cbv zeta.
  unfold _show_previous_versions_tableWidget_context_menu.
  destruct itemAt as [ index | ]; [ | cbn; auto ].
  destruct (Py.getitem (versions st) (Z.of_nat index)) as [ version | ];
    [ | cbn; auto ].
  rewrite Huser. cbn [user_in or_else].
  assert (Hdone : forall o st',
             (o = Return /\ (exists text, st' = emit (critical "Error" text) st))
             \/ (o = Raise AttributeError /\ st' = st) ->
             DBSession (snd (o, st')) = DBSession st
             /\ versions (snd (o, st')) = versions st
             /\ (fst (o, st') = Return ->
                 snd (o, st') = st
                 \/ exists text, snd (o, st') = emit (critical "Error" text) st)).
  { intros o st' [ (-> & text & ->) | (-> & ->) ]; cbn; repeat split; eauto;
      discriminate. }
  destruct Hchoice as [ -> | -> ].
  - replace ("Publish" =? "Publish")%string with true by reflexivity.
    destruct (is_power_user_nobody (DBSession st)) as [ Hp | Hp ];
      rewrite Hp; apply Hdone; [ left | right ]; split; auto.
    eexists. reflexivity.
  - replace ("Un-Publish" =? "Publish")%string with false by reflexivity.
    replace ("Un-Publish" =? "Un-Publish")%string with true by reflexivity.
    destruct (filter _ (rows (DBSession st))).
    + destruct (is_power_user_nobody (DBSession st)) as [ Hp | Hp ];
        rewrite Hp; apply Hdone; [ left | right ]; split; auto.
      eexists. reflexivity.
    + apply Hdone. left. split; auto. eexists. reflexivity.
Qed.

(** X4: "Change Description..." on a version of the table. When the user
    confirms, the version with the new description, and nothing else of it
    changed, is written to the session and committed, whoever is logged
    in; when the user cancels, nothing changes. No dialog is shown. *)
Theorem change_description_commits (ui : Ui) (index : nat)
    (version : Version) (new_description : string) (ok : bool) (st : State) :
  Py.getitem (versions st) (Z.of_nat index) = Some version ->
  getText ui = (new_description, ok) ->
  let changed := set_description new_description version in
  let result :=
    _show_previous_versions_tableWidget_context_menu
      ui (Some index) (Some "Change Description...") st in
  fst result = Return
  /\ log (snd result) = log st
  /\ (ok = true ->
      rows (DBSession (snd result)) = put_row changed (rows (DBSession st))
      /\ committed (DBSession (snd result)) = rows (DBSession (snd result))
      /\ is_published changed = is_published version
      /\ updated_by changed = updated_by version
      /\ version_id changed = version_id version)
  /\ (ok = false -> snd result = st).
Proof.
  intros Hget Htext. cbv zeta.
  unfold _show_previous_versions_tableWidget_context_menu.
  rewrite Hget, Htext.
  replace ("Change Description..." =? "Publish")%string
    with false by reflexivity.
  replace ("Change Description..." =? "Un-Publish")%string
    with false by reflexivity.
  replace ("Change Description..." =? "Browse Path...")%string
    with false by reflexivity.
  replace ("Change Description..." =? "Browse Outputs...")%string
    with false by reflexivity.
  replace ("Change Description..." =? "Upload Output...")%string
    with false by reflexivity.
  replace ("Change Description..." =? "Change Description...")%string
    with true by reflexivity.
  destruct ok.
  - destruct (after_commit ui st (set_description new_description version))
      as (Hrows & Hcomm & Hlog).
    cbn [fst snd]. rewrite Hrows, Hcomm, Hlog.
    split; [ reflexivity | ]. split; [ reflexivity | ].
    split; [ intros _; repeat split; reflexivity | discriminate ].
  - cbn [fst snd].
    split; [ reflexivity | ]. split; [ reflexivity | ].
    split; [ discriminate | reflexivity ].
Qed.

(** X5: the choices of the context menu that browse to the path or to
    the outputs of the version or copy its path, and any text that is none
    of the actions, leave the session, the table, the takes list and the
    files as they are. ("Upload Output..." hands the chosen file to the
    media manager and is not covered.) *)
Theorem other_choices_keep_the_session (ui : Ui) (itemAt : option nat)
    (choice : string) (st : State) :
  choice <> "Publish" ->
  choice <> "Un-Publish" ->
  choice <> "Change Description..." ->
  choice <> "Upload Output..." ->
  let result :=
    _show_previous_versions_tableWidget_context_menu
      ui itemAt (Some choice) st in
  DBSession (snd result) = DBSession st
  /\ versions (snd result) = versions st
  /\ take_names (snd result) = take_names st
  /\ files (snd result) = files st.
Proof.
  intros H1 H2 H3 H4. cbv zeta.
  unfold _show_previous_versions_tableWidget_context_menu.
  destruct itemAt as [ index | ]; [ | cbn; auto ].
  destruct (Py.getitem (versions st) (Z.of_nat index)) as [ version | ];
    [ | cbn; auto ].
  apply String.eqb_neq in H1, H2, H3, H4. rewrite H1, H2, H3, H4.
  destruct (choice =? "Browse Path...")%string;
    destruct (choice =? "Browse Outputs...")%string;
    destruct (choice =? "Copy Path")%string;
    repeat match goal with
           | |- context [browser_raises_IOError ui ?p] =>
               destruct (browser_raises_IOError ui p)
           end;
    cbn; auto.
Qed.

Lemma shown_rows (ui : Ui) (task : Task) (s : Session) (v : Version) :
  In v (shown ui task s) -> In v (rows s).
Proof.
  intros H. destruct (shown_spec ui task s) as (hidden & _ & Hmem & _).
  apply (Hmem v). apply in_or_app. now left.
Qed.

Lemma table_rows (ui : Ui) (st : State) (v : Version) :
  In v (versions (update_previous_versions_tableWidget ui st)) ->
  In v (rows (DBSession st)).
Proof.
  unfold update_previous_versions_tableWidget.
  destruct (get_task ui) as [ [ p | t ] | ]; try (intros []).
  destruct (is_container t); [ intros [] | ].
  destruct (current_take_name ui =? "")%string; [ intros [] | ].
  apply (@shown_rows ui t).
Qed.

(** X6: after a menu action that writes to the database (a successful
    "Publish", "Un-Publish" or "Change Description..."), every version the
    refreshed table holds is a committed row: the table never keeps the
    version as it was before the action. *)
Theorem table_follows_the_commit (ui : Ui) (itemAt : option nat)
    (selected_item : option string) (st : State) :
  let result :=
    _show_previous_versions_tableWidget_context_menu
      ui itemAt selected_item st in
  DBSession (snd result) <> DBSession st ->
  committed (DBSession (snd result)) = rows (DBSession (snd result))
  /\ forall v, In v (versions (snd result)) ->
               In v (committed (DBSession (snd result))).
Proof.
  cbv zeta.
  assert (Hcommit : forall st0 v,
             let st1 := with_session (add v (DBSession st0)) st0 in
             let st2 := with_session (commit (DBSession st1)) st1 in
             let st' := update_previous_versions_tableWidget ui st2 in
             committed (DBSession st') = rows (DBSession st')
             /\ forall w, In w (versions st') -> In w (committed (DBSession st'))).
  { intros st0 v. cbv zeta.
    destruct (after_commit ui st0 v) as (Hrows & Hcomm & _).
    rewrite Hcomm, Hrows. split; [ reflexivity | ].
    intros w Hw. apply table_rows in Hw. exact Hw. }
  unfold _show_previous_versions_tableWidget_context_menu.
  destruct itemAt as [ index | ]; [ | intros H; now destruct H ].
  destruct (Py.getitem (versions st) (Z.of_nat index)) as [ version | ];
    [ | intros H; now destruct H ].
  destruct selected_item as [ choice | ]; [ | intros H; now destruct H ].
  destruct (choice =? "Publish")%string.
  { destruct (or_else _ _) as [ e | [ | ] ];
      try (intros H; now destruct H).
    intros _. apply Hcommit. }
  destruct (choice =? "Un-Publish")%string.
  { destruct (filter _ (rows (DBSession st)));
      [ | intros H; now destruct H ].
    destruct (or_else _ _) as [ e | [ | ] ];
      try (intros H; now destruct H).
    intros _. apply Hcommit. }
  cbv zeta.
  destruct (choice =? "Browse Path...")%string;
    destruct (choice =? "Browse Outputs...")%string;
    destruct (choice =? "Upload Output...")%string;
    destruct (choice =? "Change Description...")%string;
    destruct (choice =? "Copy Path")%string;
    repeat match goal with
           | |- context [browser_raises_IOError ui ?p] =>
               destruct (browser_raises_IOError ui p)
           | |- context [(getOpenFileName ui =? "")%string] =>
               destruct (getOpenFileName ui =? "")%string
           | |- context [getText ui] => destruct (getText ui) as [ d [ | ] ]
           end;
    cbv beta iota;
    first [ intros H; now destruct H | intros _; apply Hcommit ].
Qed.

(** X7: refreshing the table twice is refreshing it once, and what the
    table held before does not matter; the refresh writes nothing to the
    session, the files, the takes list or the log. *)
Theorem update_previous_versions_tableWidget_again (ui : Ui) (st : State)
    (vs : list Version) :
  update_previous_versions_tableWidget ui
    (update_previous_versions_tableWidget ui st)
  = update_previous_versions_tableWidget ui st
  /\ update_previous_versions_tableWidget ui (with_versions vs st)
     = update_previous_versions_tableWidget ui st
  /\ DBSession (update_previous_versions_tableWidget ui st) = DBSession st
  /\ files (update_previous_versions_tableWidget ui st) = files st
  /\ take_names (update_previous_versions_tableWidget ui st) = take_names st
  /\ log (update_previous_versions_tableWidget ui st) = log st.
Proof.
  unfold update_previous_versions_tableWidget.
  destruct (get_task ui) as [ [ p | t ] | ]; cbn; auto 7.
  destruct (is_container t); cbn; auto 7.
  destruct (current_take_name ui =? "")%string; cbn; auto 7.
Qed.


(** ** More of save as *)

(** X9: when the user answers No to the question about saving under
    another task, [save_as_pushButton_clicked] returns without calling the
    environment's [save_as] and without committing; it does not roll the
    session back either: the version [get_new_version] gave stays pending
    in the session, so that the next commit writes it to the database. *)
Theorem answer_no_leaves_the_version_pending (ui : Ui) (st : State) :
  question_answer_is_No ui = true ->
  let result := save_as_pushButton_clicked ui st in
  exists new,
    log (snd result) = log st ++ new
    /\ ((exists t x, In (question t x) new) ->
        (forall v, ~ In (env_save_as v) new)
        /\ fst result = Return
        /\ committed (DBSession (snd result)) = committed (DBSession st)
        /\ exists new_version st1,
             get_new_version ui st = (inr (Some new_version), st1)
             /\ DBSession (snd result) = add new_version (DBSession st)
             /\ In new_version (rows (DBSession (snd result)))
             /\ In new_version (committed (commit (DBSession (snd result))))).
Proof.
  intros Hno. cbv zeta.
  destruct (save_as_pushButton_clicked_paths ui st)
    as [ (new & Hlog & Hnosave & Hc & Hq)
       | (env & ext & nv & st0 & st1 & pre & -> & _ & Hpre & Hnosave & _ & _
          & _ & Hq & _) ].
  - exists new. split; [ exact Hlog | ]. intros H.
    destruct (Hq H) as (_ & H1 & nv & st1 & H2 & H3).
    split; [ exact Hnosave | ]. split; [ exact H1 | ].
    split; [ exact Hc | ]. exists nv, st1. split; [ exact H2 | ].
    rewrite H3. split; [ reflexivity | ]. split; cbn; apply put_row_in.
  - destruct (save_with_asks_nothing ui env ext nv st1)
      as (rest & Hlog & _ & Hrest).
    exists (pre ++ env_save_as nv :: rest).
    split; [ now rewrite Hlog, Hpre, <- app_assoc | ].
    intros (t & x & H). exfalso.
    apply in_app_or in H. destruct H as [ H | [ H | H ] ].
    + rewrite Hq in Hno by eauto. discriminate.
    + discriminate.
    + now apply (Hrest t x).
Qed.

(** X10: once the environment's [save_as] has returned, with an
    environment of its own the handler returns with the dialog closed as
    its last act, also when the file was not created and the error was
    shown; without one (an external environment found by name) it puts the
    path of the version on the clipboard and shows the "Path Generated"
    warning, also when the file was not created. What is committed stays
    as it was when the file was not created. *)
Theorem save_as_after_the_environment_returns (ui : Ui) (st : State) :
  let result := save_as_pushButton_clicked ui st in
  exists new,
    log (snd result) = log st ++ new
    /\ forall env new_version saved fs,
         environment ui = Some env
         \/ (environment ui = None
             /\ get_env (environment_comboBox ui) (environment_name_format ui)
                = Some env) ->
         In (env_save_as new_version) new ->
         save_as env new_version (files st) = inr (saved, fs) ->
         fst result = Return
         /\ (environment ui = Some env ->
             exists before, new = before ++ [close])
         /\ (environment ui = None ->
             In (clipboard_setText (absolute_full_path saved)) new
             /\ exists text, In (warning "Path Generated" text) new)
         /\ (os_path_exists fs (absolute_full_path saved) = false ->
             In (not_created_error env) new
             /\ committed (DBSession (snd result)) = committed (DBSession st)).
Proof.
  cbv zeta.
  destruct (save_as_pushButton_clicked_paths ui st)
    as [ (new & Hlog & Hnosave & _)
       | (env' & ext & nv & st0 & st1 & pre & Hres & _ & Hpre & Hnosave & _
          & Hs & Hf & _ & Hext) ].
  - exists new. split; [ exact Hlog | ].
    intros env nv saved fs _ Hin. now destruct (Hnosave nv).
  - destruct (save_with_asks_nothing ui env' ext nv st1)
      as (rest & Hlog & Hrest & _).
    exists (pre ++ env_save_as nv :: rest).
    split; [ now rewrite Hres, Hlog, Hpre, <- app_assoc | ].
    intros env nv' saved fs Henv Hin Hsaved.
    assert (Hnv : nv' = nv).
    { apply in_app_or in Hin. destruct Hin as [ H | [ H | H ] ].
      - now destruct (Hnosave nv').
      - now injection H.
      - now destruct (Hrest nv'). }
    subst nv'.
    assert (Hsame : env' = env /\ (ext = false <-> environment ui = Some env)).
    { destruct Henv as [ Henv | [ Henv Hget ] ];
        destruct Hext as [ [ H1 H2 ] | (H1 & H2 & H3) ]; subst ext;
        split; try congruence; split; congruence. }
    destruct Hsame as [ -> Hmode ].
    rewrite <- Hf in Hsaved.
    destruct (save_with_events ui env ext nv st1 Hsaved) as [Hret Hevents].
    rewrite Hlog in Hevents. apply app_inv_head in Hevents.
    injection Hevents as Hevents. subst rest.
    rewrite Hres. split; [ exact Hret | ]. split; [ | split ].
    + intros Hown. apply Hmode in Hown. subst ext. cbn [app].
      exists (pre ++ env_save_as nv
                :: (if os_path_exists fs (absolute_full_path saved)
                    then [] else [not_created_error env])).
      rewrite <- app_assoc. reflexivity.
    + intros Hnone.
      assert (Hext' : ext = true).
      { destruct ext; [ reflexivity | ].
        assert (H : environment ui = Some env) by now apply Hmode.
        congruence. }
      subst ext. split; [ | eexists ];
        apply in_or_app; right; right; cbn; eauto.
    + intros Hmissing. rewrite Hmissing. split.
      * apply in_or_app. right. right. apply in_or_app. right. now left.
      * pose proof (save_with_session ui env ext nv st1) as H.
        cbv zeta in H. rewrite Hsaved, Hmissing in H.
        destruct H as (_ & _ & new & _ & H & _).
        rewrite H, Hs. reflexivity.
Qed.

(** X11: when the constructor of the new version raises [TypeError] or
    [ValueError], save as shows the message in an error dialog, rolls the
    session back and returns, while export as lets the exception through;
    neither calls the environment. *)
Theorem constructor_errors (ui : Ui) (st : State) (task : Task)
    (e : exception) (msg : string) :
  get_task ui = Some (ATask task) ->
  new_Version (DBSession st) task (get_logged_in_user ui)
    (current_take_name ui) (description_textEdit ui) = inl e ->
  e = TypeError msg \/ e = ValueError msg ->
  let saved := save_as_pushButton_clicked ui st in
  let exported := export_as_pushButton_clicked ui st in
  fst saved = Return
  /\ DBSession (snd saved) = rollback (DBSession st)
  /\ (exists pre, log (snd saved) = log st ++ pre ++ [critical "Error" msg]
                  /\ no_env_call pre)
  /\ fst exported = Raise e
  /\ DBSession (snd exported) = DBSession st
  /\ (exists pre, log (snd exported) = log st ++ pre /\ no_env_call pre).
Proof.
  intros Htask Hnew He. cbv zeta.
  unfold save_as_pushButton_clicked, export_as_pushButton_clicked.
  assert (Hget : exists st1,
             get_new_version ui st = (inl e, st1)
             /\ DBSession st1 = DBSession st
             /\ exists pre, log st1 = log st ++ pre /\ no_env_call pre).
  { unfold get_new_version. rewrite Htask.
    destruct (get_logged_in_user ui) as [ u | ]; cbn [DBSession emit];
      rewrite Hnew; eexists; (split; [ reflexivity | ]);
      (split; [ reflexivity | ]).
    - exists []. rewrite app_nil_r. split; [ reflexivity | ].
      apply no_env_call_nil.
    - exists [close]. split; [ reflexivity | ].
      intros v. split; intros H; no_event H. }
  destruct Hget as (st1 & -> & Hs & pre & Hpre & Hno).
  destruct He as [ -> | -> ]; cbn [fst snd DBSession with_session emit log];
    rewrite Hs, Hpre;
    (split; [ reflexivity | ]); (split; [ reflexivity | ]);
    (split; [ exists pre; rewrite <- app_assoc; auto | ]);
    (split; [ reflexivity | ]); (split; [ reflexivity | ]);
    exists pre; auto.
Qed.

(** ** More of the reference button *)

Lemma reference_with_log (ui : Ui) (env : Environment) (v : Version)
    (st : State) :
  exists rest,
    log (snd (reference_with ui env v st))
    = log st ++ env_reference v (useNameSpace_checkBox ui) :: rest
    /\ (forall w ns, ~ In (env_reference w ns) rest)
    /\ DBSession (snd (reference_with ui env v st)) = DBSession st.
Proof.
  unfold reference_with.
  destruct (reference env v (useNameSpace_checkBox ui));
    [ | destruct (logger_level_is_DEBUG ui) ];
    cbn; repeat rewrite <- app_assoc; eexists;
    (split; [ reflexivity | ]); (split; [ | reflexivity ]);
    intros w ns H; no_event H.
Qed.

Lemma repr_version_of (s : Session) (previous_version : Version)
    (repr_name : string) (v : Version) :
  repr_version s previous_version repr_name = Some v ->
  In v (rows s) /\ task v = task previous_version.
Proof.
  intros H. pose proof (repr_version_spec s previous_version repr_name) as Hs.
  rewrite H in Hs. destruct Hs as [ (Hin & Htask & _) _ ]. auto.
Qed.

Lemma in_buttons (s : Session) (env : Environment)
    (previous_version : Version) (text : string) (v : Version) :
  In (text, Some v) (buttons s env previous_version) ->
  v = previous_version
  \/ (In text (representations env)
      /\ repr_version s previous_version text = Some v).
Proof.
  unfold buttons. intros [ H | H ].
  - left. congruence.
  - apply in_app_or in H. destruct H as [ H | [ H | [] ] ].
    + right. now apply in_repr_buttons.
    + discriminate.
Qed.

(** What [reference_pushButton_clicked] asks of the environment. *)
Lemma reference_pushButton_clicked_calls (ui : Ui) (clickedButton : nat)
    (st : State) :
  let result := reference_pushButton_clicked ui clickedButton st in
  exists new,
    log (snd result) = log st ++ new
    /\ DBSession (snd result) = DBSession st
    /\ forall v ns,
         In (env_reference v ns) new ->
         exists previous_version env,
           current_version (versions st) (currentRow ui)
           = Some previous_version
           /\ is_published previous_version = true
           /\ environment ui = Some env
           /\ ns = useNameSpace_checkBox ui
           /\ (v = previous_version
               \/ exists repr_name,
                    In repr_name (representations env)
                    /\ repr_version (DBSession st) previous_version repr_name
                       = Some v).
Proof.
  cbv zeta. unfold reference_pushButton_clicked.
  assert (Hnone : exists new : list event,
             log st = log st ++ new
             /\ DBSession st = DBSession st
             /\ forall v ns,
                  In (env_reference v ns) new ->
                  exists previous_version env,
                    current_version (versions st) (currentRow ui)
                    = Some previous_version
                    /\ is_published previous_version = true
                    /\ environment ui = Some env
                    /\ ns = useNameSpace_checkBox ui
                    /\ (v = previous_version
                        \/ exists repr_name,
                             In repr_name (representations env)
                             /\ repr_version (DBSession st) previous_version
                                  repr_name = Some v)).
  { exists []. rewrite app_nil_r. repeat split. intros v ns []. }
  destruct (current_version (versions st) (currentRow ui))
    as [ pv | ] eqn:Hpv; cbn [snd]; [ | exact Hnone ].
  destruct (is_published pv) eqn:Hpub; cbn [negb snd].
  2:{ exists [unpublished_reference_error]. cbn.
      repeat split. intros v ns H. no_event H. }
  destruct (environment ui) as [ env | ] eqn:Henv; cbn [snd];
    [ | exact Hnone ].
  assert (Hcall : forall v,
             (v = pv
              \/ exists repr_name,
                   In repr_name (representations env)
                   /\ repr_version (DBSession st) pv repr_name = Some v) ->
             exists new,
               log (snd (reference_with ui env v st)) = log st ++ new
               /\ DBSession (snd (reference_with ui env v st)) = DBSession st
               /\ forall w ns,
                    In (env_reference w ns) new ->
                    exists previous_version env0,
                      Some pv = Some previous_version
                      /\ is_published previous_version = true
                      /\ Some env = Some env0
                      /\ ns = useNameSpace_checkBox ui
                      /\ (w = previous_version
                          \/ exists repr_name,
                               In repr_name (representations env0)
                               /\ repr_version (DBSession st)
                                    previous_version repr_name = Some w)).
  { intros v Hv.
    destruct (reference_with_log ui env v st) as (rest & Hlog & Hrest & Hs).
    eexists. split; [ exact Hlog | ]. split; [ exact Hs | ].
    intros w ns [ H | H ]; [ | now destruct (Hrest w ns) ].
    injection H as <- <-. exists pv, env. auto. }
  destruct (all_reprs (DBSession st) pv) as [ | first_repr more_reprs ];
    [ apply Hcall; now left | ].
  destruct (nth_error (buttons (DBSession st) env pv) clickedButton)
    as [ [ text [ v | ] ] | ] eqn:Hnth; cbn [snd]; try exact Hnone.
  - destruct (text =? "Cancel")%string; cbn [negb snd]; [ exact Hnone | ].
    apply Hcall. apply nth_error_In in Hnth. apply in_buttons in Hnth.
    destruct Hnth as [ H | H ]; [ now left | right; eauto ].
  - destruct (text =? "Cancel")%string; cbn [negb snd]; [ exact Hnone | ].
    apply Hcall. now left.
Qed.

(** X12: every version [reference_pushButton_clicked] passes to the
    environment's [reference] belongs to the task of the version selected
    in the table, which is published, and is that version or a row of the
    session; the namespace flag passed is the check box; the session is
    not written to. *)
Theorem reference_stays_in_the_task (ui : Ui) (clickedButton : nat)
    (st : State) :
  let result := reference_pushButton_clicked ui clickedButton st in
  exists new,
    log (snd result) = log st ++ new
    /\ DBSession (snd result) = DBSession st
    /\ forall v ns,
         In (env_reference v ns) new ->
         exists previous_version,
           current_version (versions st) (currentRow ui)
           = Some previous_version
           /\ is_published previous_version = true
           /\ task v = task previous_version
           /\ (v = previous_version \/ In v (rows (DBSession st)))
           /\ ns = useNameSpace_checkBox ui.
Proof.
  cbv zeta.
  destruct (reference_pushButton_clicked_calls ui clickedButton st)
    as (new & Hlog & Hs & Hcalls).
  exists new. split; [ exact Hlog | ]. split; [ exact Hs | ].
  intros v ns Hin.
  destruct (Hcalls v ns Hin) as (pv & env & Hpv & Hpub & _ & Hns & Hv).
  exists pv. repeat split; auto.
  - destruct Hv as [ -> | (r & _ & Hr) ]; [ reflexivity | ].
    now apply repr_version_of in Hr.
  - destruct Hv as [ -> | (r & _ & Hr) ]; [ now left | right ].
    now apply repr_version_of in Hr.
Qed.


Lemma repr_buttons_names (s : Session) (previous_version : Version)
    (repr_names : list string) :
  map fst (repr_buttons s previous_version repr_names)
  = filter (fun repr_name =>
              match repr_version s previous_version repr_name with
              | Some _ => true
              | None => false
              end) repr_names.
Proof.
  induction repr_names as [ | r l IH ]; cbn; [ reflexivity | ].
  destruct (repr_version s previous_version r); cbn; now rewrite IH.
Qed.

(** X14: the "Which Repr.?" box has the base button first, with the
    selected version, and the cancel button last; between them it has one
    button for each representation name of the environment that has a
    version, in the order of the environment's names. Clicking the last
    button references nothing and changes nothing. *)
Theorem which_repr_buttons (ui : Ui) (env : Environment)
    (previous_version : Version) (st : State) :
  let box := buttons (DBSession st) env previous_version in
  map fst box
  = base_repr_name
    :: filter (fun repr_name =>
                 match repr_version (DBSession st) previous_version
                         repr_name with
                 | Some _ => true
                 | None => false
                 end) (representations env)
    ++ ["Cancel"]
  /\ nth_error box 0 = Some (base_repr_name, Some previous_version)
  /\ nth_error box (List.length box - 1) = Some ("Cancel", None)
  /\ List.length box <= List.length (representations env) + 2
  /\ (current_version (versions st) (currentRow ui) = Some previous_version ->
      is_published previous_version = true ->
      environment ui = Some env ->
      all_reprs (DBSession st) previous_version <> [] ->
      reference_pushButton_clicked ui (List.length box - 1) st = (Return, st)).
Proof.
  cbv zeta. unfold buttons.
  set (middle := repr_buttons (DBSession st) previous_version
                   (representations env)).
  assert (Hlast : nth_error ((base_repr_name, Some previous_version)
                               :: middle ++ [("Cancel", None)])
                    (List.length ((base_repr_name, Some previous_version)
                                    :: middle ++ [("Cancel", None)]) - 1)
                  = Some ("Cancel", @None Version)).
  { cbn [List.length]. rewrite Nat.sub_succ, Nat.sub_0_r, length_app.
    cbn [List.length]. replace (List.length middle + 1) with
      (S (List.length middle)) by lia.
    cbn [nth_error]. rewrite nth_error_app2, Nat.sub_diag by lia.
    reflexivity. }
  split; [ | split; [ | split; [ | split ] ] ].
  - cbn [map fst]. rewrite map_app. unfold middle.
    now rewrite repr_buttons_names.
  - reflexivity.
  - exact Hlast.
  - cbn [List.length]. rewrite length_app. cbn [List.length].
    assert (H : List.length middle <= List.length (representations env)).
    { unfold middle. rewrite <- (length_map fst), repr_buttons_names.
      apply filter_length_le. }
    lia.
  - intros Hpv Hpub Henv Hreprs. unfold reference_pushButton_clicked.
    rewrite Hpv, Hpub, Henv. cbn [negb].
    destruct (all_reprs (DBSession st) previous_version)
      as [ | first_repr more_reprs ]; [ now destruct Hreprs | ].
    unfold buttons. fold middle. rewrite Hlast. reflexivity.
Qed.

(** ** Finding and selecting a task in the tree *)

Lemma first_indexed_item_of_spec (model : list TaskItem) (entity : Entity)
    (indexes : list QModelIndex) :
  option_map snd (first_indexed_item_of entity_eq model entity indexes)
  = first_item_of entity_eq model entity indexes
  /\ forall index item,
       first_indexed_item_of entity_eq model entity indexes = Some (index, item) ->
       In index indexes
       /\ itemFromIndex model index = Some item
       /\ entity_eq (task_of item) entity = true.
Proof.
  induction indexes as [ | i rest [IH1 IH2] ]; cbn.
  - split; [ reflexivity | discriminate ].
  - destruct (itemFromIndex model i) as [ it | ] eqn:Hit.
    + destruct (entity_eq (task_of it) entity) eqn:He.
      * split; [ reflexivity | ].
        intros index item [= <- <-]. auto.
      * split; [ exact IH1 | ].
        intros index item H. destruct (IH2 _ _ H) as (H1 & H2 & H3). auto.
    + split; [ exact IH1 | ].
      intros index item H. destruct (IH2 _ _ H) as (H1 & H2 & H3). auto.
Qed.

Lemma find_entity_item_with_index_spec (entity : Entity)
    (treeView : list TaskItem) :
  option_map snd (find_entity_item_with_index entity_eq (Some entity) treeView)
  = find_entity_item_in_tree_view entity_eq (Some entity) treeView
  /\ forall index item,
       find_entity_item_with_index entity_eq (Some entity) treeView
       = Some (index, item) ->
       itemFromIndex treeView index = Some item
       /\ entity_eq (task_of item) entity = true
       /\ item_text item = name entity.
Proof.
  unfold find_entity_item_with_index, find_entity_item_in_tree_view,
    get_item_indices_containing_text.
  destruct (first_indexed_item_of_spec treeView entity
              (model_match treeView (name entity))) as [H1 H2].
  split; [ exact H1 | ].
  intros index item H. destruct (H2 _ _ H) as (Hin & Hit & Ht).
  repeat split; auto.
  apply in_model_match in Hin. destruct Hin as (it & Hit' & Htext).
  congruence.
Qed.

Lemma expand_item_keeps (h : Hierarchy)
    (item : option (QModelIndex * TaskItem)) (tv : TreeView) :
  tv_selectedIndexes (expand_item h item tv) = tv_selectedIndexes tv
  /\ tv_is_updating (expand_item h item tv) = tv_is_updating tv
  /\ exists more,
       tv_expanded (expand_item h item tv) = tv_expanded tv ++ more
       /\ List.length more <= 1
       /\ (more = [] -> tv_model (expand_item h item tv) = tv_model tv).
Proof.
  destruct item as [ [ index it ] | ]; cbn.
  - repeat split. exists [index]. repeat split; auto. discriminate.
  - repeat split. exists []. rewrite app_nil_r. auto.
Qed.

Lemma expand_parents_keeps (h : Hierarchy) (l : list Task) (tv : TreeView) :
  let tv' :=
    fold_left
      (fun tv parent =>
         expand_item h
           (find_entity_item_with_index entity_eq (Some (ATask parent)) (tv_model tv))
           tv)
      l tv in
  tv_selectedIndexes tv' = tv_selectedIndexes tv
  /\ tv_is_updating tv' = tv_is_updating tv
  /\ exists more,
       tv_expanded tv' = tv_expanded tv ++ more
       /\ List.length more <= List.length l.
Proof.
  cbv zeta. revert tv. induction l as [ | parent l IH ]; intros tv;
    cbn [fold_left].
  - repeat split. exists []. rewrite app_nil_r. auto.
  - set (tv1 := expand_item h _ tv).
    destruct (IH tv1) as (Hsel & Hupd & more & Hexp & Hlen).
    destruct (expand_item_keeps h
                (find_entity_item_with_index entity_eq (Some (ATask parent))
                   (tv_model tv)) tv)
      as (Hsel1 & Hupd1 & more1 & Hexp1 & Hlen1 & _).
    fold tv1 in Hsel1, Hupd1, Hexp1.
    rewrite Hsel, Hupd, Hexp, Hsel1, Hupd1, Hexp1.
    repeat split. exists (more1 ++ more).
    rewrite app_assoc, length_app. cbn [List.length].
    split; [ reflexivity | lia ].
Qed.

(** What [load_task_item_hierarchy] returns is what the lookup finds in the
    model it leaves behind. *)
Lemma load_task_item_hierarchy_found (h : Hierarchy) (task : Task)
    (tv : TreeView) :
  let result := load_task_item_hierarchy entity_eq h (Some task) tv in
  fst result
  = find_entity_item_with_index entity_eq (Some (ATask task)) (tv_model (snd result))
  /\ tv_is_updating (snd result) = false
  /\ tv_selectedIndexes (snd result) = tv_selectedIndexes tv
  /\ (exists more,
        tv_expanded (snd result) = tv_expanded tv ++ more
        /\ List.length more <= 1 + List.length (parents h task))
  /\ (find_entity_item_in_tree_view entity_eq (Some (ATask task)) (tv_model tv) <> None ->
      snd result = set_is_updating false tv).
Proof.
  cbv zeta. unfold load_task_item_hierarchy.
  change (tv_model (set_is_updating true tv)) with (tv_model tv).
  destruct (find_entity_item_with_index_spec (ATask task) (tv_model tv))
    as [Hitem _].
  destruct (find_entity_item_with_index entity_eq (Some (ATask task)) (tv_model tv))
    as [ found | ] eqn:Hfound.
  - cbn [fst snd set_is_updating tv_model tv_is_updating tv_selectedIndexes
           tv_expanded].
    rewrite Hfound. repeat split.
    exists []. rewrite app_nil_r. split; [ reflexivity | cbn; lia ].
  - set (tv0 := set_is_updating true tv).
    set (tv1 := expand_item h _ tv0).
    destruct (expand_item_keeps h
                (find_entity_item_with_index entity_eq
                   (Some (AProject (project h task))) (tv_model tv)) tv0)
      as (Hsel1 & _ & more1 & Hexp1 & Hlen1 & _).
    fold tv1 in Hsel1, Hexp1.
    destruct (expand_parents_keeps h (parents h task) tv1)
      as (Hsel & _ & more & Hexp & Hlen).
    cbn [fst snd tv_model tv_is_updating tv_selectedIndexes tv_expanded
           set_is_updating].
    rewrite Hsel, Hsel1, Hexp, Hexp1. unfold tv0.
    cbn [set_is_updating tv_selectedIndexes tv_expanded].
    split; [ reflexivity | ]. split; [ reflexivity | ].
    split; [ reflexivity | ]. split.
    + exists (more1 ++ more). rewrite app_assoc, length_app.
      split; [ reflexivity | lia ].
    + intros H. exfalso. apply H. rewrite <- Hitem. reflexivity.
Qed.

(** X15: [load_task_item_hierarchy] for a task leaves the tree view with
    [is_updating] off and its selection untouched, expands at most the
    project and the parents of the task, and expands nothing and leaves the
    model alone when the item of the task is in the model already. Without
    a task it does nothing. *)
Theorem load_task_item_hierarchy_loads (h : Hierarchy) (task : Task)
    (tv : TreeView) :
  let result := load_task_item_hierarchy entity_eq h (Some task) tv in
  load_task_item_hierarchy entity_eq h None tv = (None, tv)
  /\ tv_is_updating (snd result) = false
  /\ tv_selectedIndexes (snd result) = tv_selectedIndexes tv
  /\ (exists more,
        tv_expanded (snd result) = tv_expanded tv ++ more
        /\ List.length more <= 1 + List.length (parents h task))
  /\ (find_entity_item_in_tree_view entity_eq (Some (ATask task)) (tv_model tv) <> None ->
      tv_model (snd result) = tv_model tv
      /\ tv_expanded (snd result) = tv_expanded tv
      /\ option_map snd (fst result)
         = find_entity_item_in_tree_view entity_eq (Some (ATask task)) (tv_model tv)).
Proof.
  cbv zeta.
  destruct (load_task_item_hierarchy_found h task tv)
    as (Hfst & Hupd & Hsel & Hexp & Hloaded).
  split; [ reflexivity | ]. split; [ exact Hupd | ].
  split; [ exact Hsel | ]. split; [ exact Hexp | ].
  intros H. rewrite Hfst, (Hloaded H). cbn.
  repeat split.
  apply (find_entity_item_with_index_spec (ATask task) (tv_model tv)).
Qed.

(** X16: when [find_and_select_entity_item_in_treeView] returns an item
    for a task, that item is the only one selected, it is an item of the
    model with the name of the task, and [get_task] then gives the task of
    that item, which equals the task (Python's [==], as Stalker defines
    it: it may be another task that Stalker takes for equal); when it
    returns nothing, the selection is empty, [get_task] gives nothing and
    the lookup finds no item for the task in the model. In both cases
    [is_updating] is off. *)
Theorem find_and_select_then_get_task (h : Hierarchy) (task : Task)
    (tv : TreeView) (ui : Ui) :
  let result :=
    find_and_select_entity_item_in_treeView entity_eq h (Some task) tv in
  tasks_treeView_model ui = tv_model (snd result) ->
  selectedIndexes ui = tv_selectedIndexes (snd result) ->
  tv_is_updating (snd result) = false
  /\ match fst result with
     | Some (index, item) =>
         tv_selectedIndexes (snd result) = [index]
         /\ itemFromIndex (tv_model (snd result)) index = Some item
         /\ item_text item = task_name task
         /\ get_task ui = Some (task_of item)
         /\ entity_eq (task_of item) (ATask task) = true
     | None =>
         tv_selectedIndexes (snd result) = []
         /\ get_task ui = None
         /\ find_entity_item_in_tree_view entity_eq (Some (ATask task))
              (tv_model (snd result)) = None
     end.
Proof.
  cbv zeta. unfold find_and_select_entity_item_in_treeView.
  destruct (load_task_item_hierarchy_found h task tv)
    as (Hfst & Hupd & _).
  destruct (load_task_item_hierarchy entity_eq h (Some task) tv)
    as [ [ [ index item ] | ] tv' ]; cbn [fst snd] in *;
    cbn [fst snd set_selection tv_model tv_selectedIndexes tv_is_updating];
    intros Hmodel Hsel; (split; [ exact Hupd | ]).
  - symmetry in Hfst.
    destruct (proj2 (find_entity_item_with_index_spec (ATask task)
                       (tv_model tv')) _ _ Hfst) as (Hit & Htask & Htext).
    repeat split; auto.
    unfold get_task. now rewrite Hsel, Hmodel, Hit.
  - repeat split.
    + unfold get_task. now rewrite Hsel.
    + rewrite <- (proj1 (find_entity_item_with_index_spec (ATask task)
                           (tv_model tv'))), <- Hfst.
      reflexivity.
Qed.

(** ** Recent files *)

Lemma rfm_getitem_setitem (rfm : RecentFileManager) (key other : string)
    (value : list string) :
  rfm_getitem (rfm_setitem rfm key value) key = Some value
  /\ (other <> key ->
      rfm_getitem (rfm_setitem rfm key value) other = rfm_getitem rfm other).
Proof.
  induction rfm as [ | [ k l ] rest [IH1 IH2] ]; cbn.
  - rewrite String.eqb_refl. split; [ reflexivity | ].
    intros H. apply not_eq_sym, String.eqb_neq in H. now rewrite H.
  - destruct (String.eqb_spec k key) as [ -> | Hk ]; cbn.
    + rewrite String.eqb_refl. split; [ reflexivity | ].
      intros H. apply not_eq_sym, String.eqb_neq in H. now rewrite H.
    + apply String.eqb_neq in Hk. rewrite Hk. split; [ exact IH1 | ].
      intros H. destruct (k =? other)%string; auto.
Qed.

Lemma setItemData_last (box : list ComboItem) (it : ComboItem)
    (value : string) :
  setItemData (List.length box) value (box ++ [it])
  = box ++ [{| item_label := item_label it; userData := userData it;
               toolTip := value |}].
Proof.
  induction box as [ | x box IH ]; cbn; [ reflexivity | now rewrite IH ].
Qed.

Lemma add_recent_files_entries (recent_files : list string)
    (box : list ComboItem) :
  add_recent_files (List.length box) recent_files box
  = box ++ map recent_entry recent_files.
Proof.
  revert box. induction recent_files as [ | p l IH ]; intros box; cbn.
  - now rewrite app_nil_r.
  - unfold addItem. rewrite setItemData_last. cbn.
    replace (S (List.length box))
      with (List.length (box ++ [recent_entry p]))
      by (rewrite length_app; cbn; lia).
    fold (recent_entry p). rewrite IH, <- app_assoc. reflexivity.
Qed.

Lemma add_recent_files_empty (recent_files : list string) :
  add_recent_files 0 recent_files [] = map recent_entry recent_files.
Proof. exact (add_recent_files_entries recent_files []). Qed.

Lemma split_tail_spec (p : string) :
  Py.contains "/" (split_tail p) = false
  /\ exists head,
       p = (head ++ split_tail p)%string
       /\ (head = EmptyString \/ exists h, head = (h ++ "/")%string).
Proof.
  induction p as [ | c p (IH1 & head & IH2 & IH3) ]; cbn [split_tail].
  - split; [ reflexivity | ]. exists EmptyString. auto.
  - destruct (Py.contains "/" p) eqn:Hp.
    + split; [ exact IH1 | ]. exists (String c head). split.
      * cbn. now rewrite <- IH2.
      * right. destruct IH3 as [ -> | (h & ->) ].
        -- exfalso. cbn in IH2. rewrite <- IH2 in IH1. congruence.
        -- exists (String c h). reflexivity.
    + destruct (Ascii.eqb_spec c "/") as [ -> | Hc ].
      * split; [ exact Hp | ]. exists "/". split; [ reflexivity | ].
        right. now exists EmptyString.
      * split.
        -- cbn [Py.contains String.prefix]. rewrite Hp.
           destruct (ascii_dec "/" c) as [ <- | _ ]; [ now destruct Hc | ].
           reflexivity.
        -- exists EmptyString. auto.
Qed.

(** X17: [update_recent_files_combo_box] refills the combo box and leaves
    the recent files on disk as they are. Without an environment, or when
    the recent file manager has no entry for the environment, the box is
    empty. Otherwise it holds an empty entry followed by the recent paths
    of the environment in their order, 50 entries at most, so that the
    first 49 recent paths are the rows 1 to 49; each entry has the path as
    its data and its tool tip and what follows the last [/] of the path,
    which has no [/], as its label. *)
Theorem update_recent_files_combo_box_entries (ui : Ui) (r : Recent) :
  let r' := update_recent_files_combo_box ui r in
  recent_files_on_disk r' = recent_files_on_disk r
  /\ (environment ui = None -> recent_files_comboBox r' = [])
  /\ (forall env,
        environment ui = Some env ->
        rfm_getitem (recent_files_on_disk r) (env_name env) = None ->
        recent_files_comboBox r' = [])
  /\ (forall env recent_files,
        environment ui = Some env ->
        rfm_getitem (recent_files_on_disk r) (env_name env)
        = Some recent_files ->
        recent_files_comboBox r'
        = map recent_entry (firstn 50 ("" :: recent_files))
        /\ List.length (recent_files_comboBox r')
           = Nat.min 50 (1 + List.length recent_files)
        /\ nth_error (recent_files_comboBox r') 0 = Some (recent_entry "")
        /\ (forall i full_path,
              i < 49 ->
              nth_error recent_files i = Some full_path ->
              nth_error (recent_files_comboBox r') (S i)
              = Some (recent_entry full_path))
        /\ forall it, In it (recent_files_comboBox r') ->
                      Py.contains "/" (item_label it) = false
                      /\ toolTip it = userData it).
Proof.
  cbv zeta. unfold update_recent_files_combo_box.
  split; [ reflexivity | ].
  split; [ | split ].
  - intros H. now rewrite H.
  - intros env Henv Hget. cbn. now rewrite Henv, Hget.
  - intros env recent_files Henv Hget.
    cbn [recent_files_comboBox]. rewrite Henv, Hget.
    rewrite add_recent_files_empty.
    split; [ reflexivity | ]. split; [ | split; [ | split ] ].
    + rewrite length_map, length_firstn. reflexivity.
    + reflexivity.
    + intros i full_path Hi Hnth.
      rewrite nth_error_map, nth_error_firstn.
      destruct (Nat.ltb_spec (S i) 50) as [ _ | H ]; [ | lia ].
      cbn [nth_error]. now rewrite Hnth.
    + intros it Hin. apply in_map_iff in Hin.
      destruct Hin as (p & <- & _). split; [ | reflexivity ].
      apply split_tail_spec.
Qed.

(** X18: [clear_recent_file_push_button_clicked] with an environment
    leaves the combo box with the empty entry alone and the recent files
    of the environment empty on disk, and leaves the recent files of every
    other environment as they were; without an environment it empties the
    combo box and leaves the disk alone. *)
Theorem clear_recent_files_only_of_the_environment (ui : Ui) (r : Recent) :
  let r' := clear_recent_file_push_button_clicked ui r in
  (environment ui = None ->
   recent_files_comboBox r' = []
   /\ recent_files_on_disk r' = recent_files_on_disk r)
  /\ (forall env,
        environment ui = Some env ->
        recent_files_comboBox r' = [recent_entry ""]
        /\ rfm_getitem (recent_files_on_disk r') (env_name env) = Some []
        /\ forall other,
             other <> env_name env ->
             rfm_getitem (recent_files_on_disk r') other
             = rfm_getitem (recent_files_on_disk r) other).
Proof.
  cbv zeta.
  unfold clear_recent_file_push_button_clicked, clear_recent_files,
    update_recent_files_combo_box.
  split.
  - intros H. rewrite H. cbn. auto.
  - intros env Henv. rewrite Henv.
    cbn [recent_files_on_disk recent_files_comboBox].
    destruct (rfm_getitem_setitem (recent_files_on_disk r) (env_name env)
                (env_name env) []) as [Hget _].
    rewrite Hget. split; [ reflexivity | ]. split; [ reflexivity | ].
    intros other Hother.
    now apply (rfm_getitem_setitem (recent_files_on_disk r) (env_name env)).
Qed.

(** ** Open and import *)

Lemma list_index_spec (l : list string) (x : string) (i : nat) :
  list_index l x = Some i -> nth_error l i = Some x.
Proof.
  revert i. induction l as [ | y l IH ]; intros i; cbn; [ discriminate | ].
  destruct (String.eqb_spec y x) as [ -> | _ ].
  - intros [= <-]. reflexivity.
  - destruct (list_index l x) as [ j | ]; [ | discriminate ].
    intros [= <-]. cbn. now apply IH.
Qed.

Lemma after_open_actions (resolution : reference_resolution)
    (done : list action) :
  fst (after_open resolution done) = Return
  /\ exists middle,
       snd (after_open resolution done) = done ++ middle ++ [ui_event close]
       /\ (forall v f rp d s, ~ In (call_open v f rp d s) middle)
       /\ (forall r, In (version_updater_dialog r) middle ->
                     r = resolution /\ (create r <> [] \/ update r <> [])).
Proof.
  unfold after_open. split; [ reflexivity | ].
  destruct (create resolution) as [ | c cs ] eqn:Hc;
    [ destruct (update resolution) as [ | u us ] eqn:Hu | ]; cbn [snd].
  - exists []. split; [ reflexivity | ]. split.
    + intros v f rp d s [].
    + intros r [].
  - exists [version_updater_dialog resolution].
    rewrite <- app_assoc. split; [ reflexivity | ]. split.
    + intros v f rp d s [ H | [] ]. discriminate.
    + intros r [ [= <-] | [] ]. split; [ reflexivity | ].
      right. rewrite Hu. discriminate.
  - exists [version_updater_dialog resolution].
    rewrite <- app_assoc. split; [ reflexivity | ]. split.
    + intros v f rp d s [ H | [] ]. discriminate.
    + intros r [ [= <-] | [] ]. split; [ reflexivity | ].
      left. rewrite Hc. discriminate.
Qed.

(** X19: [open_pushButton_clicked]. Without an environment it only closes
    the dialog. With one, it asks the environment to open the current
    version of the table, first without force; the reference depth it
    passes is the position of the text of the depth box in [ref_depth_res].
    It asks a second time, with force, only after the first call raised
    [RuntimeError] and the user answered Yes. The version updater is shown
    only for a resolution that has something to create or to update. When
    the handler returns, closing the dialog is its last act, unless the
    first call raised [RuntimeError] and the user did not answer Yes: then
    the dialog stays open. *)
Theorem open_closes_unless_refused (ui : Ui) (w : OpenWidgets)
    (methods : Opening) (vs : list Version) :
  let result := open_pushButton_clicked ui w methods vs in
  let old_version := current_version vs (currentRow ui) in
  let repr_name := representations_comboBox w in
  let skip := negb (checkUpdates_checkBox w) in
  (environment ui = None -> result = (Return, [ui_event close]))
  /\ (environment ui <> None ->
      list_index ref_depth_res (ref_depth_comboBox w) = None ->
      exists e, result = (Raise e, []))
  /\ (forall depth,
        environment ui <> None ->
        list_index ref_depth_res (ref_depth_comboBox w) = Some depth ->
        nth_error ref_depth_res depth = Some (ref_depth_comboBox w)
        /\ (exists rest,
              snd result
              = call_open old_version false repr_name depth skip :: rest
              /\ forall v f rp d s,
                   In (call_open v f rp d s) rest ->
                   v = old_version /\ f = true /\ rp = repr_name
                   /\ d = depth /\ s = skip
                   /\ answer_is_Yes w = true
                   /\ exists m,
                        env_open methods old_version false repr_name depth skip
                        = inl (RuntimeError m))
        /\ (forall r, In (version_updater_dialog r) (snd result) ->
                      create r <> [] \/ update r <> [])
        /\ (fst result = Return ->
            (exists before, snd result = before ++ [ui_event close])
            \/ (answer_is_Yes w = false
                /\ ~ In (ui_event close) (snd result)
                /\ exists m,
                     env_open methods old_version false repr_name depth skip
                     = inl (RuntimeError m)))).
Proof.
  cbv zeta. unfold open_pushButton_clicked.
  split; [ intros H; now rewrite H | ].
  split.
  { intros Henv Hdepth. destruct (environment ui); [ | now destruct Henv ].
    rewrite Hdepth. eexists. reflexivity. }
  intros depth Henv Hdepth.
  destruct (environment ui) as [ env | ]; [ | now destruct Henv ].
  rewrite Hdepth. split; [ now apply list_index_spec | ].
  set (old := current_version vs (currentRow ui)).
  set (rp := representations_comboBox w).
  set (sk := negb (checkUpdates_checkBox w)).
  destruct (env_open methods old false rp depth sk)
    as [ e | resolution ] eqn:Hfirst.
  - assert (Hraise : forall e',
               exists rest,
                 snd (Raise e', [call_open old false rp depth sk])
                 = call_open old false rp depth sk :: rest
                 /\ forall v f rp0 d s,
                      In (call_open v f rp0 d s) rest ->
                      v = old /\ f = true /\ rp0 = rp /\ d = depth /\ s = sk
                      /\ answer_is_Yes w = true
                      /\ exists m,
                           @inl exception reference_resolution e
                           = inl (RuntimeError m)).
    { intros e'. exists []. split; [ reflexivity | ]. intros v f rp0 d s []. }
    destruct e as [ m | m | m | m | | | m ];
      try (split; [ apply Hraise | ];
           split; [ intros r [ H | [] ]; discriminate | discriminate ]).
    destruct (answer_is_Yes w) eqn:Hyes.
    + destruct (env_open methods old true rp depth sk)
        as [ e | resolution ] eqn:Hsecond.
      * cbn [fst snd app]. split; [ | split ].
        -- eexists. split; [ reflexivity | ].
           intros v f rp0 d s [ H | [ H | [] ] ]; [ discriminate | ].
           injection H as <- <- <- <- <-. repeat split; eauto.
        -- intros r [ H | [ H | [ H | [] ] ] ]; discriminate.
        -- discriminate.
      * destruct (after_open_actions resolution
                    (([call_open old false rp depth sk]
                        ++ [ui_event unsaved_changes_question])
                       ++ [call_open old true rp depth sk]))
          as (Hret & middle & Hact & Hcalls & Hupd).
        rewrite Hact. split; [ | split ].
        -- cbn [app]. eexists. split; [ reflexivity | ].
           intros v f rp0 d s [ H | [ H | H ] ]; [ discriminate | | ].
           ++ injection H as <- <- <- <- <-. repeat split; eauto.
           ++ apply in_app_or in H. destruct H as [ H | [ H | [] ] ];
                [ now destruct (Hcalls v f rp0 d s) | discriminate ].
        -- intros r H. cbn [app] in H.
           destruct H as [ H | [ H | [ H | H ] ] ]; try discriminate.
           apply in_app_or in H. destruct H as [ H | [ H | [] ] ];
             [ now apply Hupd | discriminate ].
        -- intros _. left. eexists. rewrite app_assoc. reflexivity.
    + cbn [fst snd app]. split; [ | split ].
      * eexists. split; [ reflexivity | ].
        intros v f rp0 d s [ H | [] ]. discriminate.
      * intros r [ H | [ H | [] ] ]; discriminate.
      * intros _. right. split; [ reflexivity | ]. split; [ | eauto ].
        intros [ H | [ H | [] ] ]; discriminate.
  - destruct (after_open_actions resolution
                [call_open old false rp depth sk])
      as (Hret & middle & Hact & Hcalls & Hupd).
    rewrite Hact. split; [ | split ].
    + cbn [app]. eexists. split; [ reflexivity | ].
      intros v f rp0 d s H. apply in_app_or in H.
      destruct H as [ H | [ H | [] ] ];
        [ now destruct (Hcalls v f rp0 d s) | discriminate ].
    + intros r H. cbn [app] in H. destruct H as [ H | H ]; [ discriminate | ].
      apply in_app_or in H. destruct H as [ H | [ H | [] ] ];
        [ now apply Hupd | discriminate ].
    + intros _. left. eexists. rewrite app_assoc. reflexivity.
Qed.

(** X20: [import_pushButton_clicked] does nothing without an environment.
    With one, it passes the current version of the table to the
    environment's [import_] whether it is published or not, and also when
    there is none; in that last case, unless the logger is at the debug
    level, it raises [AttributeError] after the call. For a selected
    version that is not published, the reference button refuses where the
    import button goes through. *)
Theorem import_checks_nothing (ui : Ui) (methods : Opening)
    (clickedButton : nat) (st : State) :
  let result := import_pushButton_clicked ui methods (versions st) in
  let previous_version := current_version (versions st) (currentRow ui) in
  (environment ui = None -> result = (Return, []))
  /\ (environment ui <> None ->
      (exists rest,
         snd result
         = call_import previous_version (useNameSpace_checkBox ui) :: rest
         /\ forall v ns, ~ In (call_import v ns) rest)
      /\ (previous_version = None ->
          import_ methods None (useNameSpace_checkBox ui) = None ->
          logger_level_is_DEBUG ui = false ->
          fst result = Raise AttributeError)
      /\ (forall v,
            previous_version = Some v ->
            is_published v = false ->
            In (call_import (Some v) (useNameSpace_checkBox ui)) (snd result)
            /\ reference_pushButton_clicked ui clickedButton st
               = (Return, emit unpublished_reference_error st))).
Proof.
  cbv zeta. unfold import_pushButton_clicked.
  split; [ intros H; now rewrite H | ].
  intros Henv. destruct (environment ui) as [ env | ]; [ | now destruct Henv ].
  split; [ | split ].
  - destruct (import_ methods _ _); cbn [snd];
      [ | destruct (logger_level_is_DEBUG ui); cbn [snd];
          [ | destruct (current_version (versions st) (currentRow ui))
                as [ current | ];
              cbn [snd app] ] ];
      eexists; (split; [ reflexivity | ]); intros v ns H;
      repeat (destruct H as [ H | H ]; try discriminate H); exact H.
  - intros Hnone Himport Hdebug. rewrite Hnone, Himport, Hdebug. reflexivity.
  - intros v Hv Hpub. split.
    + destruct (import_ methods _ _); cbn [snd];
        [ | destruct (logger_level_is_DEBUG ui); cbn [snd] ];
        rewrite Hv; now left.
    + unfold reference_pushButton_clicked. now rewrite Hv, Hpub.
Qed.

End MainDialog.

(** ** The properties on the small production *)

(** The responsible of the modelling task publishes its second version:
    the published version is committed. *)
Lemma publish_by_responsible :
  Py.getitem (versions (a_state [main1; main2; main3])) (Z.of_nat 1)
  = Some main2
  /\ get_logged_in_user (a_ui (Some lead) None [[0; 0; 0]] "Main" 1) = Some lead
  /\ In (set_updated_by (Some lead) (set_is_published true main2))
        (committed
           (DBSession
              (snd (_show_previous_versions_tableWidget_context_menu
                      same_entity ["Power Users"]
                      (a_ui (Some lead) None [[0; 0; 0]] "Main" 1)
                      (Some 1) (Some "Publish")
                      (a_state [main1; main2; main3]))))).
Proof.
  split; [ reflexivity | ]. split; [ reflexivity | ].
  destruct (@publish_needs_responsible_or_power_user
              same_entity ["Power Users"] (a_ui (Some lead) None [[0; 0; 0]] "Main" 1)
              1 main2 lead (a_state [main1; main2; main3])
              eq_refl eq_refl) as (_ & Hallowed & _).
  apply Hallowed. left. cbn. auto.
Defined.

(** A resource of the modelling task un-publishes its first version, which
    no version uses: the un-published version is committed. *)
Lemma unpublish_by_resource :
  Py.getitem (versions (a_state [main1; main2; main3])) (Z.of_nat 0)
  = Some main1
  /\ is_published main1 = true
  /\ get_logged_in_user (a_ui (Some artist) None [[0; 0; 0]] "Main" 0)
     = Some artist
  /\ In (set_updated_by (Some artist) (set_is_published false main1))
        (committed
           (DBSession
              (snd (_show_previous_versions_tableWidget_context_menu
                      same_entity ["Power Users"]
                      (a_ui (Some artist) None [[0; 0; 0]] "Main" 0)
                      (Some 0) (Some "Un-Publish")
                      (a_state [main1; main2; main3]))))).
Proof.
  split; [ reflexivity | ]. split; [ reflexivity | ]. split; [ reflexivity | ].
  destruct (@unpublish_needs_unused_and_permitted
              same_entity ["Power Users"] (a_ui (Some artist) None [[0; 0; 0]] "Main" 0)
              0 main1 artist (a_state [main1; main2; main3])
              eq_refl eq_refl eq_refl) as (_ & Hdone & _).
  apply Hdone.
  - intros (w & Hw & Hin). cbn in Hw.
    repeat (destruct Hw as [ <- | Hw ];
            [ cbn in Hin; repeat (destruct Hin as [ Hin | Hin ]);
              try discriminate Hin; exact Hin | ]).
    exact Hw.
  - right. left. cbn. auto.
Defined.

(** With the container task selected, save as and export as show the
    error and return; save as rolls back. *)
Lemma save_as_on_container :
  exists new_version st1,
    get_new_version next_version
      (a_ui (Some artist) (Some writing_env) [[0; 0]] "Main" 0) (a_state [])
    = (inr (Some new_version), st1)
    /\ is_leaf (task new_version) = false
    /\ save_as_pushButton_clicked same_entity "@" next_version no_external_env
         (a_ui (Some artist) (Some writing_env) [[0; 0]] "Main" 0) (a_state [])
       = (Return,
          with_session (rollback (DBSession st1)) (emit leaf_error st1))
    /\ export_as_pushButton_clicked next_version
         (a_ui (Some artist) (Some writing_env) [[0; 0]] "Main" 0) (a_state [])
       = (Return, emit leaf_error st1).
Proof.
  destruct (@save_and_export_need_leaf_task same_entity "@" next_version
              no_external_env
              (a_ui (Some artist) (Some writing_env) [[0; 0]] "Main" 0)
              (a_state [])) as (_ & _ & Hcontainer).
  destruct (get_new_version next_version
              (a_ui (Some artist) (Some writing_env) [[0; 0]] "Main" 0)
              (a_state [])) as [ [ e | [ v | ] ] st1 ] eqn:Hnew;
    try (vm_compute in Hnew; discriminate Hnew).
  assert (Hleaf : is_leaf (task v) = false).
  { vm_compute in Hnew. injection Hnew as <- _. reflexivity. }
  destruct (Hcontainer v st1 eq_refl Hleaf) as (Hsaved & Hexported & _).
  exists v, st1. auto.
Defined.

(** With the modelling task selected, the takes list is [alt], [Main]:
    the representation takes are left out and [alt] sorts before [Main]. *)
Lemma takes_of_the_modelling_task :
  is_updating (a_ui (Some artist) None [[0; 0; 0]] "Main" 0) = false
  /\ take_names
       (tasks_treeView_changed "@"
          (a_ui (Some artist) None [[0; 0; 0]] "Main" 0) (a_state []))
     = ["alt"; "Main"]
  /\ StronglySorted (fun a b => String.leb (Py.lower a) (Py.lower b) = true)
       (take_names
          (tasks_treeView_changed "@"
             (a_ui (Some artist) None [[0; 0; 0]] "Main" 0) (a_state []))).
Proof.
  split; [ reflexivity | ]. split; [ reflexivity | ].
  destruct (@tasks_treeView_changed_takes "@"
              (a_ui (Some artist) None [[0; 0; 0]] "Main" 0) (a_state [])
              eq_refl) as (Hleaf & _).
  destruct (Hleaf chair_model eq_refl eq_refl) as (_ & _ & Hsorted).
  exact Hsorted.
Defined.



(** With the modelling task and the take [Main] selected and a count of
    two, the table shows versions 2 and 3 and leaves version 1 out. *)
Lemma table_of_the_modelling_task :
  get_task (a_ui (Some artist) None [[0; 0; 0]] "Main" 0)
  = Some (ATask chair_model)
  /\ is_container chair_model = false
  /\ current_take_name (a_ui (Some artist) None [[0; 0; 0]] "Main" 0) <> ""
  /\ versions
       (update_previous_versions_tableWidget
          (a_ui (Some artist) None [[0; 0; 0]] "Main" 0) (a_state []))
     = [main2; main3]
  /\ filter (in_takeb (a_ui (Some artist) None [[0; 0; 0]] "Main" 0)
               chair_model)
       (rows (DBSession (a_state [])))
     = [main1; main2; main3]
  /\ exists hidden,
       Permutation
         (versions
            (update_previous_versions_tableWidget
               (a_ui (Some artist) None [[0; 0; 0]] "Main" 0) (a_state []))
          ++ hidden)
         (filter (in_takeb (a_ui (Some artist) None [[0; 0; 0]] "Main" 0)
                    chair_model)
            (rows (DBSession (a_state []))))
       /\ StronglySorted (fun a b => version_number a <= version_number b)
            (versions
               (update_previous_versions_tableWidget
                  (a_ui (Some artist) None [[0; 0; 0]] "Main" 0)
                  (a_state [])))
       /\ forall v w,
            In v hidden ->
            In w (versions
                    (update_previous_versions_tableWidget
                       (a_ui (Some artist) None [[0; 0; 0]] "Main" 0)
                       (a_state []))) ->
            version_number v <= version_number w.
Proof.
  assert (Htake : current_take_name
                    (a_ui (Some artist) None [[0; 0; 0]] "Main" 0) <> "")
    by discriminate.
  split; [ reflexivity | ]. split; [ reflexivity | ].
  split; [ exact Htake | ]. split; [ reflexivity | ].
  split; [ reflexivity | ].
  destruct (update_previous_versions_tableWidget_shows
              (a_ui (Some artist) None [[0; 0; 0]] "Main" 0) (a_state []))
    as (_ & _ & _ & Hleaf).
  destruct (Hleaf chair_model eq_refl eq_refl Htake)
    as (hidden & Hperm & _ & _ & _ & Hsorted & Hcross).
  exists hidden. split; [ exact Hperm | ]. split; [ exact Hsorted | ].
  exact Hcross.
Defined.

(** Two items of the tree are called [Model]; the one of the table is the
    second, and it is the one found for the modelling task of the table.
    For the twin of the modelling task of the chair the item of the
    modelling task of the chair is found, which carries another task. *)
Lemma item_of_the_table_model :
  find_entity_item_in_tree_view same_entity (Some (ATask table_model)) tree
  = Some (Item "Model" (ATask table_model) [])
  /\ find_entity_item_in_tree_view same_entity (Some (ATask chair_model_twin))
       tree
     = Some (Item "Model" (ATask chair_model) [])
  /\ ATask chair_model <> ATask chair_model_twin
  /\ (exists before index after,
        get_item_indices_containing_text (name (ATask table_model)) tree
        = before ++ index :: after
        /\ itemFromIndex tree index
           = Some (Item "Model" (ATask table_model) [])
        /\ same_entity (task_of (Item "Model" (ATask table_model) []))
             (ATask table_model)
           = true)
  /\ exists before index after,
       get_item_indices_containing_text (name (ATask chair_model_twin)) tree
       = before ++ index :: after
       /\ itemFromIndex tree index = Some (Item "Model" (ATask chair_model) [])
       /\ same_entity (task_of (Item "Model" (ATask chair_model) []))
            (ATask chair_model_twin)
          = true.
Proof.
  assert (Hfound :
            find_entity_item_in_tree_view same_entity
              (Some (ATask table_model)) tree
            = Some (Item "Model" (ATask table_model) []))
    by reflexivity.
  assert (Htwin :
            find_entity_item_in_tree_view same_entity
              (Some (ATask chair_model_twin)) tree
            = Some (Item "Model" (ATask chair_model) []))
    by reflexivity.
  split; [ exact Hfound | ]. split; [ exact Htwin | ].
  split; [ discriminate | ]. split.
  - destruct (find_entity_item_in_tree_view_first same_entity
                (ATask table_model) tree) as (_ & _ & Hsome & _).
    destruct (Hsome _ Hfound)
      as (before & index & after & H1 & H2 & _ & H3 & _).
    exists before, index, after. auto.
  - destruct (find_entity_item_in_tree_view_first same_entity
                (ATask chair_model_twin) tree) as (_ & _ & Hsome & _).
    destruct (Hsome _ Htwin)
      as (before & index & after & H1 & H2 & _ & H3 & _).
    exists before, index, after. auto.
Defined.


(** C9 fails on the representation path: the published version 3 of the
    take [Main] is selected, the user picks the representation [ASS] in
    the box, and the environment is asked to reference version 1 of the
    take [Main@ASS], which is not published. *)
Theorem reference_of_an_unpublished_representation :
  current_version (versions (a_state [main1; main2; main3])) 2 = Some main3
  /\ is_published main3 = true
  /\ nth_error (buttons "@" "Base" session writing_env main3) 2
     = Some ("ASS", Some ass1)
  /\ is_published ass1 = false
  /\ reference_pushButton_clicked "@" "Base"
       (a_ui (Some guest) (Some writing_env) [[0; 0; 0]] "Main" 2) 2
       (a_state [main1; main2; main3])
     = (Return, emit (env_reference ass1 true) (a_state [main1; main2; main3])).
Proof. repeat split; reflexivity. Qed.

(** The environment writes the file: the new version is committed. *)
Lemma save_as_commits_the_written_file :
  committed
    (DBSession
       (snd (save_as_pushButton_clicked same_entity "@" next_version
               no_external_env
               (a_ui (Some artist) (Some writing_env) [[0; 0; 0]] "Main" 0)
               (a_state []))))
  <> committed (DBSession (a_state []))
  /\ exists new_version st1 saved fs,
       get_new_version next_version
         (a_ui (Some artist) (Some writing_env) [[0; 0; 0]] "Main" 0)
         (a_state [])
       = (inr (Some new_version), st1)
       /\ save_as writing_env new_version (files (a_state []))
          = inr (saved, fs)
       /\ os_path_exists fs (absolute_full_path saved) = true
       /\ In saved
            (committed
               (DBSession
                  (snd (save_as_pushButton_clicked same_entity "@"
                          next_version no_external_env
                          (a_ui (Some artist) (Some writing_env)
                             [[0; 0; 0]] "Main" 0)
                          (a_state []))))).
Proof.
  assert (Hchanged :
            committed
              (DBSession
                 (snd (save_as_pushButton_clicked same_entity "@"
                         next_version no_external_env
                         (a_ui (Some artist) (Some writing_env)
                            [[0; 0; 0]] "Main" 0)
                         (a_state []))))
            <> committed (DBSession (a_state []))).
  { intros H. apply (f_equal (@List.length Version)) in H.
    vm_compute in H. discriminate H. }
  split; [ exact Hchanged | ].
  destruct (@save_as_persists_only_an_existing_file same_entity "@"
              next_version no_external_env
              (a_ui (Some artist) (Some writing_env) [[0; 0; 0]] "Main" 0)
              (a_state [])) as (new & _ & Honly & _).
  destruct (Honly Hchanged)
    as (env & new_version & st1 & saved & fs & Henv & H1 & _ & H2 & H3 & _
        & H4).
  assert (Hsame : env = writing_env).
  { destruct Henv as [ Henv | [ Henv _ ] ]; [ | discriminate Henv ].
    now injection Henv. }
  subst env. exists new_version, st1, saved, fs. auto.
Defined.

(** ** More properties on the small production *)

(** Selecting the second version of a table of three makes it the current
    version. *)
Lemma select_the_second_version :
  In main2 [main1; main2; main3]
  /\ current_version [main1; main2; main3]
       (select_version [main1; main2; main3] main2 (-1))
     = Some main2.
Proof.
  assert (Hin : In main2 [main1; main2; main3]) by (cbn; auto).
  split; [ exact Hin | ].
  exact (proj1 (proj1 (select_version_then_current_version
                         [main1; main2; main3] main2 (-1)) Hin)).
Defined.

(** With nobody logged in, "Publish" on the second version leaves the
    session alone. *)
Lemma nobody_publishes_the_second_version :
  get_logged_in_user (a_ui None None [[0; 0; 0]] "Main" 1) = None
  /\ DBSession
       (snd (_show_previous_versions_tableWidget_context_menu
               same_entity ["Power Users"] (a_ui None None [[0; 0; 0]] "Main" 1)
               (Some 1) (Some "Publish") (a_state [main1; main2; main3])))
     = DBSession (a_state [main1; main2; main3]).
Proof.
  split; [ reflexivity | ].
  exact (proj1 (@nobody_publishes same_entity ["Power Users"]
                  (a_ui None None [[0; 0; 0]] "Main" 1) (Some 1) "Publish"
                  (a_state [main1; main2; main3]) eq_refl
                  (or_introl eq_refl))).
Defined.

(** A guest changes the description of the second version: the changed
    version is what the session holds. *)
Lemma a_guest_changes_the_description :
  Py.getitem (versions (a_state [main1; main2; main3])) (Z.of_nat 1)
  = Some main2
  /\ getText (a_ui_saying_no (Some guest) None [[0; 0; 0]] "Main" 1)
     = ("a better chair", true)
  /\ rows
       (DBSession
          (snd (_show_previous_versions_tableWidget_context_menu
                  same_entity ["Power Users"]
                  (a_ui_saying_no (Some guest) None [[0; 0; 0]] "Main" 1)
                  (Some 1) (Some "Change Description...")
                  (a_state [main1; main2; main3]))))
     = put_row (set_description "a better chair" main2)
         (rows (DBSession (a_state [main1; main2; main3]))).
Proof.
  split; [ reflexivity | ]. split; [ reflexivity | ].
  destruct (@change_description_commits same_entity ["Power Users"]
              (a_ui_saying_no (Some guest) None [[0; 0; 0]] "Main" 1)
              1 main2 "a better chair" true (a_state [main1; main2; main3])
              eq_refl eq_refl) as (_ & _ & Hok & _).
  exact (proj1 (Hok eq_refl)).
Defined.

(** "Copy Path" leaves the session alone. *)
Lemma copy_path_keeps_the_session :
  "Copy Path" <> "Publish"
  /\ "Copy Path" <> "Un-Publish"
  /\ "Copy Path" <> "Change Description..."
  /\ "Copy Path" <> "Upload Output..."
  /\ DBSession
       (snd (_show_previous_versions_tableWidget_context_menu
               same_entity ["Power Users"]
               (a_ui (Some guest) None [[0; 0; 0]] "Main" 1)
               (Some 1) (Some "Copy Path") (a_state [main1; main2; main3])))
     = DBSession (a_state [main1; main2; main3]).
Proof.
  assert (H1 : "Copy Path" <> "Publish") by discriminate.
  assert (H2 : "Copy Path" <> "Un-Publish") by discriminate.
  assert (H3 : "Copy Path" <> "Change Description...") by discriminate.
  assert (H4 : "Copy Path" <> "Upload Output...") by discriminate.
  split; [ exact H1 | ]. split; [ exact H2 | ]. split; [ exact H3 | ].
  split; [ exact H4 | ].
  exact (proj1 (@other_choices_keep_the_session same_entity ["Power Users"]
                  (a_ui (Some guest) None [[0; 0; 0]] "Main" 1) (Some 1)
                  "Copy Path" (a_state [main1; main2; main3]) H1 H2 H3 H4)).
Defined.

(** After the responsible has published the second version, the table
    holds committed rows only. *)
Lemma the_table_after_publishing :
  DBSession
    (snd (_show_previous_versions_tableWidget_context_menu
            same_entity ["Power Users"] (a_ui (Some lead) None [[0; 0; 0]] "Main" 1)
            (Some 1) (Some "Publish") (a_state [main1; main2; main3])))
  <> DBSession (a_state [main1; main2; main3])
  /\ forall v,
       In v (versions
               (snd (_show_previous_versions_tableWidget_context_menu
                       same_entity ["Power Users"]
                       (a_ui (Some lead) None [[0; 0; 0]] "Main" 1)
                       (Some 1) (Some "Publish")
                       (a_state [main1; main2; main3])))) ->
       In v (committed
               (DBSession
                  (snd (_show_previous_versions_tableWidget_context_menu
                          same_entity ["Power Users"]
                          (a_ui (Some lead) None [[0; 0; 0]] "Main" 1)
                          (Some 1) (Some "Publish")
                          (a_state [main1; main2; main3]))))).
Proof.
  assert (Hchanged :
            DBSession
              (snd (_show_previous_versions_tableWidget_context_menu
                      same_entity ["Power Users"]
                      (a_ui (Some lead) None [[0; 0; 0]] "Main" 1)
                      (Some 1) (Some "Publish")
                      (a_state [main1; main2; main3])))
            <> DBSession (a_state [main1; main2; main3])).
  { intros H. apply (f_equal rows) in H. vm_compute in H. discriminate H. }
  split; [ exact Hchanged | ].
  exact (proj2 (@table_follows_the_commit same_entity ["Power Users"]
                  (a_ui (Some lead) None [[0; 0; 0]] "Main" 1) (Some 1)
                  (Some "Publish") (a_state [main1; main2; main3])
                  Hchanged)).
Defined.

(** The environment has a version of the look task open and the user
    answers No: nothing is saved or committed, and the new version is
    left pending in the session. *)
Lemma no_to_another_task :
  question_answer_is_No
    (a_ui_saying_no (Some artist) (Some busy_env) [[0; 0; 0]] "Main" 0)
  = true
  /\ (exists t x,
        In (question t x)
           (log (snd (save_as_pushButton_clicked same_entity "@" next_version
                        no_external_env
                        (a_ui_saying_no (Some artist) (Some busy_env)
                           [[0; 0; 0]] "Main" 0)
                        (a_state [])))))
  /\ fst (save_as_pushButton_clicked same_entity "@" next_version
            no_external_env
            (a_ui_saying_no (Some artist) (Some busy_env)
               [[0; 0; 0]] "Main" 0)
            (a_state []))
     = Return
  /\ committed
       (DBSession
          (snd (save_as_pushButton_clicked same_entity "@" next_version
                  no_external_env
                  (a_ui_saying_no (Some artist) (Some busy_env)
                     [[0; 0; 0]] "Main" 0)
                  (a_state []))))
     = committed (DBSession (a_state []))
  /\ exists new_version,
       In new_version
          (rows
             (DBSession
                (snd (save_as_pushButton_clicked same_entity "@" next_version
                        no_external_env
                        (a_ui_saying_no (Some artist) (Some busy_env)
                           [[0; 0; 0]] "Main" 0)
                        (a_state [])))))
       /\ ~ In new_version (rows (DBSession (a_state []))).
Proof.
  split; [ reflexivity | ].
  destruct (@answer_no_leaves_the_version_pending same_entity "@"
              next_version no_external_env
              (a_ui_saying_no (Some artist) (Some busy_env)
                 [[0; 0; 0]] "Main" 0)
              (a_state []) eq_refl) as (new & Hlog & H).
  assert (Hq : exists t x, In (question t x) new).
  { change (log (a_state [])) with (@nil event) in Hlog.
    cbn [app] in Hlog. rewrite <- Hlog. vm_compute. eauto. }
  destruct (H Hq) as (_ & Hret & Hc & nv & st1 & Hnew & _ & Hin & _).
  split.
  { change (log (a_state [])) with (@nil event) in Hlog.
    cbn [app] in Hlog. rewrite Hlog. exact Hq. }
  split; [ exact Hret | ]. split; [ exact Hc | ].
  exists nv. split; [ exact Hin | ].
  vm_compute in Hnew. injection Hnew as <- _.
  intros Hrow. cbn in Hrow.
  repeat (destruct Hrow as [ Hrow | Hrow ]; [ discriminate Hrow | ]).
  exact Hrow.
Defined.

(** The constructor refuses the take name: save as returns after rolling
    back, export as raises. *)
Lemma a_refused_take_name :
  get_task (a_ui (Some artist) (Some writing_env) [[0; 0; 0]] "Main" 0)
  = Some (ATask chair_model)
  /\ fst (save_as_pushButton_clicked same_entity "@" refusing_version no_external_env
            (a_ui (Some artist) (Some writing_env) [[0; 0; 0]] "Main" 0)
            (a_state []))
     = Return
  /\ fst (export_as_pushButton_clicked refusing_version
            (a_ui (Some artist) (Some writing_env) [[0; 0; 0]] "Main" 0)
            (a_state []))
     = Raise (ValueError "take_name can not be empty").
Proof.
  split; [ reflexivity | ].
  destruct (@constructor_errors same_entity "@" refusing_version no_external_env
              (a_ui (Some artist) (Some writing_env) [[0; 0; 0]] "Main" 0)
              (a_state []) chair_model
              (ValueError "take_name can not be empty")
              "take_name can not be empty" eq_refl eq_refl
              (or_intror eq_refl)) as (H1 & _ & _ & H2 & _).
  split; assumption.
Defined.


(** In a tree that has only the project loaded, the twin of the modelling
    task of the chair is looked for: after the project and the chair have
    been expanded the item of the modelling task of the chair is found and
    selected, and that task, not its twin, is then the selected task. *)
Lemma the_chair_model_is_loaded_and_selected :
  tasks_treeView_model (a_ui (Some artist) None [[0; 0; 0]] "Main" 0)
  = tv_model
      (snd (find_and_select_entity_item_in_treeView same_entity studio
              (Some chair_model_twin) (a_tree_view unloaded_tree)))
  /\ selectedIndexes (a_ui (Some artist) None [[0; 0; 0]] "Main" 0)
     = tv_selectedIndexes
         (snd (find_and_select_entity_item_in_treeView same_entity studio
                 (Some chair_model_twin) (a_tree_view unloaded_tree)))
  /\ tv_is_updating
       (snd (find_and_select_entity_item_in_treeView same_entity studio
               (Some chair_model_twin) (a_tree_view unloaded_tree)))
     = false
  /\ fst (find_and_select_entity_item_in_treeView same_entity studio
            (Some chair_model_twin) (a_tree_view unloaded_tree))
     = Some ([0; 0; 0], Item "Model" (ATask chair_model) [])
  /\ get_task (a_ui (Some artist) None [[0; 0; 0]] "Main" 0)
     = Some (ATask chair_model)
  /\ same_entity (ATask chair_model) (ATask chair_model_twin) = true.
Proof.
  split; [ reflexivity | ]. split; [ reflexivity | ].
  pose proof (@find_and_select_then_get_task same_entity studio
                chair_model_twin (a_tree_view unloaded_tree)
                (a_ui (Some artist) None [[0; 0; 0]] "Main" 0)
                eq_refl eq_refl) as [ H1 H2 ].
  split; [ exact H1 | ]. split; [ reflexivity | ].
  change (fst (find_and_select_entity_item_in_treeView same_entity studio
                 (Some chair_model_twin) (a_tree_view unloaded_tree)))
    with (Some ([0; 0; 0], Item "Model" (ATask chair_model) [])) in H2.
  destruct H2 as (_ & _ & _ & H3 & H4). split; [ exact H3 | exact H4 ].
Defined.

(** A version of the modelling task of the chair, one of its twin and
    one of the look task use a version: the twin is not named. *)
Lemma the_twin_is_not_named :
  In (a_version 31 chair_model_twin "Main" 1 false [7])
     [a_version 30 chair_model "Main" 4 false [7];
      a_version 31 chair_model_twin "Main" 1 false [7];
      a_version 32 chair_look "Main" 2 false [7]]
  /\ related_tasks_of same_entity
       [a_version 30 chair_model "Main" 4 false [7];
        a_version 31 chair_model_twin "Main" 1 false [7];
        a_version 32 chair_look "Main" 2 false [7]]
     = [chair_model; chair_look]
  /\ exists t,
       In t (related_tasks_of same_entity
               [a_version 30 chair_model "Main" 4 false [7];
                a_version 31 chair_model_twin "Main" 1 false [7];
                a_version 32 chair_look "Main" 2 false [7]])
       /\ (chair_model_twin = t
           \/ same_entity (ATask chair_model_twin) (ATask t) = true).
Proof.
  assert (Hin : In (a_version 31 chair_model_twin "Main" 1 false [7])
                   [a_version 30 chair_model "Main" 4 false [7];
                    a_version 31 chair_model_twin "Main" 1 false [7];
                    a_version 32 chair_look "Main" 2 false [7]])
    by (right; left; reflexivity).
  split; [ exact Hin | ]. split; [ reflexivity | ].
  destruct (related_tasks_once same_entity
              [a_version 30 chair_model "Main" 4 false [7];
               a_version 31 chair_model_twin "Main" 1 false [7];
               a_version 32 chair_look "Main" 2 false [7]])
    as (_ & Hnamed & _).
  exact (Hnamed _ Hin).
Defined.


(** The environment returns without writing the file: the error is shown,
    nothing is committed and the dialog is closed all the same. *)
Lemma save_as_with_an_idle_environment :
  exists new,
    log (snd (save_as_pushButton_clicked same_entity "@" next_version no_external_env
                (a_ui (Some artist) (Some idle_env) [[0; 0; 0]] "Main" 0)
                (a_state [])))
    = log (a_state []) ++ new
    /\ fst (save_as_pushButton_clicked same_entity "@" next_version no_external_env
              (a_ui (Some artist) (Some idle_env) [[0; 0; 0]] "Main" 0)
              (a_state []))
       = Return
    /\ (exists before, new = before ++ [close])
    /\ In (not_created_error idle_env) new
    /\ committed
         (DBSession
            (snd (save_as_pushButton_clicked same_entity "@" next_version no_external_env
                    (a_ui (Some artist) (Some idle_env) [[0; 0; 0]] "Main" 0)
                    (a_state []))))
       = committed (DBSession (a_state [])).
Proof.
  destruct (@save_as_after_the_environment_returns same_entity "@" next_version
              no_external_env
              (a_ui (Some artist) (Some idle_env) [[0; 0; 0]] "Main" 0)
              (a_state [])) as (new & Hlog & H).
  exists new. split; [ exact Hlog | ].
  assert (Hnew : exists v rest, new = env_save_as v :: rest
                                /\ save_as idle_env v [] = inr (v, [])).
  { change (log (a_state [])) with (@nil event) in Hlog.
    cbn [app] in Hlog. rewrite <- Hlog. vm_compute. eauto. }
  destruct Hnew as (v & rest & Hnew & Hsave).
  destruct (H idle_env v v [] (or_introl eq_refl)) as (H1 & H2 & _ & H3).
  - rewrite Hnew. left. reflexivity.
  - exact Hsave.
  - split; [ exact H1 | ]. split; [ exact (H2 eq_refl) | ].
    apply H3. reflexivity.
Defined.

(** The GPU representation of the third version is referenced: it is a
    version of the same task, and the third version is published. *)
Lemma the_referenced_representation :
  exists new v ns previous_version,
    log (snd (reference_pushButton_clicked "@" "Base"
                (a_ui (Some guest) (Some writing_env) [[0; 0; 0]] "Main" 2)
                1 (a_state [main1; main2; main3])))
    = log (a_state [main1; main2; main3]) ++ new
    /\ In (env_reference v ns) new
    /\ current_version (versions (a_state [main1; main2; main3]))
         (currentRow
            (a_ui (Some guest) (Some writing_env) [[0; 0; 0]] "Main" 2))
       = Some previous_version
    /\ is_published previous_version = true
    /\ task v = task previous_version
    /\ ns = true.
Proof.
  destruct (@reference_stays_in_the_task "@" "Base"
              (a_ui (Some guest) (Some writing_env) [[0; 0; 0]] "Main" 2)
              1 (a_state [main1; main2; main3])) as (new & Hlog & _ & H).
  assert (Hnew : exists v ns rest, new = env_reference v ns :: rest).
  { change (log (a_state [main1; main2; main3])) with (@nil event) in Hlog.
    cbn [app] in Hlog. rewrite <- Hlog. vm_compute. eauto. }
  destruct Hnew as (v & ns & rest & Hnew).
  destruct (H v ns) as (pv & H1 & H2 & H3 & _ & H4).
  - rewrite Hnew. left. reflexivity.
  - exists new, v, ns, pv.
    split; [ exact Hlog | ].
    split; [ rewrite Hnew; left; reflexivity | ].
    split; [ exact H1 | ]. split; [ exact H2 | ].
    split; [ exact H3 | exact H4 ].
Defined.

(** The box for the third version, and its last button. *)
Lemma the_cancel_button :
  current_version (versions (a_state [main1; main2; main3]))
    (currentRow (a_ui (Some guest) (Some writing_env) [[0; 0; 0]] "Main" 2))
  = Some main3
  /\ is_published main3 = true
  /\ all_reprs (DBSession (a_state [main1; main2; main3])) main3 <> []
  /\ map fst
       (buttons "@" "Base" (DBSession (a_state [main1; main2; main3]))
          writing_env main3)
     = ["Base"; "GPU"; "ASS"; "Cancel"]
  /\ reference_pushButton_clicked "@" "Base"
       (a_ui (Some guest) (Some writing_env) [[0; 0; 0]] "Main" 2) 3
       (a_state [main1; main2; main3])
     = (Return, a_state [main1; main2; main3]).
Proof.
  assert (Hreprs :
            all_reprs (DBSession (a_state [main1; main2; main3])) main3 <> []).
  { intros H. apply (f_equal (@List.length Version)) in H.
    vm_compute in H. discriminate H. }
  split; [ reflexivity | ]. split; [ reflexivity | ].
  split; [ exact Hreprs | ].
  destruct (@which_repr_buttons "@" "Base"
              (a_ui (Some guest) (Some writing_env) [[0; 0; 0]] "Main" 2)
              writing_env main3 (a_state [main1; main2; main3]))
    as (_ & _ & _ & _ & H).
  split; [ reflexivity | ].
  exact (H eq_refl eq_refl eq_refl Hreprs).
Defined.

(** The modelling task of the chair is in the loaded tree: nothing is
    expanded. *)
Lemma nothing_to_load :
  find_entity_item_in_tree_view same_entity (Some (ATask chair_model))
    (tv_model (a_tree_view tree))
  <> None
  /\ tv_model (snd (load_task_item_hierarchy same_entity studio (Some chair_model)
                      (a_tree_view tree)))
     = tree
  /\ tv_expanded (snd (load_task_item_hierarchy same_entity studio (Some chair_model)
                         (a_tree_view tree)))
     = [].
Proof.
  assert (Hfound :
            find_entity_item_in_tree_view same_entity (Some (ATask chair_model))
              (tv_model (a_tree_view tree))
            <> None)
    by (vm_compute; discriminate).
  split; [ exact Hfound | ].
  destruct (@load_task_item_hierarchy_loads same_entity studio chair_model
              (a_tree_view tree)) as (_ & _ & _ & _ & H).
  destruct (H Hfound) as (H1 & H2 & _).
  split; [ exact H1 | exact H2 ].
Defined.

(** The latest Maya file is the second row of the combo box. *)
Lemma the_latest_recent_file :
  environment (a_ui (Some artist) (Some writing_env) [] "Main" 0)
  = Some writing_env
  /\ rfm_getitem (recent_files_on_disk some_recent) (env_name writing_env)
     = Some ["/film/chair/v003.ma"; "/film/chair/v002.ma"]
  /\ nth_error
       (recent_files_comboBox
          (update_recent_files_combo_box
             (a_ui (Some artist) (Some writing_env) [] "Main" 0) some_recent))
       1
     = Some {| item_label := "v003.ma"; userData := "/film/chair/v003.ma";
               toolTip := "/film/chair/v003.ma" |}.
Proof.
  split; [ reflexivity | ]. split; [ reflexivity | ].
  destruct (@update_recent_files_combo_box_entries
              (a_ui (Some artist) (Some writing_env) [] "Main" 0) some_recent)
    as (_ & _ & _ & H).
  destruct (H writing_env ["/film/chair/v003.ma"; "/film/chair/v002.ma"]
              eq_refl eq_refl) as (_ & _ & _ & Hrow & _).
  exact (Hrow 0 "/film/chair/v003.ma" ltac:(lia) eq_refl).
Defined.

(** Clearing the recent files of Maya leaves those of Nuke. *)
Lemma the_recent_files_of_nuke :
  environment (a_ui (Some artist) (Some writing_env) [] "Main" 0)
  = Some writing_env
  /\ "Nuke" <> env_name writing_env
  /\ rfm_getitem
       (recent_files_on_disk
          (clear_recent_file_push_button_clicked
             (a_ui (Some artist) (Some writing_env) [] "Main" 0) some_recent))
       (env_name writing_env)
     = Some []
  /\ rfm_getitem
       (recent_files_on_disk
          (clear_recent_file_push_button_clicked
             (a_ui (Some artist) (Some writing_env) [] "Main" 0) some_recent))
       "Nuke"
     = Some ["/film/comp.nk"].
Proof.
  assert (Hother : "Nuke" <> env_name writing_env) by discriminate.
  split; [ reflexivity | ]. split; [ exact Hother | ].
  destruct (@clear_recent_files_only_of_the_environment
              (a_ui (Some artist) (Some writing_env) [] "Main" 0) some_recent)
    as (_ & H).
  destruct (H writing_env eq_refl) as (_ & H1 & H2).
  split; [ exact H1 | ].
  exact (H2 "Nuke" Hother).
Defined.

(** The scene has unsaved changes and the user answers Yes: the dialog is
    closed at the end. *)
Lemma open_over_unsaved_changes :
  environment (a_ui None (Some writing_env) [] "Main" 1) <> None
  /\ list_index ref_depth_res (ref_depth_comboBox (open_widgets true))
     = Some 2
  /\ fst (open_pushButton_clicked (a_ui None (Some writing_env) [] "Main" 1)
            (open_widgets true) unsaved_scene [main1; main2; main3])
     = Return
  /\ exists before,
       snd (open_pushButton_clicked (a_ui None (Some writing_env) [] "Main" 1)
              (open_widgets true) unsaved_scene [main1; main2; main3])
       = before ++ [ui_event close].
Proof.
  assert (Henv : environment (a_ui None (Some writing_env) [] "Main" 1)
                 <> None) by discriminate.
  split; [ exact Henv | ]. split; [ reflexivity | ].
  split; [ reflexivity | ].
  destruct (@open_closes_unless_refused
              (a_ui None (Some writing_env) [] "Main" 1)
              (open_widgets true) unsaved_scene [main1; main2; main3])
    as (_ & _ & H).
  destruct (H 2 Henv eq_refl) as (_ & _ & _ & Hclose).
  destruct (Hclose eq_refl) as [ Hlast | (Hno & _) ].
  - exact Hlast.
  - discriminate Hno.
Defined.

(** The second version is not published: it is imported, not
    referenced. *)
Lemma import_of_an_unpublished_version :
  environment (a_ui None (Some writing_env) [] "Main" 1) <> None
  /\ current_version (versions (a_state [main1; main2; main3]))
       (currentRow (a_ui None (Some writing_env) [] "Main" 1))
     = Some main2
  /\ is_published main2 = false
  /\ In (call_import (Some main2) true)
       (snd (import_pushButton_clicked
               (a_ui None (Some writing_env) [] "Main" 1) unsaved_scene
               (versions (a_state [main1; main2; main3]))))
  /\ reference_pushButton_clicked "@" "Base"
       (a_ui None (Some writing_env) [] "Main" 1) 0
       (a_state [main1; main2; main3])
     = (Return,
        emit unpublished_reference_error (a_state [main1; main2; main3])).
Proof.
  assert (Henv : environment (a_ui None (Some writing_env) [] "Main" 1)
                 <> None) by discriminate.
  split; [ exact Henv | ]. split; [ reflexivity | ].
  split; [ reflexivity | ].
  destruct (@import_checks_nothing "@" "Base"
              (a_ui None (Some writing_env) [] "Main" 1) unsaved_scene 0
              (a_state [main1; main2; main3])) as (_ & H).
  destruct (H Henv) as (_ & _ & Hv).
  exact (Hv main2 eq_refl eq_refl).
Defined.
